(** * DXF to JSON conversion (DXFtoJSONV12.py): a shallow embedding

    The converter reads a CAD document through the ezdxf object model,
    normalises every entity into a Python dict, recentres the modelspace
    and returns one JSON-like document.  The embedding follows the
    source function by function:

    - numbers are Python floats.  The arithmetic the source uses is an
      interface, [Arith], with two instances: IEEE binary64 (what the
      interpreter runs, on the kernel's primitive floats) and exact
      rationals (the arithmetic the geometric statements idealise);
    - every dict built by [entity_to_json] is an object in a store, and
      the lists [entities], [blocks[...]] and [attributes] hold
      references into it, because step 5 of [parse_dxf] mutates the
      dicts in place;
    - an attribute access or call into ezdxf that can throw is an
      [access] value, and exceptions propagate through a state and
      error monad unless a [try] of the source catches them;
    - the loop of the [__main__] block runs over the files of [DXFs/]
      with the directory [JSONs/] as a finite map from stems to files;
    - of the renderer (renderer.py) and its endpoint (API/api.py), the
      filters and the loops that select what is drawn are embedded;
      what matplotlib makes of the selection is a parameter. *)

From Stdlib Require Import Floats SpecFloat ZArith QArith Qabs Lqa.
From Stdlib Require Import Ascii String.
From stdpp Require Import gmap strings list fin_maps.

Set Warnings "-inexact-float,-register-all".
Local Open Scope Z_scope.

(** ** Arithmetic interface *)

(** The operations of Python's [float] that the converter uses.
    [hypot] is [math.hypot], [round4] is [round(_, 4)], [fhalf] is
    division by the literal 2 and [flt], [feq] are [<] and [==]. *)
Class Arith (F : Type) := {
  fzero : F;
  fone : F;
  fadd : F → F → F;
  fsub : F → F → F;
  fmul : F → F → F;
  fopp : F → F;
  fhalf : F → F;
  fabs : F → F;
  flt : F → F → bool;
  feq : F → F → bool;
  hypot : F → F → F;
  round4 : F → F
}.

(** *** IEEE binary64 *)

Module Binary64.

(** Round a non-negative rational [num / den] to the nearest integer,
    ties to even. *)
Definition round_half_even (num den : Z) : Z :=
  let q := num / den in
  let r := num mod den in
  match 2 * r ?= den with
  | Lt => q
  | Gt => q + 1
  | Eq => if Z.even q then q else q + 1
  end.

(** Python's [round(x, 4)] on a float: the exact value of [x] is
    rounded half-even to four decimals and the nearest double to that
    decimal is returned; zeros, infinities and NaN are returned as
    they are. *)
Definition float_round4 (x : float) : float :=
  match Prim2SF x with
  | S754_finite s m e =>
      let n := if 0 <=? e
               then Z.pos m * 2 ^ e * 10000
               else round_half_even (Z.pos m * 10000) (2 ^ (- e)) in
      match n with
      | Z.pos p => SF2Prim (SFdiv prec emax (S754_finite s p 0)
                                             (S754_finite false 10000 0))
      | _ => SF2Prim (S754_zero s)
      end
  | _ => x
  end.

(** [math.hypot]: the Euclidean norm rounded once to the nearest
    double, with no overflow or underflow on the way.  The sum of the
    squares is formed exactly, as an integer times a power of two, and
    its square root is rounded to binary64.  An infinite argument gives
    infinity, also beside a NaN; otherwise a NaN gives NaN.  The
    interpreter's function keeps its error below one unit in the last
    place: it returns this double or, on rare inputs, the one next to
    it.  The statements about the metrics take the function as a
    parameter; this one serves the sample computations. *)
Definition float_hypot (x y : float) : float :=
  if is_infinity x || is_infinity y then infinity
  else if is_nan x || is_nan y then nan
  else
    match Prim2SF x, Prim2SF y with
    | S754_finite _ mx ex, S754_finite _ my ey =>
        let e := Z.min ex ey in
        let m := Z.pos mx ^ 2 * 2 ^ (2 * (ex - e))
                 + Z.pos my ^ 2 * 2 ^ (2 * (ey - e)) in
        SF2Prim (SFsqrt prec emax (S754_finite false (Z.to_pos m) (2 * e)))
    | S754_finite _ _ _, _ => abs x
    | _, S754_finite _ _ _ => abs y
    | _, _ => 0%float
    end.

Definition arith (hyp : float → float → float) (rnd : float → float)
  : Arith float :=
  {| fzero := 0%float;
     fone := 1%float;
     fadd := PrimFloat.add;
     fsub := PrimFloat.sub;
     fmul := PrimFloat.mul;
     fopp := PrimFloat.opp;
     fhalf := fun x => (x / 2)%float;
     fabs := PrimFloat.abs;
     flt := PrimFloat.ltb;
     feq := PrimFloat.eqb;
     hypot := hyp;
     round4 := rnd |}.

Definition python : Arith float := arith float_hypot float_round4.

End Binary64.

(** *** Exact rationals *)

Module Exact.

Definition ltb (x y : Q) : bool :=
  match (x ?= y)%Q with Lt => true | _ => false end.

Definition arith (hyp : Q → Q → Q) (rnd : Q → Q) : Arith Q :=
  {| fzero := 0%Q;
     fone := 1%Q;
     fadd := Qplus;
     fsub := Qminus;
     fmul := Qmult;
     fopp := Qopp;
     fhalf := fun x => (x / 2)%Q;
     fabs := Qabs;
     flt := ltb;
     feq := Qeq_bool;
     hypot := hyp;
     round4 := rnd |}.

End Exact.

(** ** Geometry metrics *)

Section Metrics.
Context {F : Type} {A : Arith F}.

(** A vertex is the two-element list [[x, y]]. *)
Local Abbreviation point := (F * F)%type.

(** [calculate_length]: the loop runs over [range(len(vertices) - 1)]
    and reads [vertices[i]] and [vertices[i + 1]]; both indices are in
    range, so the lookups below never miss. *)
Definition calculate_length (vertices : list point) : F :=
  if (length vertices <? 2)%nat then fzero
  else
    round4
      (fold_left
         (fun total_length i =>
            match vertices !! i, vertices !! (i + 1)%nat with
            | Some (x1, y1), Some (x2, y2) =>
                fadd total_length (hypot (fsub x2 x1) (fsub y2 y1))
            | _, _ => total_length
            end)
         (seq 0 (length vertices - 1)) fzero).

(** [calculate_area]: [j = (i + 1) % n]; the sum is updated twice per
    iteration, first [+=] then [-=]. *)
Definition calculate_area (vertices : list point) : F :=
  if (length vertices <? 3)%nat then fzero
  else
    let n := length vertices in
    round4
      (fhalf
         (fabs
            (fold_left
               (fun area i =>
                  let j := ((i + 1) mod n)%nat in
                  match vertices !! i, vertices !! j with
                  | Some (xi, yi), Some (xj, yj) =>
                      fsub (fadd area (fmul xi yj)) (fmul xj yi)
                  | _, _ => area
                  end)
               (seq 0 n) fzero))).

(** *** The metrics in the words of the specification *)

(** Distance between two points. *)
Definition distance (p q : point) : F :=
  hypot (fsub (fst q) (fst p)) (fsub (snd q) (snd p)).

(** A running value updated once per pair of consecutive points. *)
Fixpoint pair_fold (step : F → point → point → F) (acc : F)
         (V : list point) : F :=
  match V with
  | p :: (q :: _) as rest => pair_fold step (step acc p q) rest
  | _ => acc
  end.

(** Sum of the distances between consecutive points, accumulated
    from the first segment on. *)
Definition path_sum (acc : F) (V : list point) : F :=
  pair_fold (fun acc p q => fadd acc (distance p q)) acc V.

(** One shoelace term added to the running sum. *)
Definition shoelace_step (acc : F) (p q : point) : F :=
  fsub (fadd acc (fmul (fst p) (snd q))) (fmul (fst q) (snd p)).

Definition shoelace_sum (acc : F) (V : list point) : F :=
  pair_fold shoelace_step acc V.

(** The polygon closed by its first point. *)
Definition closed (V : list point) : list point :=
  match V with
  | [] => []
  | p :: _ => V ++ [p]
  end.

Definition length_spec (V : list point) : F :=
  if (length V <? 2)%nat then fzero else round4 (path_sum fzero V).

Definition area_spec (V : list point) : F :=
  if (length V <? 3)%nat then fzero
  else round4 (fhalf (fabs (shoelace_sum fzero (closed V)))).

End Metrics.

(** ** Strings and colours *)

(** Python strings are sequences of code points; the embedding keeps
    the code points below 256, one per [ascii]. *)

(** [str.isspace] on those code points. *)
Definition is_space (c : ascii) : bool :=
  let n := nat_of_ascii c in
  ((9 <=? n) && (n <=? 13) || (28 <=? n) && (n <=? 32)
   || (n =? 133) || (n =? 160))%nat.

Fixpoint lstrip (s : string) : string :=
  match s with
  | EmptyString => EmptyString
  | String c s' => if is_space c then lstrip s' else s
  end.

Fixpoint string_rev (s : string) : string :=
  match s with
  | EmptyString => EmptyString
  | String c s' => (string_rev s' ++ String c EmptyString)%string
  end.

Definition rstrip (s : string) : string := string_rev (lstrip (string_rev s)).

(** [str.strip()] without argument. *)
Definition strip (s : string) : string := rstrip (lstrip s).

(** [str.lower] on those code points: the capital letters of ASCII
    and of Latin-1. *)
Definition lower_char (c : ascii) : ascii :=
  let n := nat_of_ascii c in
  if ((65 <=? n) && (n <=? 90)
      || (192 <=? n) && (n <=? 222) && negb (n =? 215))%nat
  then ascii_of_nat (n + 32)
  else c.

Fixpoint lower (s : string) : string :=
  match s with
  | EmptyString => EmptyString
  | String c s' => String (lower_char c) (lower s')
  end.

(** [s.startswith(p)]. *)
Definition startswith (s p : string) : bool := String.prefix p s.

(** [ezdxf.colors.int2rgb]: splits a packed [0xRRGGBB] integer. *)
Definition int2rgb (value : Z) : Z * Z * Z :=
  (Z.land (Z.shiftr value 16) 255,
   Z.land (Z.shiftr value 8) 255,
   Z.land value 255).

Definition hex_digit (n : Z) : ascii :=
  if n <? 10 then ascii_of_nat (Z.to_nat (48 + n))
  else ascii_of_nat (Z.to_nat (87 + n)).

(** ["{:02x}".format(n)] for [0 <= n <= 255], the range of the
    components [int2rgb] returns. *)
Definition format_02x (n : Z) : string :=
  String (hex_digit (n / 16)) (String (hex_digit (n mod 16)) EmptyString).

(** ["#{:02x}{:02x}{:02x}".format( *rgb)]. *)
Definition format_rgb (rgb : Z * Z * Z) : string :=
  let '(r, g, b) := rgb in
  ("#" ++ format_02x r ++ format_02x g ++ format_02x b)%string.

Definition _aci_to_hex (aci : Z) : string :=
  if (aci <? 0) || (aci >? 255) then "#000000"%string
  else format_rgb (int2rgb aci).

(** [DXF_UNITS.get(unit_code, "Unitless")]. *)
Definition micro : string := String (ascii_of_nat 181) EmptyString.
Definition angstrom : string := String (ascii_of_nat 197) EmptyString.

Definition DXF_UNITS (code : Z) : option string :=
  match code with
  | 0 => Some "Unitless" | 1 => Some "in" | 2 => Some "ft" | 3 => Some "mi"
  | 4 => Some "mm" | 5 => Some "cm" | 6 => Some "m" | 7 => Some "km"
  | 8 => Some (micro ++ "in") | 9 => Some "mil" | 10 => Some "yd"
  | 11 => Some angstrom | 12 => Some "nm" | 13 => Some (micro ++ "m")
  | 14 => Some "dm" | 15 => Some "dam" | 16 => Some "hm" | 17 => Some "Gm"
  | 18 => Some "AU" | 19 => Some "ly" | 20 => Some "pc"
  | _ => None
  end%string.

(** ** The source document, as ezdxf presents it *)

(** Outcome of an attribute access or a call into ezdxf: a value, or an
    exception. *)
Inductive access (A : Type) : Type :=
  | Got (a : A)
  | Raised.
Arguments Got {A} a.
Arguments Raised {A}.

(** What the converter asks of one raw entity.  [entity.dxf.get(k, d)]
    is an [access (option _)]: the attribute is set, unset, or the
    lookup throws.  [dxf_rotation] is read both behind [hasattr] and
    directly: [Got None] is the entity type that has no such attribute.
    [flattening] is the vertex list
    [list(path.make_path(entity).flattening(FLATTEN_TOLERANCE))]. *)
Record DXFEntity (F : Type) := {
  dxftype : string;
  dxf_true_color : option Z;
  dxf_color : access Z;
  dxf_linetype : access (option string);
  dxf_lineweight : access (option Z);
  dxf_layer : access string;
  dxf_handle : access string;
  dxf_text : access string;
  plain_text : access string;
  dxf_insert : access (F * F);
  dxf_rotation : access (option F);
  dxf_xscale : access (option F);
  dxf_yscale : access (option F);
  dxf_zscale : access (option F);
  dxf_name : access string;
  flattening : access (list (F * F))
}.
Arguments dxftype {F} _.
Arguments dxf_true_color {F} _.
Arguments dxf_color {F} _.
Arguments dxf_linetype {F} _.
Arguments dxf_lineweight {F} _.
Arguments dxf_layer {F} _.
Arguments dxf_handle {F} _.
Arguments dxf_text {F} _.
Arguments plain_text {F} _.
Arguments dxf_insert {F} _.
Arguments dxf_rotation {F} _.
Arguments dxf_xscale {F} _.
Arguments dxf_yscale {F} _.
Arguments dxf_zscale {F} _.
Arguments dxf_name {F} _.
Arguments flattening {F} _.

(** A raw entity with the entities of its [attribs] list. *)
Inductive RawEntity (F : Type) : Type :=
  | Raw (entity : DXFEntity F) (attribs : list (RawEntity F)).
Arguments Raw {F} entity attribs.

Record RawLayer := {
  layer_name : string;
  layer_rgb : option (Z * Z * Z);
  layer_color : Z;
  is_frozen : bool;
  is_locked : bool
}.

Record RawBlock (F : Type) := {
  block_name : string;
  block_entities : list (RawEntity F)
}.
Arguments block_name {F} _.
Arguments block_entities {F} _.

Record RawDocument (F : Type) := {
  header_insunits : option Z;
  doc_layers : list RawLayer;
  doc_blocks : list (RawBlock F);
  modelspace : list (RawEntity F)
}.
Arguments header_insunits {F} _.
Arguments doc_layers {F} _.
Arguments doc_blocks {F} _.
Arguments modelspace {F} _.

(** ** The dicts of the output *)

(** A reference to a dict in the store. *)
Abbreviation loc := nat.

(** The keys a dict has beyond the six shared ones, by branch of
    [entity_to_json].  The keys ["length (u)"] and ["area (u^2)"] are
    kept with their values. *)
Inductive Body (F : Type) : Type :=
  | TextBody (text : string) (insert : F * F) (rotation : F)
  | InsertBody (blockname : string) (insert : F * F) (rotation : F)
               (scale : F * F * F) (attributes : list loc)
  | GeometryBody (len_key : string) (len : F) (area_key : string) (area : F)
                 (vertices : list (F * F)) (vertex_count : nat).
Arguments TextBody {F} _ _ _.
Arguments InsertBody {F} _ _ _ _ _.
Arguments GeometryBody {F} _ _ _ _ _ _.

Record Entity (F : Type) := {
  e_type : string;
  e_layer : string;
  e_color_hex : option string;
  e_linetype : string;
  e_lineweight : Z;
  e_id : string;
  e_body : Body F
}.
Arguments e_type {F} _.
Arguments e_layer {F} _.
Arguments e_color_hex {F} _.
Arguments e_linetype {F} _.
Arguments e_lineweight {F} _.
Arguments e_id {F} _.
Arguments e_body {F} _.

Record LayerInfo := {
  li_color : string;
  li_frozen : bool;
  li_locked : bool
}.

Record CADDocument (F : Type) := {
  filename : string;
  units : string;
  unit_code : Z;
  offset : F * F;
  layers : gmap string LayerInfo;
  blocks : gmap string (list loc);
  entities : list loc
}.
Arguments filename {F} _.
Arguments units {F} _.
Arguments unit_code {F} _.
Arguments offset {F} _.
Arguments layers {F} _.
Arguments blocks {F} _.
Arguments entities {F} _.

(** ** State and exceptions *)

Inductive res (A : Type) : Type :=
  | Ok (a : A)
  | Exn.
Arguments Ok {A} a.
Arguments Exn {A}.

(** The store: the dict at reference [l] is the [l]-th element. *)
Abbreviation store F := (list (Entity F)).

Section Monad.
Context {F : Type}.

Definition M (X : Type) : Type := store F → res (X * store F).

Definition ret {X} (x : X) : M X := fun h => Ok (x, h).

Definition bind {X Y} (m : M X) (k : X → M Y) : M Y :=
  fun h => match m h with
           | Ok (x, h') => k x h'
           | Exn => Exn
           end.

Definition raise {X} : M X := fun _ => Exn.

(** [try: m except: return d]. *)
Definition try_except {X} (m : M X) (d : X) : M X :=
  fun h => match m h with
           | Ok r => Ok r
           | Exn => Ok (d, h)
           end.

(** An access inside the monad: the value, or the exception. *)
Definition attempt {X} (a : access X) : M X :=
  match a with
  | Got x => ret x
  | Raised => raise
  end.

(** A new dict. *)
Definition alloc (d : Entity F) : M loc :=
  fun h => Ok (length h, h ++ [d]).

(** Reading through a reference; one that is not in the store throws
    (the converter only follows references it has stored). *)
Definition read (l : loc) : M (Entity F) :=
  fun h => match h !! l with
           | Some d => Ok (d, h)
           | None => Exn
           end.

Definition write (l : loc) (d : Entity F) : M unit :=
  fun h => Ok (tt, <[l := d]> h).

(** [for x in xs: r = f(x); if r: out.append(r)]. *)
Definition collect {X} (f : X → M (option loc)) : list X → M (list loc) :=
  fix go (xs : list X) : M (list loc) :=
    match xs with
    | [] => ret []
    | x :: xs' =>
        bind (f x) (fun r =>
        bind (go xs') (fun rest =>
        ret (match r with Some l => l :: rest | None => rest end)))
    end.

(** [for x in xs: f(x)]. *)
Definition for_each {X} (f : X → M unit) : list X → M unit :=
  fix go (xs : list X) : M unit :=
    match xs with
    | [] => ret tt
    | x :: xs' => bind (f x) (fun _ => go xs')
    end.

(** [[f(x) for x in xs]] with a stateful body. *)
Definition map_m {X Y} (f : X → M Y) : list X → M (list Y) :=
  fix go (xs : list X) : M (list Y) :=
    match xs with
    | [] => ret []
    | x :: xs' =>
        bind (f x) (fun y => bind (go xs') (fun ys => ret (y :: ys)))
    end.

End Monad.
Arguments M F X : clear implicits.

Notation "'let*' x ':=' m 'in' k" := (bind m (fun x => k))
  (at level 10, x name, m at level 100, k at level 200).
Notation "'do' m 'then' k" := (bind m (fun _ => k))
  (at level 10, m at level 100, k at level 200).

(** ** The converter *)

Section Converter.
Context {F : Type} {A : Arith F}.

(** [get_layer_hex(doc, layer_name)].  [doc.layers.get] finds the
    layer by the key of the table, which is the name in lower case, or
    throws [ValueError], which is caught. *)
Definition get_layer_hex (table : list RawLayer) (name : string) : string :=
  match List.find (fun l => String.eqb (lower (layer_name l)) (lower name))
                  table with
  | None => "#000000"%string
  | Some layer =>
      match layer_rgb layer with
      | Some rgb => format_rgb rgb
      | None => _aci_to_hex (layer_color layer)
      end
  end.

(** [get_entity_hex(entity)]. *)
Definition get_entity_hex (entity : DXFEntity F) : M F (option string) :=
  match dxf_true_color entity with
  | Some true_color => ret (Some (format_rgb (int2rgb true_color)))
  | None =>
      let* c := attempt (dxf_color entity) in
      if c =? 256 then ret None else ret (Some (_aci_to_hex c))
  end.

Definition is_text_type (t : string) : bool :=
  (String.eqb t "TEXT" || String.eqb t "MTEXT"
   || String.eqb t "ATTRIB" || String.eqb t "ATTDEF")%string.

Definition or_default {X} (d : X) (o : option X) : X :=
  match o with Some x => x | None => d end.

(** [entity_to_json(entity, unit_name)].  The shared keys are read
    before any [try]; the text and the geometry branch run inside
    one, the INSERT branch does not.  The dict is entered in the store
    when it is returned. *)
Fixpoint entity_to_json (e : RawEntity F) (unit_name : string)
  : M F (option loc) :=
  match e with
  | Raw entity attribs =>
      let dxftype := dxftype entity in
      let* hex_color := get_entity_hex entity in
      let* linetype := attempt (dxf_linetype entity) in
      let* lineweight := attempt (dxf_lineweight entity) in
      let* layer := attempt (dxf_layer entity) in
      let* handle := attempt (dxf_handle entity) in
      let data body :=
        {| e_type := dxftype;
           e_layer := layer;
           e_color_hex := hex_color;
           e_linetype := or_default "Continuous"%string linetype;
           e_lineweight := or_default (-1) lineweight;
           e_id := handle;
           e_body := body |} in
      if is_text_type dxftype then
        try_except
          (let* content := attempt (if String.eqb dxftype "MTEXT"
                                then plain_text entity
                                else dxf_text entity) in
           let* insert := attempt (dxf_insert entity) in
           let* rotation := attempt (dxf_rotation entity) in
           if String.eqb content "" || String.eqb (strip content) ""
           then ret None
           else
             let* l := alloc (data (TextBody content insert
                                      (or_default fzero rotation))) in
             ret (Some l))
          None
      else if String.eqb dxftype "INSERT" then
        let* sx := attempt (dxf_xscale entity) in
        let* sy := attempt (dxf_yscale entity) in
        let* sz := attempt (dxf_zscale entity) in
        let* name := attempt (dxf_name entity) in
        let* insert := attempt (dxf_insert entity) in
        let* rotation := attempt (dxf_rotation entity) in
        match rotation with
        | None => raise
        | Some rotation =>
            let* attributes :=
              collect (fun attrib => entity_to_json attrib unit_name)
                      attribs in
            let* l := alloc (data (InsertBody name insert rotation
                                     (or_default fone sx,
                                      or_default fone sy,
                                      or_default fone sz)
                                     attributes)) in
            ret (Some l)
        end
      else
        try_except
          (let* v_list := attempt (flattening entity) in
           match v_list with
           | [] => ret None
           | _ =>
               let len_key := ("length (" ++ unit_name ++ ")")%string in
               let area_key := ("area (" ++ unit_name ++ "^2)")%string in
               let* l := alloc (data (GeometryBody
                                        len_key (calculate_length v_list)
                                        area_key (calculate_area v_list)
                                        v_list (length v_list))) in
               ret (Some l)
           end)
          None
  end.

(** *** Steps of [parse_dxf] *)

(** Step 1: the layer table. *)
Definition layer_table (table : list RawLayer) : gmap string LayerInfo :=
  fold_left
    (fun layers layer =>
       <[layer_name layer :=
           {| li_color := get_layer_hex table (layer_name layer);
              li_frozen := is_frozen layer;
              li_locked := is_locked layer |}]> layers)
    table ∅.

(** Step 2: the block table, anonymous blocks skipped, blocks without
    an entity left out. *)
Fixpoint block_table (bs : list (RawBlock F)) (unit_name : string)
         (blocks : gmap string (list loc)) : M F (gmap string (list loc)) :=
  match bs with
  | [] => ret blocks
  | block :: bs' =>
      if startswith (block_name block) "*"
      then block_table bs' unit_name blocks
      else
        let* block_entities :=
          collect (fun e => entity_to_json e unit_name)
                  (block_entities block) in
        match block_entities with
        | [] => block_table bs' unit_name blocks
        | _ => block_table bs' unit_name
                 (<[block_name block := block_entities]> blocks)
        end
  end.

(** Step 4: the coordinates the offset is computed from. *)
Definition coordinates (d : Entity F) : list (F * F) :=
  match e_body d with
  | GeometryBody _ _ _ _ vertices _ => vertices
  | TextBody _ insert _ => [insert]
  | InsertBody _ insert _ _ _ => [insert]
  end.

Definition all_coordinates (entities : list loc) : M F (list (F * F)) :=
  let* ds := map_m read entities in
  ret (concat (List.map coordinates ds)).

(** [min(xs)] and [max(xs)] of a non-empty list: the first element is
    kept until a later one compares strictly below (above) it. *)
Definition py_min (x : F) (xs : list F) : F :=
  fold_left (fun m v => if flt v m then v else m) xs x.

Definition py_max (x : F) (xs : list F) : F :=
  fold_left (fun m v => if flt m v then v else m) xs x.

(** [all_x] and [all_y] are the two projections of one list of
    points. *)
Definition compute_offset (all_xy : list (F * F)) : F * F :=
  match all_xy with
  | [] => (fzero, fzero)
  | (x, y) :: rest =>
      let cx := fhalf (fadd (py_min x (List.map fst rest))
                            (py_max x (List.map fst rest))) in
      let cy := fhalf (fadd (py_min y (List.map snd rest))
                            (py_max y (List.map snd rest))) in
      (fopp cx, fopp cy)
  end.

Definition shift (o : F * F) (p : F * F) : F * F :=
  (fadd (fst p) (fst o), fadd (snd p) (snd o)).

Definition with_body (d : Entity F) (b : Body F) : Entity F :=
  {| e_type := e_type d;
     e_layer := e_layer d;
     e_color_hex := e_color_hex d;
     e_linetype := e_linetype d;
     e_lineweight := e_lineweight d;
     e_id := e_id d;
     e_body := b |}.

(** The first two [if]s of step 5 on one dict: ["vertices"] is
    rebound to the shifted list, ["insert"] is updated in place. *)
Definition shift_entity (o : F * F) (d : Entity F) : Entity F :=
  with_body d
    match e_body d with
    | GeometryBody lk l ak a vertices n =>
        GeometryBody lk l ak a (List.map (shift o) vertices) n
    | TextBody t insert r => TextBody t (shift o insert) r
    | InsertBody b insert r s attrs => InsertBody b (shift o insert) r s attrs
    end.

(** [attr["insert"][0] += ...]: a dict without the key throws. *)
Definition shift_attribute (o : F * F) (a : loc) : M F unit :=
  let* d := read a in
  match e_body d with
  | GeometryBody _ _ _ _ _ _ => raise
  | TextBody t insert r => write a (with_body d (TextBody t (shift o insert) r))
  | InsertBody b insert r s attrs =>
      write a (with_body d (InsertBody b (shift o insert) r s attrs))
  end.

Definition apply_offset_entity (o : F * F) (l : loc) : M F unit :=
  let* d := read l in
  do write l (shift_entity o d) then
  match e_body d with
  | InsertBody _ _ _ _ attributes =>
      if String.eqb (e_type d) "INSERT"
      then for_each (shift_attribute o) attributes
      else ret tt
  | _ => ret tt
  end.

(** Step 5. *)
Definition apply_offset (o : F * F) (entities : list loc) : M F unit :=
  for_each (apply_offset_entity o) entities.

(** Steps 1 to 3: everything before the offset. *)
Definition normalize_document (name : string) (doc : RawDocument F)
  : M F (CADDocument F) :=
  let unit_code := or_default 0 (header_insunits doc) in
  let unit_name := or_default "Unitless"%string (DXF_UNITS unit_code) in
  let layers := layer_table (doc_layers doc) in
  let* blocks := block_table (doc_blocks doc) unit_name ∅ in
  let* entities :=
    collect (fun e => entity_to_json e unit_name) (modelspace doc) in
  ret {| filename := name;
         units := unit_name;
         unit_code := unit_code;
         offset := (fzero, fzero);
         layers := layers;
         blocks := blocks;
         entities := entities |}.

(** Steps 4 and 5 on the lists built so far. *)
Definition recenter (d : CADDocument F) : M F (CADDocument F) :=
  let* all_xy := all_coordinates (entities d) in
  let offset := compute_offset all_xy in
  do apply_offset offset (entities d) then
  ret {| filename := filename d;
         units := units d;
         unit_code := unit_code d;
         offset := offset;
         layers := layers d;
         blocks := blocks d;
         entities := entities d |}.

(** [parse_dxf(filepath)]: [file] is the outcome of
    [ezdxf.readfile(filepath)]; when that throws, [None] is
    returned. *)
Definition parse_dxf (name : string) (file : access (RawDocument F))
  : M F (option (CADDocument F)) :=
  match file with
  | Raised => ret None
  | Got doc =>
      let* d := normalize_document name doc in
      let* d' := recenter d in
      ret (Some d')
  end.

End Converter.

(** ** Sample documents *)

Module Samples.
Section Samples.
Context {F : Type}.

(** An entity with the shared attributes set and nothing else: every
    type-specific access throws. *)
Definition bare (t handle : string) : DXFEntity F :=
  {| dxftype := t;
     dxf_true_color := None;
     dxf_color := Got 256;
     dxf_linetype := Got None;
     dxf_lineweight := Got None;
     dxf_layer := Got "0"%string;
     dxf_handle := Got handle;
     dxf_text := Raised;
     plain_text := Raised;
     dxf_insert := Raised;
     dxf_rotation := Raised;
     dxf_xscale := Raised;
     dxf_yscale := Raised;
     dxf_zscale := Raised;
     dxf_name := Raised;
     flattening := Raised |}.

Definition with_flattening (e : DXFEntity F) (v : access (list (F * F)))
  : DXFEntity F :=
  {| dxftype := dxftype e;
     dxf_true_color := dxf_true_color e;
     dxf_color := dxf_color e;
     dxf_linetype := dxf_linetype e;
     dxf_lineweight := dxf_lineweight e;
     dxf_layer := dxf_layer e;
     dxf_handle := dxf_handle e;
     dxf_text := dxf_text e;
     plain_text := plain_text e;
     dxf_insert := dxf_insert e;
     dxf_rotation := dxf_rotation e;
     dxf_xscale := dxf_xscale e;
     dxf_yscale := dxf_yscale e;
     dxf_zscale := dxf_zscale e;
     dxf_name := dxf_name e;
     flattening := v |}.

(** A polyline-like entity whose flattening is [vs]. *)
Definition path_entity (t handle : string) (vs : list (F * F))
  : RawEntity F :=
  Raw (with_flattening (bare t handle) (Got vs)) [].

(** A TEXT or ATTRIB entity. *)
Definition text_entity (t handle content : string) (insert : access (F * F))
           (rotation : F) : RawEntity F :=
  Raw {| dxftype := t;
         dxf_true_color := None;
         dxf_color := Got 256;
         dxf_linetype := Got None;
         dxf_lineweight := Got None;
         dxf_layer := Got "0"%string;
         dxf_handle := Got handle;
         dxf_text := Got content;
         plain_text := Raised;
         dxf_insert := insert;
         dxf_rotation := Got (Some rotation);
         dxf_xscale := Raised;
         dxf_yscale := Raised;
         dxf_zscale := Raised;
         dxf_name := Raised;
         flattening := Raised |} [].

(** An INSERT with its attached attributes; [insert] is the outcome
    of reading the insertion point. *)
Definition insert_entity (handle name : string) (insert : access (F * F))
           (rotation : F) (attribs : list (RawEntity F)) : RawEntity F :=
  Raw {| dxftype := "INSERT"%string;
         dxf_true_color := None;
         dxf_color := Got 256;
         dxf_linetype := Got None;
         dxf_lineweight := Got None;
         dxf_layer := Got "0"%string;
         dxf_handle := Got handle;
         dxf_text := Raised;
         plain_text := Raised;
         dxf_insert := insert;
         dxf_rotation := Got (Some rotation);
         dxf_xscale := Got None;
         dxf_yscale := Got None;
         dxf_zscale := Got None;
         dxf_name := Got name;
         flattening := Raised |} attribs.

Definition document (bs : list (RawBlock F)) (msp : list (RawEntity F))
  : RawDocument F :=
  {| header_insunits := Some 4;
     doc_layers := [ {| layer_name := "0"%string; layer_rgb := None;
                        layer_color := 7; is_frozen := false;
                        is_locked := false |} ];
     doc_blocks := bs;
     modelspace := msp |}.

End Samples.
End Samples.

(** ** Vocabulary of the statements *)

(** A string that is empty or has only whitespace. *)
Fixpoint all_space (s : string) : bool :=
  match s with
  | EmptyString => true
  | String c s' => is_space c && all_space s'
  end.

Definition readable {X} (a : access X) : bool :=
  match a with Got _ => true | Raised => false end.

Section Vocabulary.
Context {F : Type}.

(** The text content the text branch extracts. *)
Definition text_content (entity : DXFEntity F) : access string :=
  if String.eqb (dxftype entity) "MTEXT" then plain_text entity
  else dxf_text entity.

(** What ezdxf's [Path.flattening] yields: no point for a path without
    a segment, otherwise the start point and at least one more; never
    a single point. *)
Definition never_one_point (entity : DXFEntity F) : Prop :=
  ∀ p, flattening entity ≠ Got [p].

(** The accesses made before any [try] succeed. *)
Definition shared_keys_readable (entity : DXFEntity F) : bool :=
  (match dxf_true_color entity with
   | Some _ => true
   | None => readable (dxf_color entity)
   end)
  && readable (dxf_linetype entity) && readable (dxf_lineweight entity)
  && readable (dxf_layer entity) && readable (dxf_handle entity).

(** The references a dict holds under ["attributes"]. *)
Definition attributes_of (d : Entity F) : list loc :=
  match e_body d with
  | InsertBody _ _ _ _ attributes => attributes
  | _ => []
  end.

Definition is_geometry (d : Entity F) : bool :=
  match e_body d with GeometryBody _ _ _ _ _ _ => true | _ => false end.

Definition vertices_of (d : Entity F) : list (F * F) :=
  match e_body d with GeometryBody _ _ _ _ vs _ => vs | _ => [] end.

Definition vertex_count_of (d : Entity F) : nat :=
  match e_body d with GeometryBody _ _ _ _ _ n => n | _ => 0%nat end.

(** The insertion point of a text or block-reference dict. *)
Definition insert_of (d : Entity F) : option (F * F) :=
  match e_body d with
  | TextBody _ insert _ => Some insert
  | InsertBody _ insert _ _ _ => Some insert
  | GeometryBody _ _ _ _ _ _ => None
  end.

End Vocabulary.

(** ** Sample inputs of the statements *)

Module Inputs.
Import Samples.
Local Open Scope string_scope.

(** A line with indexed colour 1 and no true colour. *)
Definition red_line : DXFEntity float :=
  {| dxftype := "LINE";
     dxf_true_color := None;
     dxf_color := Got 1;
     dxf_linetype := Got None;
     dxf_lineweight := Got None;
     dxf_layer := Got "0";
     dxf_handle := Got "2A";
     dxf_text := Raised;
     plain_text := Raised;
     dxf_insert := Raised;
     dxf_rotation := Raised;
     dxf_xscale := Raised;
     dxf_yscale := Raised;
     dxf_zscale := Raised;
     dxf_name := Raised;
     flattening := Got [(0, 0); (1, 1)]%float |}.

Definition line (handle : string) : RawEntity float :=
  path_entity "LINE" handle [(0, 0); (1, 1)]%float.

(** Ten modelspace entities; the fifth is an INSERT whose insertion
    point cannot be read. *)
Definition ten_with_broken_insert : RawDocument float :=
  document []
    [ line "1"; line "2"; line "3"; line "4";
      insert_entity "5" "DOOR" Raised 0%float [];
      line "6"; line "7"; line "8"; line "9"; line "10" ].

(** The same with a TEXT in fifth place whose insertion point cannot
    be read. *)
Definition ten_with_broken_text : RawDocument float :=
  document []
    [ line "1"; line "2"; line "3"; line "4";
      text_entity "TEXT" "5" "A-101" Raised 0%float;
      line "6"; line "7"; line "8"; line "9"; line "10" ].

Definition label : RawEntity float :=
  text_entity "TEXT" "2F" "A-101" (Got (10, 5)%float) 0%float.

End Inputs.

(** ** Vocabulary of the store *)

Section StoreVocabulary.
Context {F : Type} {A : Arith F}.

(** The dict has one of the three shapes [entity_to_json] builds. *)
Definition well_formed (d : Entity F) : Prop :=
  match e_body d with
  | TextBody _ _ _ => is_text_type (e_type d) = true
  | InsertBody _ _ _ _ _ => e_type d = "INSERT"%string
  | GeometryBody _ _ _ _ vertices vertex_count =>
      vertex_count = length vertices ∧ (1 ≤ vertex_count)%nat
  end.

(** The dict at [l] is well formed and its attributes are distinct
    dicts allocated in [lo, l). *)
Definition owns (h : store F) (lo : nat) (l : loc) : Prop :=
  (lo ≤ l)%nat ∧
  ∃ d, h !! l = Some d ∧ well_formed d ∧ NoDup (attributes_of d) ∧
       Forall (λ a, (lo ≤ a < l)%nat ∧
                    ∃ da, h !! a = Some da ∧ well_formed da)
              (attributes_of d).

(** Dicts allocated one after the other from [lo] on, each after its
    attributes. *)
Fixpoint chain (h : store F) (lo : nat) (ls : list loc) : Prop :=
  match ls with
  | [] => True
  | l :: ls' => owns h lo l ∧ chain h (S l) ls'
  end.

(** The dicts step 5 updates: the listed ones and their attributes. *)
Definition footprint (h : store F) (ls : list loc) : list loc :=
  concat (List.map (λ l, l :: match h !! l with
                              | Some d => attributes_of d
                              | None => []
                              end) ls).

(** The coordinates step 4 collects, read from the store. *)
Definition modelspace_coordinates (h : store F) (ls : list loc)
  : list (F * F) :=
  concat (List.map (λ l, match h !! l with
                         | Some d => coordinates d
                         | None => []
                         end) ls).

(** What [entity_to_json] guarantees of a run from [h] to [h']. *)
Definition allocates (h h' : store F) (r : option loc) : Prop :=
  h `prefix_of` h' ∧
  match r with
  | Some l => owns h' (length h) l ∧ S l = length h'
  | None => True
  end.

(** Every list of the block table is a chain. *)
Definition blocks_chained (h : store F) (m : gmap string (list loc)) : Prop :=
  ∀ k ls, m !! k = Some ls → ∃ lo, chain h lo ls.

(** The unit label [parse_dxf] passes to [entity_to_json]. *)
Definition unit_label (doc : RawDocument F) : string :=
  or_default "Unitless"%string
             (DXF_UNITS (or_default 0 (header_insunits doc))).

(** The entity is dropped whatever the store. *)
Definition absent (unit_name : string) (e : RawEntity F) : Prop :=
  ∀ h, entity_to_json e unit_name h = Ok (None, h).

(** A dict with its coordinates blanked: what is left are the fields
    the offset must not touch. *)
Definition erase_coordinates (d : Entity F) : Entity F :=
  with_body d
    match e_body d with
    | GeometryBody lk l ak a vertices n =>
        GeometryBody lk l ak a (List.map (λ _, (fzero, fzero)) vertices) n
    | TextBody t _ r => TextBody t (fzero, fzero) r
    | InsertBody b _ r s attrs => InsertBody b (fzero, fzero) r s attrs
    end.

(** Subtracting the offset again. *)
Definition unshift (o p : F * F) : F * F :=
  (fsub (fst p) (fst o), fsub (snd p) (snd o)).

(** [p == q] on points. *)
Definition point_eq (p q : F * F) : bool :=
  feq (fst p) (fst q) && feq (snd p) (snd q).

End StoreVocabulary.

(** Least and greatest element of a list of rationals. *)
Definition is_min (m : Q) (xs : list Q) : Prop :=
  (∃ x, x ∈ xs ∧ (x == m)%Q) ∧ ∀ x, x ∈ xs → (m <= x)%Q.

Definition is_max (m : Q) (xs : list Q) : Prop :=
  (∃ x, x ∈ xs ∧ (x == m)%Q) ∧ ∀ x, x ∈ xs → (x <= m)%Q.


(** ** Sample drawings *)

Module Drawings.
Import Samples.
Local Open Scope string_scope.
Section Drawings.
Context {F : Type} {A : Arith F}.

Definition two : F := fadd fone fone.
Definition four : F := fadd two two.

(** A block with a line, an anonymous block, a block whose only entity
    is a blank text; in modelspace a line, a block reference with one
    attribute and a text. *)
Definition plan : RawDocument F :=
  document
    [ {| block_name := "DOOR";
         block_entities := [ path_entity "LINE" "10" [(fzero, fzero); (fone, fzero)] ] |};
      {| block_name := "*U1";
         block_entities := [ path_entity "LINE" "11" [(fzero, fzero); (fone, fone)] ] |};
      {| block_name := "EMPTY";
         block_entities := [ text_entity "TEXT" "12" "  " (Got (fzero, fzero)) fzero ] |} ]
    [ path_entity "LINE" "20" [(fzero, fzero); (four, two)];
      insert_entity "21" "DOOR" (Got (two, fone)) fzero
        [ text_entity "ATTRIB" "22" "D1" (Got (two, two)) fzero ];
      text_entity "TEXT" "23" "A-101" (Got (fone, four)) fzero ].

End Drawings.

(** Two points whose x coordinates add up beyond the largest binary64
    number: x = 1e308 and x = 1.5e308. *)
Definition huge : RawDocument float :=
  document [] [ path_entity "LINE" "1" [(1e308, 0); (1.5e308, 0)]%float ].

(** A point that is absorbed when the offset is added: x = 0.5 next to
    x = 1e16. *)
Definition absorbed : RawDocument float :=
  document [] [ path_entity "LINE" "1" [(0.5, 0); (1e16, 0)]%float ].

End Drawings.


(** ** Vocabulary of the further statements *)

Fixpoint string_forall (p : ascii → bool) (s : string) : bool :=
  match s with
  | EmptyString => true
  | String c s' => p c && string_forall p s'
  end.

(** A digit of lower-case hexadecimal. *)
Definition is_hex_digit (c : ascii) : bool :=
  let n := nat_of_ascii c in
  ((48 <=? n) && (n <=? 57) || (97 <=? n) && (n <=? 102))%nat.

(** A colour of the form [#rrggbb]. *)
Definition is_hex_colour (s : string) : bool :=
  match s with
  | String c rest =>
      Ascii.eqb c "#" && (String.length rest =? 6)%nat
      && string_forall is_hex_digit rest
  | EmptyString => false
  end.

(** The colour [get_layer_hex] computes from a layer that is found. *)
Definition own_colour (l : RawLayer) : string :=
  match layer_rgb l with
  | Some rgb => format_rgb rgb
  | None => _aci_to_hex (layer_color l)
  end.

Section Provenance.
Context {F : Type} {A : Arith F}.

Definition raw_entity (e : RawEntity F) : DXFEntity F :=
  match e with Raw entity _ => entity end.

Definition raw_attribs (e : RawEntity F) : list (RawEntity F) :=
  match e with Raw _ attribs => attribs end.

(** The colour [get_entity_hex] gives when it does not throw. *)
Definition entity_colour (entity : DXFEntity F) : option string :=
  match dxf_true_color entity with
  | Some v => Some (format_rgb (int2rgb v))
  | None =>
      match dxf_color entity with
      | Got c => if c =? 256 then None else Some (_aci_to_hex c)
      | Raised => None
      end
  end.

(** The dict [d] is what [entity_to_json] makes of [entity] under the
    unit label [unit_name]: every key with the value read from the
    entity. *)
Definition describes (unit_name : string) (entity : DXFEntity F)
           (d : Entity F) : Prop :=
  e_type d = dxftype entity ∧
  dxf_layer entity = Got (e_layer d) ∧
  dxf_handle entity = Got (e_id d) ∧
  e_color_hex d = entity_colour entity ∧
  (∃ lt, dxf_linetype entity = Got lt ∧
         e_linetype d = or_default "Continuous"%string lt) ∧
  (∃ lw, dxf_lineweight entity = Got lw ∧
         e_lineweight d = or_default (-1) lw) ∧
  match e_body d with
  | TextBody text insert rotation =>
      is_text_type (dxftype entity) = true ∧
      text_content entity = Got text ∧ all_space text = false ∧
      dxf_insert entity = Got insert ∧
      ∃ r, dxf_rotation entity = Got r ∧ rotation = or_default fzero r
  | InsertBody name insert rotation scale _ =>
      dxftype entity = "INSERT"%string ∧
      dxf_name entity = Got name ∧ dxf_insert entity = Got insert ∧
      dxf_rotation entity = Got (Some rotation) ∧
      ∃ sx sy sz, dxf_xscale entity = Got sx ∧ dxf_yscale entity = Got sy ∧
                  dxf_zscale entity = Got sz ∧
                  scale = (or_default fone sx, or_default fone sy,
                           or_default fone sz)
  | GeometryBody len_key len area_key area vertices vertex_count =>
      is_text_type (dxftype entity) = false ∧
      dxftype entity ≠ "INSERT"%string ∧
      flattening entity = Got vertices ∧ vertices ≠ [] ∧
      len_key = ("length (" ++ unit_name ++ ")")%string ∧
      len = calculate_length vertices ∧
      area_key = ("area (" ++ unit_name ++ "^2)")%string ∧
      area = calculate_area vertices ∧
      vertex_count = length vertices
  end.

(** The entity is given a dict: the tests of its branch of
    [entity_to_json] pass. *)
Definition produces (entity : DXFEntity F) : bool :=
  if is_text_type (dxftype entity) then
    match text_content entity with
    | Got content =>
        negb (all_space content) && readable (dxf_insert entity)
        && readable (dxf_rotation entity)
    | Raised => false
    end
  else if String.eqb (dxftype entity) "INSERT" then true
  else match flattening entity with
       | Got (_ :: _) => true
       | _ => false
       end.

(** The attached entities [entity_to_json] visits: those of an
    INSERT. *)
Definition visited (e : RawEntity F) : list (RawEntity F) :=
  if String.eqb (dxftype (raw_entity e)) "INSERT" then raw_attribs e else [].

(** The dict at [l] describes the entity, and its attributes are, in
    order, the dicts of the attached entities that are given one. *)
Definition represents (unit_name : string) (h : store F)
           (e : RawEntity F) (l : loc) : Prop :=
  ∃ d, h !! l = Some d ∧ describes unit_name (raw_entity e) d ∧
       Forall2 (λ a la, ∃ da, h !! la = Some da ∧
                              describes unit_name (raw_entity a) da)
               (List.filter (λ a, produces (raw_entity a)) (visited e))
               (attributes_of d).

(** The same after step 5: the dict at [l] and its attributes are the
    describing dicts moved by [o]. *)
Definition represents_moved (unit_name : string) (o : F * F) (h : store F)
           (e : RawEntity F) (l : loc) : Prop :=
  ∃ d, describes unit_name (raw_entity e) d ∧
       h !! l = Some (shift_entity o d) ∧
       Forall2 (λ a la, ∃ da, describes unit_name (raw_entity a) da ∧
                              h !! la = Some (shift_entity o da))
               (List.filter (λ a, produces (raw_entity a)) (visited e))
               (attributes_of d).

(** The accesses of the INSERT branch succeed. *)
Definition insert_fields_readable (entity : DXFEntity F) : bool :=
  readable (dxf_xscale entity) && readable (dxf_yscale entity)
  && readable (dxf_zscale entity) && readable (dxf_name entity)
  && readable (dxf_insert entity)
  && match dxf_rotation entity with Got (Some _) => true | _ => false end.

(** An access outside every [try] throws. *)
Definition unguarded_failure (entity : DXFEntity F) : bool :=
  negb (shared_keys_readable entity)
  || (String.eqb (dxftype entity) "INSERT"
      && negb (insert_fields_readable entity)).

(** No access outside a [try] throws, in the entity or in the entities
    attached to it. *)
Fixpoint safe (e : RawEntity F) : Prop :=
  match e with
  | Raw entity attribs =>
      shared_keys_readable entity = true ∧
      (dxftype entity = "INSERT"%string →
       insert_fields_readable entity = true ∧
       (fix all (l : list (RawEntity F)) : Prop :=
          match l with
          | [] => True
          | a :: l' => safe a ∧ all l'
          end) attribs)
  end.

(** The entities attached to an INSERT are of a kind that is given an
    insertion point. *)
Definition attribs_placed (e : RawEntity F) : Prop :=
  dxftype (raw_entity e) = "INSERT"%string →
  Forall (λ a, is_text_type (dxftype (raw_entity a)) = true ∨
               dxftype (raw_entity a) = "INSERT"%string)
         (raw_attribs e).

Definition safe_document (doc : RawDocument F) : Prop :=
  Forall safe (modelspace doc) ∧
  Forall (λ b, startswith (block_name b) "*" = false →
               Forall safe (block_entities b))
         (doc_blocks doc) ∧
  Forall attribs_placed (modelspace doc).

End Provenance.

(** ** The command-line loop *)

(** What [open(json_path, "w")] and [json.dump] do for one file. *)
Inductive WriteOutcome : Type :=
  | Written
  | OpenFailed
  | DumpFailed.

(** A file of [JSONs/]: one that was there before the run, one dumped
    in full from the result of [parse_dxf], or one left behind by a
    dump that threw. *)
Inductive JsonFile (F : Type) : Type :=
  | Earlier
  | Dumped (d : CADDocument F) (h : store F)
  | Truncated.
Arguments Earlier {F}.
Arguments Dumped {F} d h.
Arguments Truncated {F}.

(** A file of [DXFs/]: the stem and the name of its path, what
    [ezdxf.readfile] gives for it and what writing its JSON does. *)
Record DXFFile (F : Type) := {
  stem : string;
  name : string;
  readfile : access (RawDocument F);
  writing : WriteOutcome
}.
Arguments stem {F} _.
Arguments name {F} _.
Arguments readfile {F} _.
Arguments writing {F} _.

Record Summary := {
  converted : nat;
  skipped : nat;
  failed : nat
}.

(** The files the summary accounts for. *)
Definition total (s : Summary) : nat :=
  (converted s + skipped s + failed s)%nat.

Section CommandLine.
Context {F : Type} {A : Arith F}.

(** One iteration of the loop over [dxf_files]; [jsons] maps the stems
    of the files of [JSONs/] to what they hold. *)
Definition convert_file (state : gmap string (JsonFile F) * Summary)
           (file : DXFFile F) : gmap string (JsonFile F) * Summary :=
  let '(jsons, s) := state in
  let skip := {| converted := converted s; skipped := S (skipped s);
                 failed := failed s |} in
  let fail := {| converted := converted s; skipped := skipped s;
                 failed := S (failed s) |} in
  let done := {| converted := S (converted s); skipped := skipped s;
                 failed := failed s |} in
  match jsons !! stem file with
  | Some _ => (jsons, skip)
  | None =>
      match parse_dxf (name file) (readfile file) [] with
      | Exn => (jsons, fail)
      | Ok (None, _) => (jsons, fail)
      | Ok (Some d, h) =>
          match writing file with
          | Written => (<[stem file := Dumped d h]> jsons, done)
          | DumpFailed => (<[stem file := Truncated]> jsons, fail)
          | OpenFailed => (jsons, fail)
          end
      end
  end.

(** The [__main__] block: [None] is the [exit(0)] taken when there is
    no DXF file. *)
Definition main (jsons : gmap string (JsonFile F))
           (dxf_files : list (DXFFile F))
  : option (gmap string (JsonFile F) * Summary) :=
  match dxf_files with
  | [] => None
  | _ =>
      Some (fold_left convert_file dxf_files
              (jsons, {| converted := 0; skipped := 0; failed := 0 |}))
  end.

(** The file cannot be converted: [parse_dxf] gives no document, or
    the JSON cannot be opened. *)
Definition unconvertible (file : DXFFile F) : Prop :=
  match parse_dxf (name file) (readfile file) [] with
  | Ok (Some _, _) => writing file = OpenFailed
  | _ => True
  end.

End CommandLine.

(** ** The renderer (renderer.py) *)

(** What the [filters] dict holds under one key: nothing, [None], or a
    list. *)
Inductive FilterValue : Type :=
  | Missing
  | Null
  | Listed (values : list string).

Record Filters := {
  filter_layers : FilterValue;
  filter_types : FilterValue;
  filter_ids : FilterValue
}.

(** [set(filters.get(key, []))]: the default is taken for a missing
    key only, and [set(None)] throws. *)
Definition filter_set (v : FilterValue) : res (list string) :=
  match v with
  | Missing => Ok []
  | Null => Exn
  | Listed values => Ok values
  end.

(** The lists the renderer makes collections of. *)
Record Scene (F : Type) := {
  bg_segs : list (list (F * F));
  fg_segs : list (list (F * F));
  hatch_regions : list (list (F * F))
}.
Arguments bg_segs {F} _.
Arguments fg_segs {F} _.
Arguments hatch_regions {F} _.

Section Renderer.
Context {F : Type}.

Definition is_filtered (layers types ids : list string) (e : Entity F)
  : bool :=
  let ok_layer :=
    bool_decide (layers = []) || bool_decide (e_layer e ∈ layers) in
  let ok_type :=
    bool_decide (types = []) || bool_decide (e_type e ∈ types) in
  let ok_id :=
    bool_decide (ids = []) || bool_decide (e_id e ∈ ids) in
  ok_layer && ok_type && ok_id.

(** [verts = e.get("vertices")] when [verts and len(verts) > 1]. *)
Definition polyline (e : Entity F) : option (list (F * F)) :=
  match e_body e with
  | GeometryBody _ _ _ _ verts _ =>
      if (1 <? length verts)%nat then Some verts else None
  | _ => None
  end.

(** The loop of the background. *)
Definition background (entities : list (Entity F)) : list (list (F * F)) :=
  fold_left
    (λ bg_segs e,
       if bool_decide (e_type e ∈ ["INSERT"; "HATCH"; "MTEXT"; "TEXT"]%string)
       then bg_segs
       else match polyline e with
            | Some verts => bg_segs ++ [verts]
            | None => bg_segs
            end)
    entities [].

(** The loop of the foreground: [fg_segs] and [hatch_regions]. *)
Definition foreground (filtered : Entity F → bool)
           (entities : list (Entity F))
  : list (list (F * F)) * list (list (F * F)) :=
  fold_left
    (λ '(fg_segs, hatch_regions) e,
       if negb (filtered e) then (fg_segs, hatch_regions)
       else if String.eqb (e_type e) "HATCH" && is_geometry e
       then (fg_segs, hatch_regions ++ [vertices_of e])
       else match polyline e with
            | Some verts => (fg_segs ++ [verts], hatch_regions)
            | None => (fg_segs, hatch_regions)
            end)
    entities ([], []).

(** The part of [render_filtered_view_base64] that is the repository's
    own: the filter sets and the two loops.  [entities] is
    [data.get("entities", [])]; the result is the three lists as they
    are when the last loop ends, or the exception of a [set(...)]. *)
Definition collections (entities : list (Entity F))
           (filters : option Filters) (show_background : bool)
  : res (Scene F) :=
  let filters :=
    default {| filter_layers := Missing; filter_types := Missing;
               filter_ids := Missing |} filters in
  match filter_set (filter_layers filters) with
  | Exn => Exn
  | Ok layers =>
      match filter_set (filter_types filters) with
      | Exn => Exn
      | Ok types =>
          match filter_set (filter_ids filters) with
          | Exn => Exn
          | Ok ids =>
              let '(fg, hatch) :=
                foreground (is_filtered layers types ids) entities in
              Ok {| bg_segs := if show_background then background entities
                               else [];
                    fg_segs := fg;
                    hatch_regions := hatch |}
          end
      end
  end.

(** [render_filtered_view_base64(data, filters, show_background)].
    What matplotlib makes of the three lists (the figure, a collection
    for each list that is not empty, [autoscale], [savefig]) and the
    base64 encoding are the parameter [draw]: it gives the string of
    the result or throws.  The loops do not throw, so that the source
    building the background collection before it runs the second loop
    gives the same outcome. *)
Definition render_filtered_view_base64 (draw : Scene F → res string)
           (entities : list (Entity F)) (filters : option Filters)
           (show_background : bool) : res string :=
  match collections entities filters show_background with
  | Exn => Exn
  | Ok scene => draw scene
  end.

(** The ["entities"] list of the JSON of a document: the dicts the
    references stand for. *)
Definition dumped_entities (h : store F) (d : CADDocument F)
  : list (Entity F) :=
  omap (λ l, h !! l) (entities d).

End Renderer.

(** ** The endpoint (API/api.py) *)

Module API.

Record FilterModel := {
  layers : option (list string);
  types : option (list string);
  ids : option (list string)
}.

(** [req.filters.dict()]: every field is a key; one that is not set
    holds [None]. *)
Definition dict (filters : FilterModel) : Filters :=
  let value (field : option (list string)) :=
    match field with
    | Some values => Listed values
    | None => Null
    end in
  {| filter_layers := value (layers filters);
     filter_types := value (types filters);
     filter_ids := value (ids filters) |}.

(** [render_view(req)]; [draw] is the drawing stage of the renderer. *)
Definition render_view {F : Type} (draw : Scene F → res string)
           (data : list (Entity F)) (filters : option FilterModel)
           (show_background : bool) : res string :=
  let filters_dict :=
    match filters with
    | Some filters => Some (dict filters)
    | None => None
    end in
  render_filtered_view_base64 draw data filters_dict show_background.

End API.

(** ** Sample cases of the further statements *)

Module Cases.
Import Samples.
Local Open Scope string_scope.

Definition layer_list : list RawLayer :=
  [ {| layer_name := "0"; layer_rgb := None; layer_color := 7;
       is_frozen := false; is_locked := false |};
    {| layer_name := "WALLS"; layer_rgb := Some (255, 128, 0);
       layer_color := 1; is_frozen := true; is_locked := false |} ].

(** A line whose handle cannot be read. *)
Definition no_handle : RawEntity float :=
  Raw {| dxftype := "LINE";
         dxf_true_color := None;
         dxf_color := Got 256;
         dxf_linetype := Got None;
         dxf_lineweight := Got None;
         dxf_layer := Got "0";
         dxf_handle := Raised;
         dxf_text := Raised;
         plain_text := Raised;
         dxf_insert := Raised;
         dxf_rotation := Raised;
         dxf_xscale := Raised;
         dxf_yscale := Raised;
         dxf_zscale := Raised;
         dxf_name := Raised;
         flattening := Got [(0, 0); (1, 1)]%float |} [].

(** A drawing with that line in a block. *)
Definition hidden_handle : RawDocument float :=
  document
    [ {| block_name := "DOOR"; block_entities := [ no_handle ] |} ]
    [ Inputs.line "1" ].

(** A drawing with a block and, in modelspace, only a blank text. *)
Definition blank_modelspace : RawDocument float :=
  document
    [ {| block_name := "DOOR"; block_entities := [ Inputs.line "10" ] |} ]
    [ text_entity "TEXT" "3" "  " (Got (1, 1)%float) 0%float ].

Definition plan : RawDocument float := @Drawings.plan _ Binary64.python.

(** [DXFs/]: [b.dxf] cannot be read, the JSON of [d.dxf] cannot be
    opened, the dump of [e.dxf] throws. *)
Definition dxf_files : list (DXFFile float) :=
  [ {| stem := "a"; name := "a.dxf"; readfile := Got plan;
       writing := Written |};
    {| stem := "b"; name := "b.dxf"; readfile := Raised;
       writing := Written |};
    {| stem := "c"; name := "c.dxf"; readfile := Got plan;
       writing := Written |};
    {| stem := "d"; name := "d.dxf"; readfile := Got plan;
       writing := OpenFailed |};
    {| stem := "e"; name := "e.dxf"; readfile := Got plan;
       writing := DumpFailed |} ].

(** Dicts of a JSON: two lines, a hatch and a single point. *)
Definition geometry (t layer id : string) (vs : list (float * float))
  : Entity float :=
  {| e_type := t;
     e_layer := layer;
     e_color_hex := None;
     e_linetype := "Continuous";
     e_lineweight := -1;
     e_id := id;
     e_body := GeometryBody "length (mm)" 0%float "area (mm^2)" 0%float
                            vs (length vs) |}.

Definition drawn : list (Entity float) :=
  [ geometry "LINE" "WALLS" "1A" [(0, 0); (1, 0)]%float;
    geometry "HATCH" "WALLS" "1B" [(0, 0); (1, 0); (1, 1)]%float;
    geometry "LINE" "DOORS" "1C" [(0, 0); (0, 1)]%float;
    geometry "POINT" "WALLS" "1D" [(2, 2)]%float ].

(** [JSONs/] with [c.json] left by an earlier run. *)
Definition jsons : gmap string (JsonFile float) := {[ "c" := Earlier ]}.

End Cases.

(** * Verification *)

(** ** The monad *)

Section MonadFacts.
Context {F : Type}.

Lemma bind_ok {X Y} (m : M F X) (k : X → M F Y) h y h' :
  bind m k h = Ok (y, h') →
  ∃ x h1, m h = Ok (x, h1) ∧ k x h1 = Ok (y, h').
Proof.
  unfold bind. destruct (m h) as [[x h1]|]; [|discriminate].
  intros Hk. by exists x, h1.
Qed.

Lemma attempt_ok {X} (a : access X) (h : store F) x h' :
  attempt a h = Ok (x, h') → a = Got x ∧ h' = h.
Proof. destruct a; cbn; [|discriminate]. intros [= -> ->]. done. Qed.

Lemma ret_ok {X} (x y : X) (h h' : store F) :
  ret x h = Ok (y, h') → y = x ∧ h' = h.
Proof. intros [= -> ->]. done. Qed.

Lemma try_except_ok {X} (m : M F X) (d : X) h x h' :
  try_except m d h = Ok (x, h') →
  m h = Ok (x, h') ∨ (m h = Exn ∧ x = d ∧ h' = h).
Proof.
  unfold try_except. destruct (m h) as [[x1 h1]|].
  - intros [= -> ->]. by left.
  - intros [= <- <-]. by right.
Qed.

Lemma alloc_ok (d : Entity F) h l h' :
  alloc d h = Ok (l, h') → l = length h ∧ h' = h ++ [d].
Proof. intros [= <- <-]. done. Qed.

Lemma read_ok (l : loc) (h : store F) d h' :
  read l h = Ok (d, h') → h !! l = Some d ∧ h' = h.
Proof.
  unfold read. destruct (h !! l); [|discriminate].
  intros [= -> ->]. done.
Qed.

Lemma write_ok (l : loc) (d : Entity F) h u h' :
  write l d h = Ok (u, h') → h' = <[l := d]> h.
Proof. intros [= _ <-]. done. Qed.

End MonadFacts.

(** Takes a successful run apart, one monadic step at a time. *)
Ltac inv_run H :=
  let x := fresh "x" in
  let h := fresh "h" in
  let H1 := fresh "Hrun" in
  first
    [ apply bind_ok in H as (x & h & H1 & H)
    | apply ret_ok in H as [? ?]
    | apply attempt_ok in H as [? ?]
    | apply alloc_ok in H as [? ?]
    | apply read_ok in H as [? ?]
    | apply write_ok in H ].

(** ** Geometry metrics *)

Section MetricFacts.
Context {F : Type} {A : Arith F}.

(** A loop over indices that reads [W !! i] and [W !! (i + 1)] is the
    fold over the consecutive pairs of [W]. *)
Lemma index_loop_pairs (step : F → (F * F) → (F * F) → F) (W pre : list (F * F)) acc :
  fold_left
    (fun a i =>
       match (pre ++ W) !! i, (pre ++ W) !! (i + 1)%nat with
       | Some p, Some q => step a p q
       | _, _ => a
       end)
    (seq (length pre) (length W - 1)) acc
  = pair_fold step acc W.
Proof.
  revert pre acc. induction W as [|p W IH]; intros pre acc; [done|].
  destruct W as [|q W]; [done|].
  replace (length (p :: q :: W) - 1)%nat with (S (length (q :: W) - 1))
    by (cbn; lia).
  cbn [seq fold_left].
  change (pair_fold step acc (p :: q :: W))
    with (pair_fold step (step acc p q) (q :: W)).
  rewrite (lookup_app_r pre), Nat.sub_diag by lia. cbn [lookup list_lookup].
  rewrite (lookup_app_r pre) by lia.
  replace (length pre + 1 - length pre)%nat with 1%nat by lia.
  cbn [lookup list_lookup].
  specialize (IH (pre ++ [p]) (step acc p q)).
  rewrite length_app, Nat.add_1_r in IH. cbn [length] in IH.
  rewrite <- IH, <- (assoc_L (++)). done.
Qed.

Lemma fold_left_ext_in {X Y} (f g : X → Y → X) (l : list Y) (a : X) :
  (∀ x y, y ∈ l → f x y = g x y) → fold_left f l a = fold_left g l a.
Proof.
  revert a. induction l as [|y l IH]; intros a Hfg; [done|]. cbn.
  rewrite Hfg by apply list_elem_of_here.
  apply IH. intros x y' Hy. apply Hfg. by apply list_elem_of_further.
Qed.

Lemma calculate_length_spec (V : list (F * F)) :
  calculate_length V = length_spec V.
Proof.
  unfold calculate_length, length_spec, path_sum.
  destruct (length V <? 2)%nat; [done|]. f_equal.
  rewrite <- (index_loop_pairs _ V []). cbn [app length].
  apply fold_left_ext_in. intros a i _.
  destruct (V !! i) as [[x1 y1]|]; [|done].
  destruct (V !! (i + 1)%nat) as [[x2 y2]|]; done.
Qed.

Lemma calculate_area_spec (V : list (F * F)) :
  calculate_area V = area_spec V.
Proof.
  unfold calculate_area, area_spec, shoelace_sum.
  destruct (length V <? 3)%nat eqn:Hn; [done|].
  apply Nat.ltb_ge in Hn. do 3 f_equal.
  destruct V as [|p0 V]; [cbn in Hn; lia|]. unfold closed.
  assert (Hhd : (p0 :: V) !! 0%nat = Some p0) by done.
  remember (p0 :: V) as V0 eqn:HV0. clear HV0 V.
  set (W := V0 ++ [p0]).
  rewrite <- (index_loop_pairs _ W []).
  change ([] ++ W) with W. subst W. rewrite length_app.
  replace (length V0 + length [p0] - 1)%nat with (length V0)
    by (cbn; lia).
  apply fold_left_ext_in. intros a i Hi.
  apply elem_of_seq in Hi.
  assert (Hi' : (i < length V0)%nat) by (cbn in *; lia).
  rewrite (lookup_app_l V0) by done.
  destruct (lookup_lt_is_Some_2 V0 i Hi') as [[xi yi] Hpi].
  rewrite Hpi.
  destruct (decide (i + 1 = length V0)%nat) as [Hlast|Hin].
  - rewrite Hlast, Nat.Div0.mod_same.
    rewrite (lookup_app_r V0), Nat.sub_diag by lia.
    rewrite Hhd. cbn. by destruct p0.
  - rewrite Nat.mod_small by lia.
    rewrite (lookup_app_l V0) by lia.
    destruct (V0 !! (i + 1)%nat) as [[xj yj]|]; done.
Qed.
End MetricFacts.

(** C5.  The length is the rounded sum of the distances between
    consecutive points and 0.0 below two points; the area is the rounded
    half of the absolute shoelace sum over the polygon closed by its
    first point and 0.0 below three points.  This holds in every
    arithmetic; in binary64, with a [math.hypot] and a [round] that are
    exact on the values concerned, the area of the 4 by 3 rectangle is
    12.0 and the length of the path (0,0), (3,0), (3,4) is 7.0. *)
Theorem metrics_follow_spec (hyp : float → float → float)
        (rnd : float → float) :
  hyp 3%float 0%float = 3%float →
  hyp 0%float 4%float = 4%float →
  rnd 7%float = 7%float →
  rnd 12%float = 12%float →
  (∀ (F : Type) (A : Arith F) (V : list (F * F)),
      ((length V < 2)%nat → calculate_length V = fzero) ∧
      ((2 ≤ length V)%nat → calculate_length V = round4 (path_sum fzero V)) ∧
      ((length V < 3)%nat → calculate_area V = fzero) ∧
      ((3 ≤ length V)%nat →
       calculate_area V
       = round4 (fhalf (fabs (shoelace_sum fzero (closed V)))))) ∧
  @calculate_area _ (Binary64.arith hyp rnd)
    [(0, 0); (4, 0); (4, 3); (0, 3)]%float = 12%float ∧
  @calculate_length _ (Binary64.arith hyp rnd)
    [(0, 0); (3, 0); (3, 4)]%float = 7%float.
Proof.
  intros H30 H04 H7 H12. split; [|split].
  - intros F A V.
    rewrite calculate_length_spec, calculate_area_spec.
    unfold length_spec, area_spec. repeat split; intros Hlen.
    + apply Nat.ltb_lt in Hlen. by rewrite Hlen.
    + apply Nat.ltb_ge in Hlen. by rewrite Hlen.
    + apply Nat.ltb_lt in Hlen. by rewrite Hlen.
    + apply Nat.ltb_ge in Hlen. by rewrite Hlen.
  - vm_compute. exact H12.
  - vm_compute. rewrite H30, H04. vm_compute.
    exact H7.
Qed.

Lemma metrics_follow_spec_witness :
  Binary64.float_hypot 3%float 0%float = 3%float ∧
  Binary64.float_hypot 0%float 4%float = 4%float ∧
  Binary64.float_round4 7%float = 7%float ∧
  Binary64.float_round4 12%float = 12%float ∧
  @calculate_area _ Binary64.python
    [(0, 0); (4, 0); (4, 3); (0, 3)]%float = 12%float ∧
  @calculate_length _ Binary64.python
    [(0, 0); (3, 0); (3, 4)]%float = 7%float.
Proof.
  pose proof (metrics_follow_spec Binary64.float_hypot Binary64.float_round4
                eq_refl eq_refl eq_refl eq_refl) as (_ & Harea & Hlength).
  exact (conj eq_refl (conj eq_refl (conj eq_refl (conj eq_refl
           (conj Harea Hlength))))).
Defined.

(** ** Colours *)

Section ColourFacts.
Context {F : Type}.

(** The three cases of [get_entity_hex]. *)
Lemma get_entity_hex_cases (entity : DXFEntity F) (h : store F) :
  match dxf_true_color entity, dxf_color entity with
  | Some v, _ => get_entity_hex entity h = Ok (Some (format_rgb (int2rgb v)), h)
  | None, Raised => get_entity_hex entity h = Exn
  | None, Got c =>
      get_entity_hex entity h
      = Ok (if c =? 256 then None
            else if (c <? 0) || (c >? 255) then Some "#000000"%string
            else Some (format_rgb (int2rgb c)), h)
  end.
Proof.
  unfold get_entity_hex, _aci_to_hex.
  destruct (dxf_true_color entity); [done|].
  destruct (dxf_color entity) as [c|]; [|done]. cbn.
  destruct (c =? 256); [done|]. by destruct ((c <? 0) || (c >? 255)).
Qed.

(** Without a true colour the result is absent exactly for index
    256. *)
Lemma get_entity_hex_absent (entity : DXFEntity F) (h h' : store F) c r :
  dxf_true_color entity = None →
  dxf_color entity = Got c →
  get_entity_hex entity h = Ok (r, h') →
  r = None ↔ c = 256.
Proof.
  intros Ht Hc. pose proof (get_entity_hex_cases entity h) as Hcases.
  rewrite Ht, Hc in Hcases. rewrite Hcases. intros [= <- _].
  destruct (c =? 256) eqn:E.
  - apply Z.eqb_eq in E. done.
  - apply Z.eqb_neq in E. by destruct ((c <? 0) || (c >? 255)).
Qed.

(** An index in the range of the table comes out as the index itself
    in the blue byte. *)
Lemma aci_to_hex_in_range (aci : Z) :
  0 ≤ aci ≤ 255 →
  _aci_to_hex aci = ("#0000" ++ format_02x aci)%string.
Proof.
  intros Hr. unfold _aci_to_hex.
  replace ((aci <? 0) || (aci >? 255)) with false by lia.
  unfold int2rgb.
  rewrite !Z.shiftr_div_pow2 by lia.
  rewrite (Z.div_small aci (2 ^ 16)), (Z.div_small aci (2 ^ 8)) by lia.
  change 255 with (Z.ones 8). rewrite !Z.land_ones by lia.
  rewrite (Z.mod_small aci) by (cbn; lia). done.
Qed.

End ColourFacts.

(** C4, against the table lookup.  An entity with indexed colour 1 (red in the colour table of
    the format) and no true colour gets ["#000001"]: the index is split
    as if it were a packed RGB value, not looked up. *)
Theorem get_entity_hex_index_one (h : store float) :
  get_entity_hex Inputs.red_line h = Ok (Some "#000001"%string, h).
Proof. reflexivity. Qed.

(** ** Text entities *)

Lemma append_cons (c : ascii) (s1 s2 : string) :
  String.append (String c s1) s2 = String c (String.append s1 s2).
Proof. reflexivity. Qed.

Lemma all_space_app (s1 s2 : string) :
  all_space (String.append s1 s2) = all_space s1 && all_space s2.
Proof.
  induction s1 as [|c s1 IH]; [done|].
  rewrite append_cons. cbn [all_space]. rewrite IH.
  by destruct (is_space c).
Qed.

Lemma all_space_rev (s : string) : all_space (string_rev s) = all_space s.
Proof.
  induction s as [|c s IH]; [done|]. cbn.
  rewrite all_space_app, IH. cbn. by destruct (is_space c), (all_space s).
Qed.

Lemma lstrip_empty (s : string) :
  lstrip s = EmptyString ↔ all_space s = true.
Proof.
  induction s as [|c s IH]; [done|]. cbn.
  destruct (is_space c); cbn; [done|]. split; discriminate.
Qed.

Lemma all_space_lstrip (s : string) : all_space (lstrip s) = all_space s.
Proof.
  induction s as [|c s IH]; [done|]. cbn.
  destruct (is_space c) eqn:E; [done|]. cbn. by rewrite E.
Qed.

Lemma string_rev_empty (s : string) :
  string_rev s = EmptyString → s = EmptyString.
Proof.
  destruct s as [|c s]; [done|]. cbn [string_rev].
  destruct (string_rev s); [discriminate|]. rewrite append_cons. discriminate.
Qed.

(** [content.strip() == ""] holds exactly for the strings that are
    empty or whitespace only. *)
Lemma strip_empty (s : string) :
  strip s = EmptyString ↔ all_space s = true.
Proof.
  unfold strip, rstrip. split.
  - intros H. apply string_rev_empty, lstrip_empty in H.
    by rewrite all_space_rev, all_space_lstrip in H.
  - intros H. apply lstrip_empty in H. by rewrite H.
Qed.

(** The test [not content or content.strip() == ""]. *)
Lemma blank_test (s : string) :
  (String.eqb s "" || String.eqb (strip s) "")%string = all_space s.
Proof.
  destruct (all_space s) eqn:E.
  - apply strip_empty in E. rewrite E. cbn. by rewrite orb_true_r.
  - destruct s as [|c s]; [done|]. cbn [String.eqb orb].
    destruct (String.eqb_spec (strip (String c s)) ""%string) as [H|H]; [|done].
    apply strip_empty in H. congruence.
Qed.

Section TextFacts.
Context {F : Type} {A : Arith F}.

(** The shared keys, read: the values the dict gets. *)
Lemma shared_keys_values (entity : DXFEntity F) :
  shared_keys_readable entity = true →
  ∃ hex lt lw ly hd,
    (∀ h, get_entity_hex entity h = Ok (hex, h)) ∧
    dxf_linetype entity = Got lt ∧ dxf_lineweight entity = Got lw ∧
    dxf_layer entity = Got ly ∧ dxf_handle entity = Got hd.
Proof.
  unfold shared_keys_readable, get_entity_hex. intros H.
  repeat (apply andb_prop in H as [H ?]).
  destruct (dxf_linetype entity) as [lt|]; [|done].
  destruct (dxf_lineweight entity) as [lw|]; [|done].
  destruct (dxf_layer entity) as [ly|]; [|done].
  destruct (dxf_handle entity) as [hd|]; [|done].
  destruct (dxf_true_color entity) as [v|].
  - by eexists _, lt, lw, ly, hd.
  - destruct (dxf_color entity) as [c|]; [|done].
    exists (if c =? 256 then None else Some (_aci_to_hex c)), lt, lw, ly, hd.
    repeat split. intros h. cbn. by destruct (c =? 256).
Qed.

End TextFacts.

(** C6.  A text-like entity whose shared keys can be read and whose
    content is empty or whitespace only is dropped; with other content,
    a readable insertion point and a rotation, the dict that is returned
    carries this content, insertion point and rotation as they are. *)
Theorem text_entity_normalized (F : Type) (A : Arith F)
        (entity : DXFEntity F) (attribs : list (RawEntity F))
        (unit_name content : string) (h : store F) :
  is_text_type (dxftype entity) = true →
  shared_keys_readable entity = true →
  text_content entity = Got content →
  (all_space content = true →
   entity_to_json (Raw entity attribs) unit_name h = Ok (None, h)) ∧
  (all_space content = false →
   ∀ insert rotation,
     dxf_insert entity = Got insert →
     dxf_rotation entity = Got (Some rotation) →
     ∃ d, entity_to_json (Raw entity attribs) unit_name h
          = Ok (Some (length h), h ++ [d]) ∧
          e_type d = dxftype entity ∧
          e_body d = TextBody content insert rotation).
Proof.
  intros Htype Hshared Hcontent.
  destruct (shared_keys_values entity Hshared)
    as (hex & lt & lw & ly & hd & Hhex & Hlt & Hlw & Hly & Hhd).
  unfold text_content in Hcontent.
  cbn [entity_to_json]. unfold bind, try_except.
  rewrite Hhex, Hlt, Hlw, Hly, Hhd, Htype, Hcontent. cbn [attempt ret].
  rewrite blank_test. split.
  - intros Hblank. rewrite Hblank.
    destruct (dxf_insert entity); [|done]. cbn.
    destruct (dxf_rotation entity); done.
  - intros Hblank insert rotation Hins Hrot.
    rewrite Hblank, Hins, Hrot. cbn. eexists. split; [reflexivity|]. done.
Qed.

Lemma text_entity_normalized_witness :
  ∃ d, @entity_to_json _ Binary64.python Inputs.label "mm" []
       = Ok (Some 0%nat, [d]) ∧
       e_type d = "TEXT"%string ∧
       e_body d = TextBody "A-101" (10, 5)%float 0%float.
Proof.
  destruct Inputs.label as [entity attribs] eqn:E.
  injection E as <- <-.
  refine (proj2 (text_entity_normalized float Binary64.python _ []
                   "mm" "A-101" [] _ _ _) _ _ _ _ _); reflexivity.
Defined.

(** ** Isolation of entity failures *)

(** C1, against the isolation of an INSERT.  In a modelspace of ten entities whose fifth is an INSERT with
    an unreadable insertion point, the exception leaves [parse_dxf]:
    no document is returned. *)
Theorem broken_insert_aborts_conversion :
  @parse_dxf _ Binary64.python "plan.dxf"
    (Got Inputs.ten_with_broken_insert) [] = Exn.
Proof. vm_compute. reflexivity. Qed.

(** The same failure in a TEXT is caught by the [try] of the text
    branch: nine dicts are returned. *)
Lemma broken_text_is_skipped :
  ∃ d h, @parse_dxf _ Binary64.python "plan.dxf"
           (Got Inputs.ten_with_broken_text) [] = Ok (Some d, h)
         ∧ length (entities d) = 9%nat.
Proof. eexists _, _. split; vm_compute; reflexivity. Qed.

Lemma try_except_total {F X} (m : M F X) (d : X) (h : store F) :
  ∃ r h', try_except m d h = Ok (r, h').
Proof.
  unfold try_except. destruct (m h) as [[r h']|]; eauto.
Qed.

(** Where the isolation holds: an entity that is not an INSERT and
    whose shared keys can be read never makes [entity_to_json] throw,
    whatever its other accesses do. *)
Lemma guarded_branches_never_raise (F : Type) (A : Arith F)
      (entity : DXFEntity F) (attribs : list (RawEntity F))
      (unit_name : string) (h : store F) :
  shared_keys_readable entity = true →
  dxftype entity ≠ "INSERT"%string →
  ∃ r h', entity_to_json (Raw entity attribs) unit_name h = Ok (r, h').
Proof.
  intros Hshared Htype.
  destruct (shared_keys_values entity Hshared)
    as (hex & lt & lw & ly & hd & Hhex & Hlt & Hlw & Hly & Hhd).
  cbn [entity_to_json]. unfold bind at 1 2 3 4 5.
  rewrite Hhex, Hlt, Hlw, Hly, Hhd. cbn [attempt ret].
  destruct (is_text_type (dxftype entity)); [apply try_except_total|].
  destruct (String.eqb_spec (dxftype entity) "INSERT"); [done|].
  apply try_except_total.
Qed.

(** A geometry whose flattening has no point is dropped. *)
Lemma empty_flattening_dropped (F : Type) (A : Arith F)
      (entity : DXFEntity F) (attribs : list (RawEntity F))
      (unit_name : string) (h : store F) :
  shared_keys_readable entity = true →
  is_text_type (dxftype entity) = false →
  dxftype entity ≠ "INSERT"%string →
  flattening entity = Got [] →
  entity_to_json (Raw entity attribs) unit_name h = Ok (None, h).
Proof.
  intros Hshared Htext Htype Hflat.
  destruct (shared_keys_values entity Hshared)
    as (hex & lt & lw & ly & hd & Hhex & Hlt & Hlw & Hly & Hhd).
  cbn [entity_to_json]. unfold bind at 1 2 3 4 5.
  rewrite Hhex, Hlt, Hlw, Hly, Hhd, Htext. cbn [attempt ret].
  destruct (String.eqb_spec (dxftype entity) "INSERT"); [done|].
  unfold try_except, bind. by rewrite Hflat.
Qed.

(** ** The store *)

Section StoreFacts.
Context {F : Type} {A : Arith F}.
Implicit Types (h : store F) (ls : list loc).

Lemma RawEntity_nested_ind (P : RawEntity F → Prop) :
  (∀ entity attribs, Forall P attribs → P (Raw entity attribs)) →
  ∀ e, P e.
Proof.
  intros step. fix IH 1. intros [entity attribs]. apply step.
  revert attribs. fix IHl 1. intros [|a attribs].
  - constructor.
  - constructor; [apply IH | apply IHl].
Qed.

Lemma owns_weaken h (lo lo' : nat) (l : loc) :
  (lo' ≤ lo)%nat → owns h lo l → owns h lo' l.
Proof.
  intros Hlo (Hl & d & Hd & Hwf & Hnd & Hattrs).
  split; [lia|]. exists d. repeat split; try done.
  eapply Forall_impl; [exact Hattrs|]. cbn. intros a [? ?]. split; [lia|done].
Qed.

Lemma owns_agree h h' (lo : nat) (l : loc) :
  (∀ x, (lo ≤ x)%nat → h' !! x = h !! x) → owns h lo l → owns h' lo l.
Proof.
  intros Hag (Hl & d & Hd & Hwf & Hnd & Hattrs).
  split; [done|]. exists d. rewrite Hag by done. repeat split; try done.
  eapply Forall_impl; [exact Hattrs|]. cbn. intros a [? (da & ? & ?)].
  split; [done|]. exists da. rewrite Hag by lia. done.
Qed.

Lemma owns_prefix h h' (lo : nat) (l : loc) :
  h `prefix_of` h' → owns h lo l → owns h' lo l.
Proof.
  intros Hp (Hl & d & Hd & Hwf & Hnd & Hattrs).
  split; [done|]. exists d. repeat split; try done.
  - by eapply prefix_lookup_Some.
  - eapply Forall_impl; [exact Hattrs|]. cbn. intros a [? (da & ? & ?)].
    split; [done|]. exists da. split; [|done]. by eapply prefix_lookup_Some.
Qed.

Lemma chain_weaken h (lo lo' : nat) ls :
  (lo' ≤ lo)%nat → chain h lo ls → chain h lo' ls.
Proof.
  destruct ls as [|l ls]; [done|]. intros Hlo [Ho Hc].
  split; [by eapply owns_weaken|done].
Qed.

Lemma chain_prefix h h' (lo : nat) ls :
  h `prefix_of` h' → chain h lo ls → chain h' lo ls.
Proof.
  intros Hp. revert lo. induction ls as [|l ls IH]; intros lo; [done|].
  intros [Ho Hc]. split; [by eapply owns_prefix|by apply IH].
Qed.

Lemma chain_agree h h' (lo : nat) ls :
  (∀ x, (lo ≤ x)%nat → h' !! x = h !! x) → chain h lo ls → chain h' lo ls.
Proof.
  revert lo. induction ls as [|l ls IH]; intros lo Hag; [done|].
  intros [Ho Hc]. split; [by eapply owns_agree|].
  apply IH; [|done]. intros x Hx. apply Hag. destruct Ho. lia.
Qed.

Lemma owns_lookup h (lo : nat) (l : loc) :
  owns h lo l → ∃ d, h !! l = Some d ∧ well_formed d.
Proof. intros (_ & d & ? & ? & _). by exists d. Qed.

(** Every dict of a chain lies at or above its start. *)
Lemma chain_bounds h (lo : nat) ls :
  chain h lo ls →
  Forall (λ l, (lo ≤ l < length h)%nat ∧ owns h lo l) ls.
Proof.
  revert lo. induction ls as [|l ls IH]; intros lo; [constructor|].
  intros [Ho Hc]. constructor.
  - split; [|done]. destruct Ho as (Hl & d & Hd & _).
    apply lookup_lt_Some in Hd. lia.
  - eapply Forall_impl; [apply IH, Hc|]. cbn. intros l' [Hl' Ho'].
    destruct Ho as [Hl _]. split; [lia|]. eapply owns_weaken; [|done]. lia.
Qed.

Lemma chain_NoDup h (lo : nat) ls : chain h lo ls → NoDup ls.
Proof.
  revert lo. induction ls as [|l ls IH]; intros lo; [constructor|].
  intros [Ho Hc]. constructor; [|by eapply IH].
  intros Hin. apply chain_bounds in Hc.
  rewrite Forall_forall in Hc. apply Hc in Hin. lia.
Qed.

(** The footprint of a chain: no dict twice, none below the start. *)
Lemma chain_footprint h (lo : nat) ls :
  chain h lo ls →
  NoDup (footprint h ls) ∧
  Forall (λ x, (lo ≤ x < length h)%nat) (footprint h ls).
Proof.
  revert lo. induction ls as [|l ls IH]; intros lo.
  - intros _. split; constructor.
  - intros [Ho Hc]. destruct (IH _ Hc) as [Hnd Hb].
    destruct Ho as (Hl & d & Hd & Hwf & Hnda & Hattrs).
    unfold footprint. cbn [List.map concat]. rewrite Hd.
    fold (footprint h ls).
    assert (Hlen : (l < length h)%nat) by by eapply lookup_lt_Some.
    rewrite Forall_forall in Hattrs, Hb.
    split.
    + apply NoDup_cons. split.
      * rewrite elem_of_app. intros [Hin|Hin].
        -- apply Hattrs in Hin. lia.
        -- apply Hb in Hin. lia.
      * apply NoDup_app. repeat split; [done| |done].
        intros x Hx1 Hx2. apply Hattrs in Hx1. apply Hb in Hx2. lia.
    + rewrite Forall_forall. intros x Hx.
      apply elem_of_cons in Hx as [->|Hx]; [lia|].
      apply elem_of_app in Hx as [Hx|Hx].
      * apply Hattrs in Hx. lia.
      * apply Hb in Hx. lia.
Qed.

Lemma get_entity_hex_state (entity : DXFEntity F) h x h' :
  get_entity_hex entity h = Ok (x, h') → h' = h.
Proof.
  unfold get_entity_hex. destruct (dxf_true_color entity).
  - by intros [= _ <-].
  - destruct (dxf_color entity) as [c|]; [|done]. cbn.
    destruct (c =? 256); by intros [= _ <-].
Qed.

(** The loop that gathers the dicts of a list of entities builds a
    chain. *)
Lemma collect_chain {X} (f : X → M F (option loc)) (xs : list X) :
  Forall (λ x, ∀ h r h', f x h = Ok (r, h') → allocates h h' r) xs →
  ∀ h ls h', collect f xs h = Ok (ls, h') →
             h `prefix_of` h' ∧ chain h' (length h) ls.
Proof.
  induction 1 as [|x xs Hx _ IH]; intros h ls h' Hrun.
  - inv_run Hrun. subst. done.
  - cbn [collect] in Hrun. inv_run Hrun. inv_run Hrun. inv_run Hrun. subst.
    apply Hx in Hrun0 as [Hp Hr]. apply IH in Hrun1 as [Hp' Hc].
    split; [by etrans|].
    destruct x0 as [l|].
    + destruct Hr as [Ho Hl]. split; [by eapply owns_prefix|].
      by rewrite Hl.
    + eapply chain_weaken; [|done]. by apply prefix_length.
Qed.

Lemma allocates_alloc h (d : Entity F) :
  well_formed d → attributes_of d = [] →
  allocates h (h ++ [d]) (Some (length h)).
Proof.
  intros Hwf Hattrs. split; [by apply prefix_app_r|]. split.
  - split; [done|]. exists d. rewrite Hattrs.
    split; [by apply list_lookup_middle|]. repeat split; try done; constructor.
  - rewrite length_app. cbn. lia.
Qed.

Lemma entity_to_json_allocates (e : RawEntity F) (unit_name : string) :
  ∀ h r h', entity_to_json e unit_name h = Ok (r, h') → allocates h h' r.
Proof.
  induction e as [entity attribs IH] using RawEntity_nested_ind.
  intros h r h' Hrun. cbn [entity_to_json] in Hrun.
  inv_run Hrun. apply get_entity_hex_state in Hrun0 as ->.
  do 4 (inv_run Hrun; inv_run Hrun0; subst).
  destruct (is_text_type (dxftype entity)) eqn:Htext.
  { apply try_except_ok in Hrun as [Hrun|(_ & -> & ->)]; [|done].
    do 3 (inv_run Hrun; inv_run Hrun0; subst).
    destruct (_ || _).
    - inv_run Hrun. subst. done.
    - inv_run Hrun. inv_run Hrun. inv_run Hrun0. subst.
      by apply allocates_alloc. }
  destruct (String.eqb_spec (dxftype entity) "INSERT") as [Hins|Hins].
  { do 6 (inv_run Hrun; inv_run Hrun0; subst).
    match type of Hrun with
    | match ?x with Some _ => _ | None => _ end _ = _ =>
        destruct x as [rotation|]; [|done]
    end.
    inv_run Hrun. inv_run Hrun. inv_run Hrun. inv_run Hrun1. subst.
    eapply collect_chain in Hrun0 as [Hp Hc].
    2:{ eapply Forall_impl; [exact IH|]. cbn. intros a Ha. apply Ha. }
    split; [etrans; [done|by apply prefix_app_r]|]. split.
    - split; [by apply prefix_length|]. eexists.
      split; [by apply list_lookup_middle|].
      split; [done|]. cbn. split; [by eapply chain_NoDup|].
      apply chain_bounds in Hc.
      eapply Forall_impl; [exact Hc|]. cbn. intros a [Ha Ho].
      split; [done|]. apply owns_lookup in Ho as (da & Hda & Hwf).
      exists da. split; [|done]. by apply lookup_app_l_Some.
    - rewrite length_app. cbn. lia. }
  apply try_except_ok in Hrun as [Hrun|(_ & -> & ->)]; [|done].
  inv_run Hrun. inv_run Hrun0. subst.
  match type of Hrun with
  | match ?x with [] => _ | _ :: _ => _ end _ = _ =>
      destruct x as [|v v_list]; [inv_run Hrun; subst; done|]
  end.
  inv_run Hrun. inv_run Hrun. inv_run Hrun0. subst.
  apply allocates_alloc; [|done]. cbn. split; [done|lia].
Qed.

Lemma collect_entities_chain (es : list (RawEntity F)) (unit_name : string)
      h ls h' :
  collect (λ e, entity_to_json e unit_name) es h = Ok (ls, h') →
  h `prefix_of` h' ∧ chain h' (length h) ls.
Proof.
  apply collect_chain. apply Forall_forall. intros e _.
  apply entity_to_json_allocates.
Qed.

(** Entities that are all dropped leave an empty list. *)
Lemma collect_absent (es : list (RawEntity F)) (unit_name : string) h ls h' :
  Forall (absent unit_name) es →
  collect (λ e, entity_to_json e unit_name) es h = Ok (ls, h') →
  ls = [] ∧ h' = h.
Proof.
  intros Habs. revert ls. induction Habs as [|e es He _ IH]; intros ls Hrun.
  - inv_run Hrun. done.
  - cbn [collect] in Hrun. unfold bind in Hrun at 1. rewrite He in Hrun.
    inv_run Hrun. inv_run Hrun. subst. by apply IH.
Qed.

(** *** The block table *)

Lemma blocks_chained_prefix h h' (m : gmap string (list loc)) :
  h `prefix_of` h' → blocks_chained h m → blocks_chained h' m.
Proof.
  intros Hp Hm k ls Hk. destruct (Hm k ls Hk) as [lo Hc].
  exists lo. by eapply chain_prefix.
Qed.

Lemma block_table_chained (bs : list (RawBlock F)) (unit_name : string) :
  ∀ (m : gmap string (list loc)) h m' h',
    block_table bs unit_name m h = Ok (m', h') →
    blocks_chained h m →
    h `prefix_of` h' ∧ blocks_chained h' m'.
Proof.
  induction bs as [|b bs IH]; intros m h m' h' Hrun Hm.
  - inv_run Hrun. subst. done.
  - cbn [block_table] in Hrun.
    destruct (startswith (block_name b) "*"); [by eapply IH|].
    inv_run Hrun. apply collect_entities_chain in Hrun0 as [Hp Hc].
    assert (Hm1 : blocks_chained h0 m) by by eapply blocks_chained_prefix.
    destruct x as [|l ls].
    + apply IH in Hrun as [Hp' Hm']; [|done]. split; [by etrans|done].
    + apply IH in Hrun as [Hp' Hm'].
      * split; [by etrans|done].
      * intros k ls' Hk. destruct (decide (block_name b = k)) as [<-|Hne].
        -- rewrite lookup_insert_eq in Hk. injection Hk as <-. by eexists.
        -- rewrite lookup_insert_ne in Hk by done. by apply (Hm1 k).
Qed.

(** Where the keys of the table come from. *)
Lemma block_table_keys (bs : list (RawBlock F)) (unit_name : string) :
  ∀ (m : gmap string (list loc)) h m' h',
    block_table bs unit_name m h = Ok (m', h') →
    ∀ k ls, m' !! k = Some ls →
      m !! k = Some ls ∨
      (ls ≠ [] ∧ startswith k "*" = false ∧
       ∃ b h0 h1, b ∈ bs ∧ block_name b = k ∧
         collect (λ e, entity_to_json e unit_name) (block_entities b) h0
         = Ok (ls, h1)).
Proof.
  induction bs as [|b bs IH]; intros m h m' h' Hrun k ls Hk.
  - inv_run Hrun. subst. by left.
  - cbn [block_table] in Hrun.
    destruct (startswith (block_name b) "*") eqn:Hanon.
    { destruct (IH _ _ _ _ Hrun k ls Hk) as [?|(? & ? & b' & h0 & h1 & ? & ?)];
        [by left|right].
      repeat split; try done. exists b', h0, h1. split; [|done].
      by apply list_elem_of_further. }
    inv_run Hrun. destruct x as [|l ls0].
    { destruct (IH _ _ _ _ Hrun k ls Hk) as [?|(? & ? & b' & h1 & h2 & ? & ?)];
        [by left|right].
      repeat split; try done. exists b', h1, h2. split; [|done].
      by apply list_elem_of_further. }
    destruct (IH _ _ _ _ Hrun k ls Hk) as [Hold|(? & ? & b' & h1 & h2 & ? & ?)].
    + destruct (decide (block_name b = k)) as [<-|Hne].
      * rewrite lookup_insert_eq in Hold. injection Hold as <-. right.
        repeat split; try done. exists b, h, h0.
        split; [apply list_elem_of_here|done].
      * rewrite lookup_insert_ne in Hold by done. by left.
    + right. repeat split; try done. exists b', h1, h2. split; [|done].
      by apply list_elem_of_further.
Qed.

(** *** Steps 1 to 3 *)

Lemma normalize_document_spec (name : string) (doc : RawDocument F)
      h (d : CADDocument F) h1 :
  normalize_document name doc h = Ok (d, h1) →
  ∃ hb,
    block_table (doc_blocks doc) (unit_label doc) ∅ h = Ok (blocks d, hb) ∧
    collect (λ e, entity_to_json e (unit_label doc)) (modelspace doc) hb
    = Ok (entities d, h1) ∧
    offset d = (fzero, fzero).
Proof.
  unfold normalize_document. intros Hrun.
  inv_run Hrun. inv_run Hrun. inv_run Hrun. subst. by exists h0.
Qed.

(** After steps 1 to 3 the modelspace dicts form a chain that starts
    above every dict of the block table. *)
Lemma normalize_document_chained (name : string) (doc : RawDocument F)
      (d : CADDocument F) h1 :
  normalize_document name doc [] = Ok (d, h1) →
  ∃ hb, hb `prefix_of` h1 ∧ blocks_chained hb (blocks d) ∧
        chain h1 (length hb) (entities d).
Proof.
  intros Hrun. apply normalize_document_spec in Hrun as (hb & Hb & Hm & _).
  exists hb. apply block_table_chained in Hb as [_ Hb]; [|done].
  apply collect_entities_chain in Hm as [Hp Hc]. done.
Qed.

End StoreFacts.

(** ** The offset pass *)

Section PassFacts.
Context {F : Type} {A : Arith F}.
Implicit Types (h : store F) (ls : list loc) (o : F * F).

Lemma footprint_cons h (l : loc) ls :
  footprint h (l :: ls)
  = (l :: match h !! l with Some d => attributes_of d | None => [] end)
      ++ footprint h ls.
Proof. reflexivity. Qed.

Lemma footprint_app h ls1 ls2 :
  footprint h (ls1 ++ ls2) = footprint h ls1 ++ footprint h ls2.
Proof. unfold footprint. by rewrite map_app, concat_app. Qed.

Lemma shift_attribute_ok o (a : loc) h u h' :
  shift_attribute o a h = Ok (u, h') →
  ∃ d, h !! a = Some d ∧ is_geometry d = false ∧
       h' = <[a := shift_entity o d]> h.
Proof.
  unfold shift_attribute. intros Hrun. inv_run Hrun. inv_run Hrun0. subst.
  exists x. unfold shift_entity, is_geometry.
  destruct (e_body x); [| |done]; inv_run Hrun; done.
Qed.

(** The inner loop of step 5 shifts each listed dict once. *)
Lemma shift_attributes_spec o (attrs : list loc) :
  ∀ h u h', NoDup attrs →
    for_each (shift_attribute o) attrs h = Ok (u, h') →
    length h' = length h ∧
    ∀ x, h' !! x = if decide (x ∈ attrs) then shift_entity o <$> h !! x
                   else h !! x.
Proof.
  induction attrs as [|a attrs IH]; intros h u h' Hnd Hrun.
  - inv_run Hrun. subst. split; [done|]. intros y.
    destruct (decide (y ∈ [])) as [Hin|]; [|done]. by apply elem_of_nil in Hin.
  - apply NoDup_cons in Hnd as [Ha Hnd]. cbn [for_each] in Hrun.
    inv_run Hrun. apply shift_attribute_ok in Hrun0 as (d & Hd & _ & ->).
    apply IH in Hrun as [Hlen Hx]; [|done].
    rewrite length_insert in Hlen. split; [done|]. intros y. rewrite Hx.
    destruct (decide (y = a)) as [->|Hne].
    + rewrite decide_False by done. rewrite decide_True by apply list_elem_of_here.
      rewrite list_lookup_insert_eq by by eapply lookup_lt_Some.
      by rewrite Hd.
    + rewrite list_lookup_insert_ne by done.
      destruct (decide (y ∈ attrs)) as [Hin|Hnin].
      * by rewrite decide_True by by apply list_elem_of_further.
      * rewrite decide_False; [done|]. intros Hin.
        apply elem_of_cons in Hin as [?|?]; done.
Qed.

(** One iteration of step 5 shifts the dict and its attributes, once
    each, and nothing else. *)
Lemma apply_offset_entity_spec o (l : loc) (lo : nat) h u h' :
  owns h lo l →
  apply_offset_entity o l h = Ok (u, h') →
  length h' = length h ∧
  ∀ x, h' !! x = if decide (x ∈ footprint h [l])
                 then shift_entity o <$> h !! x else h !! x.
Proof.
  intros (Hl & d & Hd & Hwf & Hnd & Hattrs) Hrun.
  rewrite footprint_cons, Hd. cbn [footprint List.map concat].
  rewrite app_nil_r.
  assert (Hlen : (l < length h)%nat) by by eapply lookup_lt_Some.
  assert (Hnotin : l ∉ attributes_of d).
  { intros Hin. rewrite Forall_forall in Hattrs. apply Hattrs in Hin. lia. }
  unfold apply_offset_entity in Hrun.
  inv_run Hrun. inv_run Hrun0. subst. rewrite Hd in H. injection H as <-.
  inv_run Hrun. inv_run Hrun0. subst.
  assert (Hbase : ∀ x, <[l := shift_entity o d]> h !! x
                       = if decide (x = l) then shift_entity o <$> h !! x
                         else h !! x).
  { intros y. destruct (decide (y = l)) as [->|Hne].
    - rewrite list_lookup_insert_eq by done. by rewrite Hd.
    - by rewrite list_lookup_insert_ne. }
  assert (Hdone : ∀ hf, hf = <[l := shift_entity o d]> h →
            attributes_of d = [] →
            length hf = length h ∧
            ∀ x, hf !! x = if decide (x ∈ l :: attributes_of d)
                           then shift_entity o <$> h !! x else h !! x).
  { intros hf -> Hnil. rewrite length_insert. split; [done|]. intros y.
    rewrite Hbase, Hnil. destruct (decide (y = l)) as [->|Hne].
    - by rewrite decide_True by apply list_elem_of_here.
    - rewrite decide_False; [done|]. by intros ->%list_elem_of_singleton. }
  unfold well_formed in Hwf. unfold attributes_of in *.
  destruct (e_body d) as [t ins r|b ins r s attrs|lk len ak ar vs n].
  - inv_run Hrun. subst. by apply Hdone.
  - rewrite Hwf in Hrun. cbn in Hrun.
    apply shift_attributes_spec in Hrun as [Hlen' Hx]; [|done].
    rewrite length_insert in Hlen'. split; [done|]. intros y.
    rewrite Hx, Hbase. destruct (decide (y ∈ attrs)) as [Hin|Hnin].
    + rewrite decide_False by (intros ->; done).
      by rewrite decide_True by by apply list_elem_of_further.
    + destruct (decide (y = l)) as [->|Hne].
      * by rewrite decide_True by apply list_elem_of_here.
      * rewrite decide_False; [done|]. intros Hin.
        apply elem_of_cons in Hin as [?|?]; done.
  - inv_run Hrun. subst. by apply Hdone.
Qed.

(** Step 5 shifts every dict of the footprint once and nothing else. *)
Lemma apply_offset_spec o ls :
  ∀ (lo : nat) h u h',
    chain h lo ls →
    apply_offset o ls h = Ok (u, h') →
    length h' = length h ∧
    ∀ x, h' !! x = if decide (x ∈ footprint h ls)
                   then shift_entity o <$> h !! x else h !! x.
Proof.
  unfold apply_offset.
  induction ls as [|l ls IH]; intros lo h u h' Hc Hrun.
  - inv_run Hrun. subst. split; [done|]. intros y.
    destruct (decide (y ∈ footprint h [])) as [Hin|]; [|done].
    by apply elem_of_nil in Hin.
  - destruct Hc as [Ho Hc]. cbn [for_each] in Hrun. inv_run Hrun.
    pose proof (chain_footprint h lo [l] (conj Ho I)) as [_ Hhead].
    pose proof (chain_footprint h (S l) ls Hc) as [_ Htail].
    rewrite Forall_forall in Hhead, Htail.
    assert (Hheadl : ∀ z, z ∈ footprint h [l] → (z ≤ l)%nat).
    { intros z Hz. destruct Ho as (_ & d & Hd & _ & _ & Hattrs).
      rewrite footprint_cons, Hd in Hz. cbn in Hz. rewrite app_nil_r in Hz.
      apply elem_of_cons in Hz as [->|Hz]; [done|].
      rewrite Forall_forall in Hattrs. apply Hattrs in Hz. lia. }
    apply (apply_offset_entity_spec _ _ lo) in Hrun0 as [Hlen0 Hx0]; [|done].
    assert (Hag : ∀ z, (S l ≤ z)%nat → h0 !! z = h !! z).
    { intros z Hz. rewrite Hx0. rewrite decide_False; [done|].
      intros Hin. apply Hheadl in Hin. lia. }
    assert (Hfp : footprint h0 ls = footprint h ls).
    { unfold footprint. f_equal. apply map_ext_in. intros l' Hl'.
      apply chain_bounds in Hc. rewrite Forall_forall in Hc.
      apply list_elem_of_In, Hc in Hl' as [Hl' _]. rewrite Hag by lia. done. }
    apply (IH (S l)) in Hrun as [Hlen Hx]; [|by eapply chain_agree].
    split; [lia|]. intros y. rewrite Hx, Hfp, Hx0.
    change (l :: ls) with ([l] ++ ls). rewrite (footprint_app h [l] ls).
    destruct (decide (y ∈ footprint h ls)) as [Hin|Hnin].
    + rewrite decide_False.
      * by rewrite decide_True by (apply elem_of_app; by right).
      * intros Hin'. apply Hheadl in Hin'. apply Htail in Hin. lia.
    + destruct (decide (y ∈ footprint h [l])) as [Hin'|Hnin'].
      * by rewrite decide_True by (apply elem_of_app; by left).
      * rewrite decide_False; [done|]. intros Hin.
        apply elem_of_app in Hin as [?|?]; done.
Qed.

End PassFacts.

(** ** Steps 4 and 5 on the normalised document *)

Section RecenterFacts.
Context {F : Type} {A : Arith F}.
Implicit Types (h : store F) (ls : list loc) (o : F * F).

Lemma map_m_read ls h (ds : list (Entity F)) h' :
  map_m read ls h = Ok (ds, h') →
  h' = h ∧ List.map (λ l, h !! l) ls = List.map Some ds.
Proof.
  revert ds. induction ls as [|l ls IH]; intros ds Hrun.
  - inv_run Hrun. by subst.
  - cbn [map_m] in Hrun. inv_run Hrun. inv_run Hrun0. subst.
    inv_run Hrun. inv_run Hrun. subst.
    apply IH in Hrun0 as [-> Hds]. split; [done|]. cbn. by rewrite H, Hds.
Qed.

Lemma all_coordinates_ok ls h (pts : list (F * F)) h' :
  all_coordinates ls h = Ok (pts, h') →
  h' = h ∧ pts = modelspace_coordinates h ls.
Proof.
  unfold all_coordinates. intros Hrun. inv_run Hrun. inv_run Hrun. subst.
  apply map_m_read in Hrun0 as [-> Hds]. split; [done|].
  unfold modelspace_coordinates. f_equal.
  revert x Hds. induction ls as [|l ls IH]; intros [|d ds] Hds; try done.
  cbn in Hds. injection Hds as Hd Hds. cbn. rewrite Hd. f_equal. by apply IH.
Qed.

(** Step 4 does not fail on dicts that are in the store. *)
Lemma all_coordinates_total ls h :
  Forall (λ l, is_Some (h !! l)) ls →
  all_coordinates ls h = Ok (modelspace_coordinates h ls, h).
Proof.
  intros Hls. unfold all_coordinates, modelspace_coordinates, bind.
  assert (Hm : map_m read ls h
               = Ok (omap (λ l, h !! l) ls, h)).
  { induction Hls as [|l ls [d Hd] _ IH]; [done|].
    cbn [map_m]. unfold bind, read at 1. rewrite Hd, IH. cbn. by rewrite Hd. }
  rewrite Hm. unfold ret. do 3 f_equal. clear Hm.
  induction Hls as [|l ls [d Hd] _ IH]; [done|]. cbn. rewrite Hd. cbn.
  by rewrite IH.
Qed.

Lemma coordinates_shift o (d : Entity F) :
  coordinates (shift_entity o d) = List.map (shift o) (coordinates d).
Proof. unfold coordinates, shift_entity. by destruct (e_body d). Qed.

Lemma attributes_shift o (d : Entity F) :
  attributes_of (shift_entity o d) = attributes_of d.
Proof. unfold attributes_of, shift_entity. by destruct (e_body d). Qed.

Lemma erase_shift o (d : Entity F) :
  erase_coordinates (shift_entity o d) = erase_coordinates d.
Proof.
  unfold erase_coordinates, shift_entity, with_body. cbn.
  destruct (e_body d); try done. by rewrite List.map_map.
Qed.

Lemma well_formed_shift o (d : Entity F) :
  well_formed d → well_formed (shift_entity o d).
Proof.
  unfold well_formed, shift_entity. cbn.
  destruct (e_body d); try done. by rewrite length_map.
Qed.

Lemma elem_of_footprint h ls (x : loc) :
  x ∈ footprint h ls ↔
  ∃ l, l ∈ ls ∧ (x = l ∨ ∃ d, h !! l = Some d ∧ x ∈ attributes_of d).
Proof.
  induction ls as [|l ls IH].
  - split; [by intros ?%elem_of_nil|]. by intros (l & ?%elem_of_nil & _).
  - rewrite footprint_cons, elem_of_app, elem_of_cons, IH. split.
    + intros [[->|Hx]|(l' & Hl' & Hx)].
      * exists l. split; [apply list_elem_of_here|by left].
      * exists l. split; [apply list_elem_of_here|right].
        destruct (h !! l) as [d|]; [by exists d|by apply elem_of_nil in Hx].
      * exists l'. split; [by apply list_elem_of_further|done].
    + intros (l' & Hl' & Hx). apply elem_of_cons in Hl' as [->|Hl'].
      * left. destruct Hx as [->|(d & Hd & Hx)]; [by left|right].
        by rewrite Hd.
      * right. by exists l'.
Qed.

(** Steps 4 and 5 together. *)
Lemma recenter_spec (d d' : CADDocument F) h1 h2 (lo : nat) :
  chain h1 lo (entities d) →
  recenter d h1 = Ok (d', h2) →
  entities d' = entities d ∧ blocks d' = blocks d ∧
  offset d' = compute_offset (modelspace_coordinates h1 (entities d)) ∧
  length h2 = length h1 ∧
  ∀ x, h2 !! x = if decide (x ∈ footprint h1 (entities d))
                 then shift_entity (offset d') <$> h1 !! x else h1 !! x.
Proof.
  intros Hc Hrun. unfold recenter in Hrun.
  inv_run Hrun. apply all_coordinates_ok in Hrun0 as [-> ->].
  inv_run Hrun. inv_run Hrun. subst. cbn.
  apply (apply_offset_spec _ _ lo) in Hrun0 as [Hlen Hx]; done.
Qed.

Lemma parse_dxf_stages (name : string) (doc : RawDocument F)
      (d : CADDocument F) h2 :
  parse_dxf name (Got doc) [] = Ok (Some d, h2) →
  ∃ d0 h1, normalize_document name doc [] = Ok (d0, h1) ∧
           recenter d0 h1 = Ok (d, h2).
Proof.
  unfold parse_dxf. intros Hrun. inv_run Hrun. inv_run Hrun. inv_run Hrun.
  injection H as <-. subst. by exists x, h.
Qed.

(** The store after [parse_dxf], dict by dict, against the store after
    steps 1 to 3. *)
Lemma parse_dxf_store (name : string) (doc : RawDocument F)
      (d : CADDocument F) h2 :
  parse_dxf name (Got doc) [] = Ok (Some d, h2) →
  ∃ d0 h1 hb,
    normalize_document name doc [] = Ok (d0, h1) ∧
    entities d = entities d0 ∧ blocks d = blocks d0 ∧
    offset d = compute_offset (modelspace_coordinates h1 (entities d0)) ∧
    hb `prefix_of` h1 ∧ blocks_chained hb (blocks d0) ∧
    chain h1 (length hb) (entities d0) ∧
    length h2 = length h1 ∧
    ∀ x, h2 !! x = if decide (x ∈ footprint h1 (entities d0))
                   then shift_entity (offset d) <$> h1 !! x else h1 !! x.
Proof.
  intros Hrun. apply parse_dxf_stages in Hrun as (d0 & h1 & Hn & Hr).
  destruct (normalize_document_chained _ _ _ _ Hn) as (hb & Hp & Hb & Hc).
  destruct (recenter_spec _ _ _ _ _ Hc Hr) as (He & Hbl & Ho & Hlen & Hx).
  exists d0, h1, hb. done.
Qed.

(** A modelspace dict after the pass is the dict before, shifted. *)
Lemma modelspace_dict_shifted (h1 h2 : store F) ls o (lo : nat) (l : loc) :
  chain h1 lo ls →
  (∀ x, h2 !! x = if decide (x ∈ footprint h1 ls)
                  then shift_entity o <$> h1 !! x else h1 !! x) →
  l ∈ ls →
  ∃ e0, h1 !! l = Some e0 ∧ well_formed e0 ∧
        h2 !! l = Some (shift_entity o e0) ∧
        ∀ a, a ∈ attributes_of e0 →
             ∃ a0, h1 !! a = Some a0 ∧ well_formed a0 ∧
                   h2 !! a = Some (shift_entity o a0).
Proof.
  intros Hc Hx Hl. apply chain_bounds in Hc. rewrite Forall_forall in Hc.
  destruct (Hc l Hl) as (_ & _ & e0 & He0 & Hwf & _ & Hattrs).
  exists e0. repeat split; try done.
  - rewrite Hx, decide_True, He0; [done|].
    apply elem_of_footprint. exists l. split; [done|by left].
  - intros a Ha. rewrite Forall_forall in Hattrs.
    destruct (Hattrs a Ha) as (_ & a0 & Ha0 & Hwfa). exists a0.
    repeat split; try done. rewrite Hx, decide_True, Ha0; [done|].
    apply elem_of_footprint. exists l. split; [done|right]. by exists e0.
Qed.

(** A dict of the block table, and its attributes, are as they were. *)
Lemma block_dict_untouched (h1 h2 hb : store F) ls bls o (lo : nat)
      (l : loc) :
  hb `prefix_of` h1 →
  chain hb lo bls →
  chain h1 (length hb) ls →
  (∀ x, h2 !! x = if decide (x ∈ footprint h1 ls)
                  then shift_entity o <$> h1 !! x else h1 !! x) →
  l ∈ bls →
  ∃ e, h1 !! l = Some e ∧ well_formed e ∧ h2 !! l = Some e ∧
       ∀ a, a ∈ attributes_of e → h2 !! a = h1 !! a.
Proof.
  intros Hp Hcb Hc Hx Hl.
  apply chain_footprint in Hc as [_ Hfp]. rewrite Forall_forall in Hfp.
  assert (Hlow : ∀ y, (y < length hb)%nat → h2 !! y = h1 !! y).
  { intros y Hy. rewrite Hx, decide_False; [done|].
    intros Hin. apply Hfp in Hin. lia. }
  apply chain_bounds in Hcb. rewrite Forall_forall in Hcb.
  destruct (Hcb l Hl) as ([_ Hlt] & _ & e & He & Hwf & _ & Hattrs).
  exists e. assert (He1 : h1 !! l = Some e) by by eapply prefix_lookup_Some.
  repeat split; try done.
  - by rewrite Hlow.
  - intros a Ha. rewrite Forall_forall in Hattrs.
    destruct (Hattrs a Ha) as [? _]. apply Hlow. lia.
Qed.

Lemma modelspace_coordinates_shifted (h1 h2 : store F) ls o (lo : nat) :
  chain h1 lo ls →
  (∀ x, h2 !! x = if decide (x ∈ footprint h1 ls)
                  then shift_entity o <$> h1 !! x else h1 !! x) →
  modelspace_coordinates h2 ls
  = List.map (shift o) (modelspace_coordinates h1 ls).
Proof.
  intros Hc Hx. unfold modelspace_coordinates.
  rewrite concat_map, List.map_map. f_equal. apply map_ext_in.
  intros l Hl%list_elem_of_In.
  destruct (modelspace_dict_shifted _ _ _ _ _ _ Hc Hx Hl)
    as (e0 & He0 & _ & He2 & _).
  by rewrite He0, He2, coordinates_shift.
Qed.

End RecenterFacts.

(** ** The block table *)

(** C8.  No key of the block table of the returned document starts
    with the marker of anonymous blocks, and a block is no key when its
    entities, and those of any other block of its name, all normalise
    to absent. *)
Theorem anonymous_and_empty_blocks_left_out (F : Type) (A : Arith F)
        (name : string) (doc : RawDocument F) (d : CADDocument F)
        (h : store F) :
  parse_dxf name (Got doc) [] = Ok (Some d, h) →
  (∀ k, startswith k "*" = true → blocks d !! k = None) ∧
  (∀ b, b ∈ doc_blocks doc →
        (∀ b', b' ∈ doc_blocks doc → block_name b' = block_name b →
               Forall (absent (unit_label doc)) (block_entities b')) →
        blocks d !! block_name b = None).
Proof.
  intros Hrun.
  apply parse_dxf_store in Hrun as (d0 & h1 & hb & Hn & _ & Hb & _).
  apply normalize_document_spec in Hn as (hb' & Hbt & _ & _).
  rewrite Hb. split.
  - intros k Hk. destruct (blocks d0 !! k) as [ls|] eqn:Hls; [|done].
    destruct (block_table_keys _ _ _ _ _ _ Hbt k ls Hls)
      as [Hempty|(_ & Hnot & _)]; [|congruence].
    by rewrite lookup_empty in Hempty.
  - intros b Hin Hall.
    destruct (blocks d0 !! block_name b) as [ls|] eqn:Hls; [|done].
    destruct (block_table_keys _ _ _ _ _ _ Hbt _ ls Hls)
      as [Hempty|(Hne & _ & b' & h0 & h2 & Hin' & Hname & Hcol)].
    + by rewrite lookup_empty in Hempty.
    + apply collect_absent in Hcol as [-> _]; [done|]. by apply Hall.
Qed.

Lemma anonymous_and_empty_blocks_left_out_witness :
  ∃ d h, @parse_dxf _ Binary64.python "plan.dxf"
           (Got (@Drawings.plan _ Binary64.python)) [] = Ok (Some d, h) ∧
         blocks d !! "*U1"%string = None ∧
         blocks d !! "EMPTY"%string = None.
Proof.
  eexists _, _.
  assert (Hrun : @parse_dxf _ Binary64.python "plan.dxf"
             (Got (@Drawings.plan _ Binary64.python)) [] = Ok (Some _, _))
    by (vm_compute; reflexivity).
  split; [exact Hrun|].
  destruct (anonymous_and_empty_blocks_left_out _ _ _ _ _ _ Hrun)
    as [Hanon Hempty].
  split; [by apply Hanon|].
  refine (Hempty {| block_name := "EMPTY"%string; block_entities := _ |} _ _).
  - cbn. do 2 apply list_elem_of_further. apply list_elem_of_here.
  - intros b' Hb' Hname. cbn in Hb'.
    repeat (apply elem_of_cons in Hb' as [->|Hb']).
    all: try discriminate. all: try (by apply elem_of_nil in Hb').
    repeat constructor.
Defined.

(** ** Frame of the offset pass *)

(** C9.  The offset pass leaves every dict of the block table, and the
    attributes of such a dict, as steps 1 to 3 built them; of a
    modelspace dict and of its attributes it changes the coordinates
    only. *)
Theorem offset_pass_frame (F : Type) (A : Arith F) (name : string)
        (doc : RawDocument F) (d : CADDocument F) (h : store F) :
  parse_dxf name (Got doc) [] = Ok (Some d, h) →
  ∃ d0 h1,
    normalize_document name doc [] = Ok (d0, h1) ∧
    blocks d = blocks d0 ∧ entities d = entities d0 ∧
    (∀ k ls l, blocks d !! k = Some ls → l ∈ ls →
       ∃ e, h1 !! l = Some e ∧ h !! l = Some e ∧
            ∀ a, a ∈ attributes_of e → h !! a = h1 !! a) ∧
    (∀ l, l ∈ entities d →
       ∃ e0 e, h1 !! l = Some e0 ∧ h !! l = Some e ∧
               erase_coordinates e = erase_coordinates e0 ∧
               ∀ a, a ∈ attributes_of e0 →
                    ∃ a0 a1, h1 !! a = Some a0 ∧ h !! a = Some a1 ∧
                             erase_coordinates a1 = erase_coordinates a0).
Proof.
  intros Hrun.
  apply parse_dxf_store in Hrun
    as (d0 & h1 & hb & Hn & He & Hb & _ & Hp & Hbc & Hc & _ & Hx).
  exists d0, h1. repeat split; try done.
  - intros k ls l Hk Hl. rewrite Hb in Hk. destruct (Hbc k ls Hk) as [lo Hcb].
    destruct (block_dict_untouched _ _ _ _ _ _ _ _ Hp Hcb Hc Hx Hl)
      as (e & He1 & _ & He2 & Hattrs).
    by exists e.
  - intros l Hl. rewrite He in Hl.
    destruct (modelspace_dict_shifted _ _ _ _ _ _ Hc Hx Hl)
      as (e0 & He0 & _ & He2 & Hattrs).
    exists e0, (shift_entity (offset d) e0).
    repeat split; try done; [apply erase_shift|].
    intros a Ha. destruct (Hattrs a Ha) as (a0 & Ha0 & _ & Ha2).
    exists a0, (shift_entity (offset d) a0).
    repeat split; try done. apply erase_shift.
Qed.

Lemma offset_pass_frame_witness :
  ∃ d h d0 h1,
    @parse_dxf _ Binary64.python "plan.dxf"
      (Got (@Drawings.plan _ Binary64.python)) [] = Ok (Some d, h) ∧
    @normalize_document _ Binary64.python "plan.dxf"
      (@Drawings.plan _ Binary64.python) [] = Ok (d0, h1) ∧
    blocks d = blocks d0 ∧ h !! 0%nat = h1 !! 0%nat.
Proof.
  eexists _, _.
  assert (Hrun : @parse_dxf _ Binary64.python "plan.dxf"
             (Got (@Drawings.plan _ Binary64.python)) [] = Ok (Some _, _))
    by (vm_compute; reflexivity).
  destruct (offset_pass_frame _ _ _ _ _ _ Hrun)
    as (d0 & h1 & Hn & Hb & _ & Hblocks & _).
  exists d0, h1.
  destruct (Hblocks "DOOR"%string [0%nat] 0%nat) as (e & He1 & He & _).
  - vm_compute. reflexivity.
  - apply list_elem_of_here.
  - exact (conj Hrun (conj Hn (conj Hb (eq_trans He (eq_sym He1))))).
Defined.

(** ** The offset as the translation applied *)

(** C10, against the exact inverse.  In binary64 the point x = 0.5 of a drawing that
    also has x = 1e16 is moved to -5e15 by the offset -5e15; subtracting
    the offset gives 0, not 0.5. *)
Lemma offset_not_recovered :
  ∃ d h e p,
    @parse_dxf _ Binary64.python "a.dxf" (Got Drawings.absorbed) []
    = Ok (Some d, h) ∧
    0%nat ∈ entities d ∧ h !! 0%nat = Some e ∧
    vertices_of e !! 0%nat = Some p ∧
    @point_eq _ Binary64.python (@unshift _ Binary64.python (offset d) p)
      (0.5, 0)%float = false.
Proof.
  eexists _, _, _, _. split; [vm_compute; reflexivity|].
  split; [apply list_elem_of_here|]. split; [reflexivity|].
  split; [reflexivity|]. vm_compute. reflexivity.
Qed.

(** In exact arithmetic, subtracting what was added gives the point
    back. *)
Lemma unshift_shift_exact (hyp : Q → Q → Q) (rnd : Q → Q) (o : Q * Q)
      (pts : list (Q * Q)) :
  Forall2 (λ p0 p, @point_eq Q (Exact.arith hyp rnd)
                     (@unshift Q (Exact.arith hyp rnd) o p) p0 = true)
          pts (List.map (@shift Q (Exact.arith hyp rnd) o) pts).
Proof.
  induction pts as [|[px py] pts IH]; [constructor|].
  cbn [List.map]. constructor; [|exact IH].
  destruct o as [ox oy]. unfold point_eq, unshift, shift. cbn.
  apply andb_true_intro. split; apply Qeq_bool_iff; ring.
Qed.

(** C10, the translation.  The offset of the returned document is what
    was added: every vertex and every insertion point of a modelspace
    dict, and the insertion point of every attribute of such a dict, is
    the coordinate steps 1 to 3 produced with the offset added, in the
    arithmetic of the code.  When that arithmetic is exact, subtracting
    the offset from each of these coordinates of the returned document
    gives the coordinate of steps 1 to 3 back. *)
Theorem offset_is_the_translation :
  (∀ (F : Type) (A : Arith F) (name : string) (doc : RawDocument F)
     (d : CADDocument F) (h : store F),
     parse_dxf name (Got doc) [] = Ok (Some d, h) →
     ∃ d0 h1,
       normalize_document name doc [] = Ok (d0, h1) ∧
       entities d = entities d0 ∧
       ∀ l, l ∈ entities d →
         ∃ e0 e, h1 !! l = Some e0 ∧ h !! l = Some e ∧
           vertices_of e = List.map (shift (offset d)) (vertices_of e0) ∧
           insert_of e = shift (offset d) <$> insert_of e0 ∧
           attributes_of e = attributes_of e0 ∧
           ∀ a, a ∈ attributes_of e0 →
             ∃ a0 a1, h1 !! a = Some a0 ∧ h !! a = Some a1 ∧
               insert_of a1 = shift (offset d) <$> insert_of a0) ∧
  (∀ (hyp : Q → Q → Q) (rnd : Q → Q) (name : string) (doc : RawDocument Q)
     (d : CADDocument Q) (h : store Q),
     @parse_dxf Q (Exact.arith hyp rnd) name (Got doc) [] = Ok (Some d, h) →
     ∃ d0 h1,
       @normalize_document Q (Exact.arith hyp rnd) name doc [] = Ok (d0, h1) ∧
       ∀ l, l ∈ entities d →
         ∃ e0 e, h1 !! l = Some e0 ∧ h !! l = Some e ∧
           Forall2 (λ p0 p, @point_eq Q (Exact.arith hyp rnd)
                              (@unshift Q (Exact.arith hyp rnd) (offset d) p)
                              p0 = true)
                   (coordinates e0) (coordinates e) ∧
           ∀ a, a ∈ attributes_of e0 →
             ∃ a0 a1, h1 !! a = Some a0 ∧ h !! a = Some a1 ∧
               Forall2 (λ p0 p, @point_eq Q (Exact.arith hyp rnd)
                                  (@unshift Q (Exact.arith hyp rnd)
                                     (offset d) p) p0 = true)
                       (coordinates a0) (coordinates a1)).
Proof.
  split.
  - intros F A name doc d h Hrun.
    apply parse_dxf_store in Hrun
      as (d0 & h1 & hb & Hn & He & Hb & _ & Hp & Hbc & Hc & _ & Hx).
    exists d0, h1. repeat split; try done.
    assert (Hv : ∀ o (e : Entity F),
              vertices_of (shift_entity o e)
              = List.map (shift o) (vertices_of e)).
    { intros o e. unfold vertices_of, shift_entity. cbn.
      by destruct (e_body e). }
    assert (Hi : ∀ o (e : Entity F),
              insert_of (shift_entity o e) = shift o <$> insert_of e).
    { intros o e. unfold insert_of, shift_entity. cbn.
      by destruct (e_body e). }
    intros l Hl. rewrite He in Hl.
    destruct (modelspace_dict_shifted _ _ _ _ _ _ Hc Hx Hl)
      as (e0 & He0 & _ & He2 & Hattrs).
    exists e0, (shift_entity (offset d) e0).
    repeat split; try done; [apply attributes_shift|].
    intros a Ha. destruct (Hattrs a Ha) as (a0 & Ha0 & _ & Ha2).
    exists a0, (shift_entity (offset d) a0). done.
  - intros hyp rnd name doc d h Hrun.
    apply parse_dxf_store in Hrun
      as (d0 & h1 & hb & Hn & He & Hb & _ & Hp & Hbc & Hc & _ & Hx).
    exists d0, h1. split; [done|].
    intros l Hl. rewrite He in Hl.
    destruct (modelspace_dict_shifted _ _ _ _ _ _ Hc Hx Hl)
      as (e0 & He0 & _ & He2 & Hattrs).
    eexists e0, _. split; [done|]. split; [exact He2|]. split.
    + rewrite coordinates_shift. apply unshift_shift_exact.
    + intros a Ha. destruct (Hattrs a Ha) as (a0 & Ha0 & _ & Ha2).
      eexists a0, _. split; [done|]. split; [exact Ha2|].
      rewrite coordinates_shift. apply unshift_shift_exact.
Qed.

Lemma offset_is_the_translation_witness :
  (∃ d h e0 e,
     @parse_dxf _ Binary64.python "plan.dxf"
       (Got (@Drawings.plan _ Binary64.python)) [] = Ok (Some d, h) ∧
     h !! 1%nat = Some e ∧
     vertices_of e
     = List.map (@shift _ Binary64.python (offset d)) (vertices_of e0)) ∧
  (∃ d h e0 e,
     @parse_dxf Q (Exact.arith (λ _ _, 0%Q) (λ x, x)) "plan.dxf"
       (Got (@Drawings.plan Q (Exact.arith (λ _ _, 0%Q) (λ x, x)))) []
     = Ok (Some d, h) ∧
     h !! 1%nat = Some e ∧
     Forall2 (λ p0 p, @point_eq Q (Exact.arith (λ _ _, 0%Q) (λ x, x))
                        (@unshift Q (Exact.arith (λ _ _, 0%Q) (λ x, x))
                           (offset d) p) p0 = true)
             (coordinates e0) (coordinates e)).
Proof.
  split.
  - eexists _, _.
    assert (Hrun : @parse_dxf _ Binary64.python "plan.dxf"
               (Got (@Drawings.plan _ Binary64.python)) [] = Ok (Some _, _))
      by (vm_compute; reflexivity).
    destruct (proj1 offset_is_the_translation _ _ _ _ _ _ Hrun)
      as (d0 & h1 & _ & _ & Hshift).
    destruct (Hshift 1%nat) as (e0 & e & _ & He & Hv & _).
    + apply list_elem_of_here.
    + exists e0, e. exact (conj Hrun (conj He Hv)).
  - eexists _, _.
    assert (Hrun : @parse_dxf Q (Exact.arith (λ _ _, 0%Q) (λ x, x)) "plan.dxf"
               (Got (@Drawings.plan Q (Exact.arith (λ _ _, 0%Q) (λ x, x)))) []
               = Ok (Some _, _)) by (vm_compute; reflexivity).
    destruct (proj2 offset_is_the_translation _ _ _ _ _ _ Hrun)
      as (d0 & h1 & _ & Hback).
    destruct (Hback 1%nat) as (e0 & e & _ & He & Hv & _).
    + apply list_elem_of_here.
    + exists e0, e. exact (conj Hrun (conj He Hv)).
Defined.

(** ** Exact arithmetic: the bounding box *)

Lemma is_min_unique (m m' : Q) (xs : list Q) :
  is_min m xs → is_min m' xs → (m == m')%Q.
Proof.
  intros [(x & Hx & Hxm) Hle] [(x' & Hx' & Hxm') Hle'].
  apply Qle_antisym.
  - rewrite <- Hxm'. by apply Hle.
  - rewrite <- Hxm. by apply Hle'.
Qed.

Lemma is_max_unique (m m' : Q) (xs : list Q) :
  is_max m xs → is_max m' xs → (m == m')%Q.
Proof.
  intros [(x & Hx & Hxm) Hle] [(x' & Hx' & Hxm') Hle'].
  apply Qle_antisym.
  - rewrite <- Hxm. by apply Hle'.
  - rewrite <- Hxm'. by apply Hle.
Qed.

Lemma is_min_translate (c m : Q) (xs : list Q) :
  is_min m xs → is_min (m + c)%Q (List.map (λ x, x + c)%Q xs).
Proof.
  intros [(x & Hx & Hxm) Hle]. split.
  - exists (x + c)%Q. split; [by apply (list_elem_of_fmap_2 (λ x, x + c)%Q)|].
    by rewrite Hxm.
  - intros y Hy. apply (list_elem_of_fmap_1 (λ x, x + c)%Q) in Hy
      as (x0 & -> & Hx0).
    apply Qplus_le_compat; [by apply Hle|apply Qle_refl].
Qed.

Lemma is_max_translate (c m : Q) (xs : list Q) :
  is_max m xs → is_max (m + c)%Q (List.map (λ x, x + c)%Q xs).
Proof.
  intros [(x & Hx & Hxm) Hle]. split.
  - exists (x + c)%Q. split; [by apply (list_elem_of_fmap_2 (λ x, x + c)%Q)|].
    by rewrite Hxm.
  - intros y Hy. apply (list_elem_of_fmap_1 (λ x, x + c)%Q) in Hy
      as (x0 & -> & Hx0).
    apply Qplus_le_compat; [by apply Hle|apply Qle_refl].
Qed.

Lemma exact_ltb_lt (x y : Q) : Exact.ltb x y = true ↔ (x < y)%Q.
Proof.
  unfold Exact.ltb. rewrite Qlt_alt. by destruct (x ?= y)%Q.
Qed.

Lemma exact_ltb_ge (x y : Q) : Exact.ltb x y = false ↔ (y <= x)%Q.
Proof.
  rewrite <- not_true_iff_false, exact_ltb_lt. split.
  - apply Qnot_lt_le.
  - intros ? ?. by eapply Qlt_not_le.
Qed.

Section ExactFacts.
Context (hyp : Q → Q → Q) (rnd : Q → Q).
Local Abbreviation E := (Exact.arith hyp rnd).

(** [min] of a non-empty list is a least element of it. *)
Lemma py_min_is_min (xs : list Q) :
  ∀ x, @py_min Q E x xs ∈ x :: xs ∧
       ∀ y, y ∈ x :: xs → (@py_min Q E x xs <= y)%Q.
Proof.
  induction xs as [|v xs IH]; intros x.
  - cbn. split; [apply list_elem_of_here|].
    intros y ->%list_elem_of_singleton. apply Qle_refl.
  - change (@py_min Q E x (v :: xs))
      with (@py_min Q E (if Exact.ltb v x then v else x) xs).
    destruct (IH (if Exact.ltb v x then v else x)) as [Hin Hle].
    assert (Hx' : ((if Exact.ltb v x then v else x) <= x)%Q ∧
                  ((if Exact.ltb v x then v else x) <= v)%Q).
    { destruct (Exact.ltb v x) eqn:Hlt.
      - apply exact_ltb_lt in Hlt. split; [by apply Qlt_le_weak|apply Qle_refl].
      - apply exact_ltb_ge in Hlt. split; [apply Qle_refl|done]. }
    destruct Hx' as [Hx'x Hx'v].
    assert (Hhead := Hle _ (list_elem_of_here _ _)).
    split.
    + apply elem_of_cons in Hin as [Heq|Hin].
      * rewrite Heq. destruct (Exact.ltb v x).
        -- apply list_elem_of_further, list_elem_of_here.
        -- apply list_elem_of_here.
      * by do 2 apply list_elem_of_further.
    + intros y Hy. apply elem_of_cons in Hy as [->|Hy].
      { by eapply Qle_trans. }
      apply elem_of_cons in Hy as [->|Hy].
      { by eapply Qle_trans. }
      apply Hle. by apply list_elem_of_further.
Qed.

Lemma py_max_is_max (xs : list Q) :
  ∀ x, @py_max Q E x xs ∈ x :: xs ∧
       ∀ y, y ∈ x :: xs → (y <= @py_max Q E x xs)%Q.
Proof.
  induction xs as [|v xs IH]; intros x.
  - cbn. split; [apply list_elem_of_here|].
    intros y ->%list_elem_of_singleton. apply Qle_refl.
  - change (@py_max Q E x (v :: xs))
      with (@py_max Q E (if Exact.ltb x v then v else x) xs).
    destruct (IH (if Exact.ltb x v then v else x)) as [Hin Hle].
    assert (Hx' : (x <= (if Exact.ltb x v then v else x))%Q ∧
                  (v <= (if Exact.ltb x v then v else x))%Q).
    { destruct (Exact.ltb x v) eqn:Hlt.
      - apply exact_ltb_lt in Hlt. split; [by apply Qlt_le_weak|apply Qle_refl].
      - apply exact_ltb_ge in Hlt. split; [apply Qle_refl|done]. }
    destruct Hx' as [Hx'x Hx'v].
    split.
    + apply elem_of_cons in Hin as [Heq|Hin].
      * rewrite Heq. destruct (Exact.ltb x v).
        -- apply list_elem_of_further, list_elem_of_here.
        -- apply list_elem_of_here.
      * by do 2 apply list_elem_of_further.
    + intros y Hy. apply elem_of_cons in Hy as [->|Hy].
      { eapply Qle_trans; [exact Hx'x|]. apply Hle, list_elem_of_here. }
      apply elem_of_cons in Hy as [->|Hy].
      { eapply Qle_trans; [exact Hx'v|]. apply Hle, list_elem_of_here. }
      apply Hle. by apply list_elem_of_further.
Qed.

Lemma py_min_spec (x : Q) (xs : list Q) : is_min (@py_min Q E x xs) (x :: xs).
Proof.
  destruct (py_min_is_min xs x) as [Hin Hle]. split; [|done].
  eexists. split; [exact Hin|reflexivity].
Qed.

Lemma py_max_spec (x : Q) (xs : list Q) : is_max (@py_max Q E x xs) (x :: xs).
Proof.
  destruct (py_max_is_max xs x) as [Hin Hle]. split; [|done].
  eexists. split; [exact Hin|reflexivity].
Qed.

(** The offset in terms of the least and greatest coordinates. *)
Lemma compute_offset_formula (pts : list (Q * Q)) (mnx mxx mny mxy : Q) :
  is_min mnx (List.map fst pts) → is_max mxx (List.map fst pts) →
  is_min mny (List.map snd pts) → is_max mxy (List.map snd pts) →
  (fst (@compute_offset Q E pts) == - ((mnx + mxx) / 2))%Q ∧
  (snd (@compute_offset Q E pts) == - ((mny + mxy) / 2))%Q.
Proof.
  destruct pts as [|[x y] rest].
  { intros [(? & ?%elem_of_nil & _) _]. done. }
  intros Hmnx Hmxx Hmny Hmxy. cbn [compute_offset fst snd List.map] in *.
  pose proof (is_min_unique _ _ _ (py_min_spec x (List.map fst rest)) Hmnx).
  pose proof (is_max_unique _ _ _ (py_max_spec x (List.map fst rest)) Hmxx).
  pose proof (is_min_unique _ _ _ (py_min_spec y (List.map snd rest)) Hmny).
  pose proof (is_max_unique _ _ _ (py_max_spec y (List.map snd rest)) Hmxy).
  cbn [fopp fhalf fadd E Exact.arith].
  rewrite H, H0, H1, H2. split; reflexivity.
Qed.

Lemma map_fst_shift (o : Q * Q) (pts : list (Q * Q)) :
  List.map fst (List.map (@shift Q E o) pts)
  = List.map (λ x, x + fst o)%Q (List.map fst pts).
Proof. rewrite !List.map_map. done. Qed.

Lemma map_snd_shift (o : Q * Q) (pts : list (Q * Q)) :
  List.map snd (List.map (@shift Q E o) pts)
  = List.map (λ x, x + snd o)%Q (List.map snd pts).
Proof. rewrite !List.map_map. done. Qed.

(** After the shift by the computed offset the least and the greatest
    coordinate are opposite. *)
Lemma shifted_box_centered (pts : list (Q * Q)) (mnx mxx mny mxy : Q) :
  let after := List.map (@shift Q E (@compute_offset Q E pts)) pts in
  is_min mnx (List.map fst after) → is_max mxx (List.map fst after) →
  is_min mny (List.map snd after) → is_max mxy (List.map snd after) →
  (mnx + mxx == 0)%Q ∧ (mny + mxy == 0)%Q.
Proof.
  intros after. subst after. rewrite map_fst_shift, map_snd_shift.
  destruct pts as [|[x y] rest].
  { intros [(? & ?%elem_of_nil & _) _]. done. }
  intros Hmnx Hmxx Hmny Hmxy.
  set (o := @compute_offset Q E ((x, y) :: rest)) in *.
  pose proof (py_min_spec x (List.map fst rest)) as Hx0.
  pose proof (py_max_spec x (List.map fst rest)) as Hx1.
  pose proof (py_min_spec y (List.map snd rest)) as Hy0.
  pose proof (py_max_spec y (List.map snd rest)) as Hy1.
  destruct (compute_offset_formula ((x, y) :: rest) _ _ _ _ Hx0 Hx1 Hy0 Hy1)
    as [Hox Hoy]. fold o in Hox, Hoy.
  apply (is_min_translate (fst o)) in Hx0.
  apply (is_max_translate (fst o)) in Hx1.
  apply (is_min_translate (snd o)) in Hy0.
  apply (is_max_translate (snd o)) in Hy1.
  pose proof (is_min_unique _ _ _ Hx0 Hmnx).
  pose proof (is_max_unique _ _ _ Hx1 Hmxx).
  pose proof (is_min_unique _ _ _ Hy0 Hmny).
  pose proof (is_max_unique _ _ _ Hy1 Hmxy).
  clear Hx0 Hx1 Hy0 Hy1 Hmnx Hmxx Hmny Hmxy.
  destruct o as [ox oy]. cbn [fst snd] in *.
  revert Hox Hoy H H0 H1 H2.
  generalize (@py_min Q E x (List.map fst rest)).
  generalize (@py_max Q E x (List.map fst rest)).
  generalize (@py_min Q E y (List.map snd rest)).
  generalize (@py_max Q E y (List.map snd rest)).
  intros d c b a Hox Hoy Ha Hb Hc Hd. split.
  - rewrite <- Ha, <- Hb, Hox. field.
  - rewrite <- Hc, <- Hd, Hoy. field.
Qed.

End ExactFacts.

(** ** The recentring offset *)

Lemma elem_of_coordinates {F : Type} (e : Entity F) (p : F * F) :
  p ∈ coordinates e ↔ p ∈ vertices_of e ∨ insert_of e = Some p.
Proof.
  unfold coordinates, vertices_of, insert_of. destruct (e_body e).
  - rewrite list_elem_of_singleton. split.
    + intros ->. by right.
    + intros [?%elem_of_nil|[= ->]]; done.
  - rewrite list_elem_of_singleton. split.
    + intros ->. by right.
    + intros [?%elem_of_nil|[= ->]]; done.
  - split; [by left|]. by intros [?|?].
Qed.

Lemma elem_of_modelspace_coordinates {F : Type} (h : store F)
      (ls : list loc) (p : F * F) :
  p ∈ modelspace_coordinates h ls ↔
  ∃ l e, l ∈ ls ∧ h !! l = Some e ∧
         (p ∈ vertices_of e ∨ insert_of e = Some p).
Proof.
  unfold modelspace_coordinates.
  rewrite list_elem_of_In, in_concat. split.
  - intros (pts & Hpts & Hp). apply in_map_iff in Hpts as (l & <- & Hl).
    apply list_elem_of_In in Hl, Hp.
    destruct (h !! l) as [e|] eqn:He; [|by apply elem_of_nil in Hp].
    exists l, e. by rewrite <- elem_of_coordinates.
  - intros (l & e & Hl & He & Hp). exists (coordinates e). split.
    + apply in_map_iff. exists l. rewrite He.
      split; [done|by apply list_elem_of_In].
    + by apply list_elem_of_In, elem_of_coordinates.
Qed.

(** C2, against the centring.  In binary64, for a drawing whose x
    coordinates are 1e308 and 1.5e308 the sum of the least and the
    greatest overflows: the offset is minus infinity on x, every
    recentred x is minus infinity, and the least and the greatest of
    them add up to minus infinity, not to zero. *)
Lemma box_not_centered_on_overflow :
  ∃ d h x xs,
    @parse_dxf _ Binary64.python "huge.dxf" (Got Drawings.huge) []
    = Ok (Some d, h) ∧
    fst (offset d) = neg_infinity ∧
    List.map fst (modelspace_coordinates h (entities d)) = x :: xs ∧
    x :: xs = [neg_infinity; neg_infinity] ∧
    @fadd _ Binary64.python (@py_min _ Binary64.python x xs)
                            (@py_max _ Binary64.python x xs)
    = neg_infinity.
Proof.
  eexists _, _, _, _. split; [vm_compute; reflexivity|].
  split; [vm_compute; reflexivity|].
  split; [vm_compute; reflexivity|]. split; [reflexivity|].
  vm_compute. reflexivity.
Qed.

(** C2.  In every arithmetic, the offset is computed from the vertices
    of the geometry dicts and the insertion points of the text and
    block-reference dicts of modelspace, and from nothing else; it is
    (0, 0) when there are none and otherwise the negated half of the
    sum of what [min] and [max] give on each axis; the pass adds it to
    each of these points.  In exact arithmetic this offset is the
    negated midpoint of the bounding box, and after the pass the least
    and the greatest coordinate add up to zero on both axes. *)
Theorem offset_centers_bounding_box :
  (∀ (F : Type) (A : Arith F) (name : string) (doc : RawDocument F)
     (d : CADDocument F) (h : store F),
     parse_dxf name (Got doc) [] = Ok (Some d, h) →
     ∃ d0 h1,
       normalize_document name doc [] = Ok (d0, h1) ∧
       let before := modelspace_coordinates h1 (entities d0) in
       let after := modelspace_coordinates h (entities d) in
       (∀ p, p ∈ before ↔
             ∃ l e, l ∈ entities d0 ∧ h1 !! l = Some e ∧
                    (p ∈ vertices_of e ∨ insert_of e = Some p)) ∧
       (before = [] → offset d = (fzero, fzero)) ∧
       (∀ x y rest, before = (x, y) :: rest →
          offset d
          = (fopp (fhalf (fadd (py_min x (List.map fst rest))
                               (py_max x (List.map fst rest)))),
             fopp (fhalf (fadd (py_min y (List.map snd rest))
                               (py_max y (List.map snd rest)))))) ∧
       after = List.map (shift (offset d)) before) ∧
  (∀ (hyp : Q → Q → Q) (rnd : Q → Q) (name : string) (doc : RawDocument Q)
     (d : CADDocument Q) (h : store Q),
     @parse_dxf Q (Exact.arith hyp rnd) name (Got doc) [] = Ok (Some d, h) →
     ∃ d0 h1,
       @normalize_document Q (Exact.arith hyp rnd) name doc [] = Ok (d0, h1) ∧
       let before := modelspace_coordinates h1 (entities d0) in
       let after := modelspace_coordinates h (entities d) in
       (∀ mnx mxx mny mxy,
          is_min mnx (List.map fst before) → is_max mxx (List.map fst before) →
          is_min mny (List.map snd before) → is_max mxy (List.map snd before) →
          (fst (offset d) == - ((mnx + mxx) / 2))%Q ∧
          (snd (offset d) == - ((mny + mxy) / 2))%Q) ∧
       (∀ mnx mxx mny mxy,
          is_min mnx (List.map fst after) → is_max mxx (List.map fst after) →
          is_min mny (List.map snd after) → is_max mxy (List.map snd after) →
          (mnx + mxx == 0)%Q ∧ (mny + mxy == 0)%Q)).
Proof.
  split.
  - intros F A name doc d h Hrun.
    apply parse_dxf_store in Hrun
      as (d0 & h1 & hb & Hn & He & Hb & Ho & Hp & Hbc & Hc & _ & Hx).
    exists d0, h1. split; [done|]. cbn zeta.
    rewrite He, (modelspace_coordinates_shifted _ _ _ _ _ Hc Hx), Ho.
    split; [apply elem_of_modelspace_coordinates|].
    split; [by intros ->|]. split; [|done].
    intros x y rest Hbefore. by rewrite Hbefore.
  - intros hyp rnd name doc d h Hrun.
    apply parse_dxf_store in Hrun
      as (d0 & h1 & hb & Hn & He & Hb & Ho & Hp & Hbc & Hc & _ & Hx).
    exists d0, h1. split; [done|]. cbn zeta.
    rewrite He, (modelspace_coordinates_shifted _ _ _ _ _ Hc Hx), Ho.
    split.
    + apply compute_offset_formula.
    + apply shifted_box_centered.
Qed.

Lemma offset_centers_bounding_box_witness :
  (∃ d h,
     @parse_dxf _ Binary64.python "plan.dxf"
       (Got (@Drawings.plan _ Binary64.python)) [] = Ok (Some d, h) ∧
     ∃ before,
       modelspace_coordinates h (entities d)
       = List.map (@shift _ Binary64.python (offset d)) before) ∧
  (∃ d h,
     @parse_dxf Q (Exact.arith (λ _ _, 0%Q) (λ x, x)) "plan.dxf"
       (Got (@Drawings.plan Q (Exact.arith (λ _ _, 0%Q) (λ x, x)))) []
     = Ok (Some d, h) ∧
     ∀ mnx mxx mny mxy,
       is_min mnx (List.map fst (modelspace_coordinates h (entities d))) →
       is_max mxx (List.map fst (modelspace_coordinates h (entities d))) →
       is_min mny (List.map snd (modelspace_coordinates h (entities d))) →
       is_max mxy (List.map snd (modelspace_coordinates h (entities d))) →
       (mnx + mxx == 0)%Q ∧ (mny + mxy == 0)%Q).
Proof.
  split.
  - eexists _, _.
    assert (Hrun : @parse_dxf _ Binary64.python "plan.dxf"
               (Got (@Drawings.plan _ Binary64.python)) [] = Ok (Some _, _))
      by (vm_compute; reflexivity).
    destruct (proj1 offset_centers_bounding_box _ _ _ _ _ _ Hrun)
      as (d0 & h1 & _ & _ & _ & _ & Hafter).
    exact (conj Hrun (ex_intro _ _ Hafter)).
  - eexists _, _.
    assert (Hrun : @parse_dxf Q (Exact.arith (λ _ _, 0%Q) (λ x, x)) "plan.dxf"
        (Got (@Drawings.plan Q (Exact.arith (λ _ _, 0%Q) (λ x, x)))) []
        = Ok (Some _, _)) by (vm_compute; reflexivity).
    destruct (proj2 offset_centers_bounding_box _ _ _ _ _ _ Hrun)
      as (d0 & h1 & _ & _ & Hcentered).
    exact (conj Hrun Hcentered).
Defined.

(** C7, against the zero.  In binary64, for the drawing with x = 1e308
    and x = 1.5e308 the recentred x are minus infinity, and the offset
    computed again from the recentred dicts is plus infinity on the x
    axis. *)
Lemma recomputed_offset_infinite_on_overflow :
  ∃ d h pts,
    @parse_dxf _ Binary64.python "huge.dxf" (Got Drawings.huge) []
    = Ok (Some d, h) ∧
    @all_coordinates _ (entities d) h = Ok (pts, h) ∧
    pts ≠ [] ∧
    fst (@compute_offset _ Binary64.python pts) = infinity.
Proof.
  eexists _, _, _. split; [vm_compute; reflexivity|].
  split; [vm_compute; reflexivity|]. split; [done|].
  vm_compute. reflexivity.
Qed.

(** C7, in exact arithmetic.  Step 4 run again on the
    recentred dicts succeeds and the offset computed from its result
    is zero on both axes. *)
Theorem recomputed_offset_is_zero (hyp : Q → Q → Q) (rnd : Q → Q)
        (name : string) (doc : RawDocument Q) (d : CADDocument Q)
        (h : store Q) :
  @parse_dxf Q (Exact.arith hyp rnd) name (Got doc) [] = Ok (Some d, h) →
  ∃ pts,
    all_coordinates (entities d) h = Ok (pts, h) ∧
    (fst (@compute_offset Q (Exact.arith hyp rnd) pts) == 0)%Q ∧
    (snd (@compute_offset Q (Exact.arith hyp rnd) pts) == 0)%Q.
Proof.
  intros Hrun.
  apply parse_dxf_store in Hrun
    as (d0 & h1 & hb & Hn & He & Hb & Ho & Hp & Hbc & Hc & _ & Hx).
  exists (modelspace_coordinates h (entities d)). split.
  - apply all_coordinates_total, Forall_forall. intros l Hl.
    rewrite He in Hl.
    destruct (modelspace_dict_shifted _ _ _ _ _ _ Hc Hx Hl)
      as (e0 & _ & _ & He2 & _).
    by rewrite He2.
  - rewrite He, (modelspace_coordinates_shifted _ _ _ _ _ Hc Hx), Ho.
    set (before := modelspace_coordinates h1 (entities d0)).
    pose proof (shifted_box_centered hyp rnd before) as Hcentered.
    cbn zeta in Hcentered.
    destruct (List.map (shift (compute_offset before)) before)
      as [|[x y] rest] eqn:Hafter; [done|].
    destruct (Hcentered _ _ _ _
                (py_min_spec hyp rnd x (List.map fst rest))
                (py_max_spec hyp rnd x (List.map fst rest))
                (py_min_spec hyp rnd y (List.map snd rest))
                (py_max_spec hyp rnd y (List.map snd rest)))
      as [Hcx Hcy].
    cbn [compute_offset fst snd fopp fhalf fadd Exact.arith].
    rewrite Hcx, Hcy. split; reflexivity.
Qed.

Lemma recomputed_offset_is_zero_witness :
  ∃ d h pts,
    @parse_dxf Q (Exact.arith (λ _ _, 0%Q) (λ x, x)) "plan.dxf"
      (Got (@Drawings.plan Q (Exact.arith (λ _ _, 0%Q) (λ x, x)))) []
    = Ok (Some d, h) ∧
    all_coordinates (entities d) h = Ok (pts, h) ∧
    (fst (@compute_offset Q (Exact.arith (λ _ _, 0%Q) (λ x, x)) pts) == 0)%Q ∧
    (snd (@compute_offset Q (Exact.arith (λ _ _, 0%Q) (λ x, x)) pts) == 0)%Q.
Proof.
  eexists _, _.
  assert (Hrun : @parse_dxf Q (Exact.arith (λ _ _, 0%Q) (λ x, x)) "plan.dxf"
      (Got (@Drawings.plan Q (Exact.arith (λ _ _, 0%Q) (λ x, x)))) []
      = Ok (Some _, _)) by (vm_compute; reflexivity).
  destruct (recomputed_offset_is_zero _ _ _ _ _ _ Hrun) as (pts & Hpts & Hzero).
  exists pts. exact (conj Hrun (conj Hpts Hzero)).
Defined.

(** * Further properties *)

(** ** Colour strings *)

Lemma hex_digit_ok (k : Z) : 0 ≤ k < 16 → is_hex_digit (hex_digit k) = true.
Proof.
  intros Hk.
  assert (k = 0 ∨ k = 1 ∨ k = 2 ∨ k = 3 ∨ k = 4 ∨ k = 5 ∨ k = 6 ∨ k = 7 ∨
          k = 8 ∨ k = 9 ∨ k = 10 ∨ k = 11 ∨ k = 12 ∨ k = 13 ∨ k = 14 ∨
          k = 15) as Hcases by lia.
  repeat (destruct Hcases as [->|Hcases]; [reflexivity|]). by subst.
Qed.

Lemma format_02x_ok (n : Z) :
  0 ≤ n ≤ 255 →
  ∃ c1 c2, format_02x n = String c1 (String c2 EmptyString) ∧
           is_hex_digit c1 = true ∧ is_hex_digit c2 = true.
Proof.
  intros Hn. eexists _, _. split; [reflexivity|].
  split; apply hex_digit_ok.
  - split; [apply Z.div_pos; lia|apply Z.div_lt_upper_bound; lia].
  - apply Z.mod_pos_bound. lia.
Qed.

Lemma format_rgb_ok (r g b : Z) :
  0 ≤ r ≤ 255 → 0 ≤ g ≤ 255 → 0 ≤ b ≤ 255 →
  is_hex_colour (format_rgb (r, g, b)) = true.
Proof.
  intros Hr Hg Hb. unfold format_rgb.
  destruct (format_02x_ok r Hr) as (r1 & r2 & -> & Hr1 & Hr2).
  destruct (format_02x_ok g Hg) as (g1 & g2 & -> & Hg1 & Hg2).
  destruct (format_02x_ok b Hb) as (b1 & b2 & -> & Hb1 & Hb2).
  change (is_hex_colour
            (String "#" (String r1 (String r2 (String g1 (String g2
               (String b1 (String b2 EmptyString))))))) = true).
  cbn. by rewrite Hr1, Hr2, Hg1, Hg2, Hb1, Hb2.
Qed.

Lemma land_255 (v : Z) : 0 ≤ Z.land v 255 ≤ 255.
Proof.
  replace (Z.land v 255) with (v mod 2 ^ 8)
    by (symmetry; apply (Z.land_ones v 8); lia).
  pose proof (Z.mod_pos_bound v (2 ^ 8)) as Hb.
  change (2 ^ 8) with 256 in *. lia.
Qed.

Lemma int2rgb_ok (v : Z) : is_hex_colour (format_rgb (int2rgb v)) = true.
Proof. unfold int2rgb. apply format_rgb_ok; apply land_255. Qed.

Lemma aci_to_hex_ok (aci : Z) : is_hex_colour (_aci_to_hex aci) = true.
Proof.
  unfold _aci_to_hex. destruct (_ || _); [reflexivity|apply int2rgb_ok].
Qed.

Lemma get_entity_hex_colour {F} (entity : DXFEntity F) (h h' : store F) s :
  get_entity_hex entity h = Ok (Some s, h') → is_hex_colour s = true.
Proof.
  unfold get_entity_hex. destruct (dxf_true_color entity) as [v|].
  - intros [= <- _]. apply int2rgb_ok.
  - destruct (dxf_color entity) as [c|]; [|done]. cbn.
    destruct (c =? 256); [done|]. intros [= <- _]. apply aci_to_hex_ok.
Qed.

(** ** The layer table *)

Lemma find_layer_unique (key : RawLayer → string) (table : list RawLayer)
      (l : RawLayer) :
  NoDup (key <$> table) → l ∈ table →
  List.find (λ l', String.eqb (key l') (key l)) table = Some l.
Proof.
  induction table as [|l0 table IH]; intros Hnd Hl.
  - by apply elem_of_nil in Hl.
  - rewrite fmap_cons in Hnd. apply NoDup_cons in Hnd as [Hnotin Hnd]. cbn.
    apply elem_of_cons in Hl as [->|Hl].
    + by rewrite String.eqb_refl.
    + destruct (String.eqb_spec (key l0) (key l)) as [Heq|Hne].
      * exfalso. apply Hnotin. rewrite Heq. by apply list_elem_of_fmap_2.
      * by apply IH.
Qed.

(** Among layers that differ by more than the case of their names, the
    lookup of a layer's name finds that layer. *)
Lemma get_layer_hex_own (table : list RawLayer) (l : RawLayer) :
  NoDup ((λ l, lower (layer_name l)) <$> table) → l ∈ table →
  get_layer_hex table (layer_name l) = own_colour l.
Proof.
  intros Hnd Hl. unfold get_layer_hex.
  by rewrite (find_layer_unique (λ l, lower (layer_name l))).
Qed.

Lemma layer_fold_lookup (info : RawLayer → LayerInfo) (ls : list RawLayer) :
  ∀ (m : gmap string LayerInfo) k,
    fold_left (λ layers layer, <[layer_name layer := info layer]> layers) ls m
      !! k
    = match List.find (λ l, String.eqb (layer_name l) k) (reverse ls) with
      | Some l => Some (info l)
      | None => m !! k
      end.
Proof.
  induction ls as [|l ls IH]; intros m k; [done|].
  cbn [fold_left]. rewrite IH, reverse_cons.
  assert (Hfind : ∀ (xs ys : list RawLayer) p,
            List.find p (xs ++ ys)
            = match List.find p xs with Some x => Some x | None => List.find p ys end).
  { intros xs ys p. induction xs as [|x xs IHxs]; [done|]. cbn.
    by destruct (p x). }
  rewrite Hfind. destruct (List.find _ (reverse ls)); [done|]. cbn.
  destruct (String.eqb_spec (layer_name l) k) as [<-|Hne].
  - by rewrite lookup_insert_eq.
  - by rewrite lookup_insert_ne.
Qed.

Lemma layer_table_lookup (table : list RawLayer) (l : RawLayer) :
  NoDup ((λ l, lower (layer_name l)) <$> table) → l ∈ table →
  layer_table table !! layer_name l
  = Some {| li_color := own_colour l;
            li_frozen := is_frozen l;
            li_locked := is_locked l |}.
Proof.
  intros Hnd Hl. unfold layer_table. rewrite layer_fold_lookup.
  rewrite (find_layer_unique layer_name).
  - by rewrite get_layer_hex_own.
  - rewrite fmap_reverse, reverse_Permutation.
    apply (NoDup_fmap_1 lower). by rewrite <- list_fmap_compose.
  - by apply elem_of_reverse.
Qed.

Lemma layer_table_keys (table : list RawLayer) (k : string) :
  is_Some (layer_table table !! k) ↔ k ∈ layer_name <$> table.
Proof.
  unfold layer_table. rewrite layer_fold_lookup.
  destruct (List.find _ (reverse table)) as [l|] eqn:Hfind.
  - apply find_some in Hfind as [Hin Heq].
    apply String.eqb_eq in Heq as <-.
    split; [intros _|by eexists].
    apply list_elem_of_fmap_2. apply elem_of_reverse.
    by apply list_elem_of_In.
  - rewrite lookup_empty. split; [by intros [? ?]|].
    intros (l & -> & Hl)%list_elem_of_fmap. exfalso.
    apply elem_of_reverse, list_elem_of_In in Hl.
    eapply find_none in Hfind; [|exact Hl]. cbn in Hfind.
    by rewrite String.eqb_refl in Hfind.
Qed.

(** ** Where the dicts come from *)

Section ProvenanceFacts.
Context {F : Type} {A : Arith F}.
Implicit Types (h : store F) (ls : list loc) (e : RawEntity F)
         (entity : DXFEntity F).

Lemma get_entity_hex_value entity h x h' :
  get_entity_hex entity h = Ok (x, h') → x = entity_colour entity ∧ h' = h.
Proof.
  unfold get_entity_hex, entity_colour. destruct (dxf_true_color entity).
  - by intros [= <- <-].
  - destruct (dxf_color entity) as [c|]; [|done]. cbn.
    destruct (c =? 256); by intros [= <- <-].
Qed.

Lemma insert_not_text entity :
  dxftype entity = "INSERT"%string → is_text_type (dxftype entity) = false.
Proof. by intros ->. Qed.

Lemma represents_prefix (u : string) h h' e (l : loc) :
  h `prefix_of` h' → represents u h e l → represents u h' e l.
Proof.
  intros Hp (d & Hd & Hdesc & Hattrs). exists d.
  split; [by eapply prefix_lookup_Some|]. split; [done|].
  eapply Forall2_impl; [exact Hattrs|]. cbn. intros a la (da & Hda & ?).
  exists da. split; [by eapply prefix_lookup_Some|done].
Qed.

Lemma represents_agree (u : string) h h' e (l : loc) :
  (∀ x, is_Some (h !! x) → h' !! x = h !! x) →
  represents u h e l → represents u h' e l.
Proof.
  intros Hag (d & Hd & Hdesc & Hattrs). exists d.
  split; [by rewrite Hag|]. split; [done|].
  eapply Forall2_impl; [exact Hattrs|]. cbn. intros a la (da & Hda & ?).
  exists da. split; [by rewrite Hag|done].
Qed.

(** The loop keeps, in order, a result for each element that gives
    one. *)
Lemma collect_filter {X} (f : X → M F (option loc)) (p : X → bool)
      (R : store F → X → loc → Prop) (xs : list X) :
  (∀ h h' x l, h `prefix_of` h' → R h x l → R h' x l) →
  Forall (λ x, ∀ h r h', f x h = Ok (r, h') →
                h `prefix_of` h' ∧
                match r with
                | Some l => p x = true ∧ R h' x l
                | None => p x = false
                end) xs →
  ∀ h ls h', collect f xs h = Ok (ls, h') →
             h `prefix_of` h' ∧ Forall2 (R h') (List.filter p xs) ls.
Proof.
  intros Hmono. induction 1 as [|x xs Hx _ IH]; intros h ls h' Hrun.
  - inv_run Hrun. subst. split; [done|constructor].
  - cbn [collect] in Hrun. inv_run Hrun. inv_run Hrun. inv_run Hrun. subst.
    apply Hx in Hrun0 as [Hp Hr]. apply IH in Hrun1 as [Hp' Hrest].
    split; [by etrans|]. cbn [List.filter].
    destruct x0 as [l|].
    + destruct Hr as [-> Hr]. constructor; [by eapply Hmono|done].
    + by rewrite Hr.
Qed.

(** What [entity_to_json] returns, by what it reads. *)
Lemma entity_to_json_represents e (unit_name : string) :
  ∀ h r h', entity_to_json e unit_name h = Ok (r, h') →
    match r with
    | Some l => produces (raw_entity e) = true ∧ represents unit_name h' e l
    | None => produces (raw_entity e) = false ∧ h' = h
    end.
Proof.
  induction e as [entity attribs IH] using RawEntity_nested_ind.
  intros h r h' Hrun. cbn [entity_to_json] in Hrun.
  inv_run Hrun. apply get_entity_hex_value in Hrun0 as [-> ->].
  do 4 (inv_run Hrun; inv_run Hrun0; subst).
  rename H into Hlt, H0 into Hlw, H1 into Hly, H2 into Hhd.
  unfold produces, represents, visited, describes. cbn [raw_entity raw_attribs].
  destruct (is_text_type (dxftype entity)) eqn:Htext.
  { change (if String.eqb (dxftype entity) "MTEXT" then plain_text entity
            else dxf_text entity) with (text_content entity) in Hrun.
    assert (Hni : String.eqb (dxftype entity) "INSERT" = false).
    { destruct (String.eqb_spec (dxftype entity) "INSERT") as [E|]; [|done].
      rewrite E in Htext. done. }
    unfold try_except, bind in Hrun.
    destruct (text_content entity) as [content|]; cbn [attempt ret raise] in Hrun;
      [|by injection Hrun as <- <-].
    destruct (dxf_insert entity) as [insert|]; cbn [attempt ret raise] in Hrun;
      [|injection Hrun as <- <-; by rewrite andb_false_r].
    destruct (dxf_rotation entity) as [rotation|]; cbn [attempt ret raise] in Hrun;
      [|injection Hrun as <- <-; by rewrite andb_false_r].
    rewrite blank_test in Hrun. destruct (all_space content) eqn:Hblank.
    - by injection Hrun as <- <-.
    - cbn in Hrun. injection Hrun as <- <-. split; [done|].
      eexists. split; [by apply list_lookup_middle|]. cbn. rewrite Hni.
      repeat split; try done; eauto. }
  destruct (String.eqb_spec (dxftype entity) "INSERT") as [Hins|Hins].
  { do 6 (inv_run Hrun; inv_run Hrun0; subst).
    match type of Hrun with
    | match ?x with Some _ => _ | None => _ end _ = _ =>
        destruct x as [rotation|]; [|done]
    end.
    inv_run Hrun. inv_run Hrun. inv_run Hrun. inv_run Hrun1. subst.
    split; [done|].
    eapply (collect_filter _ (λ a, produces (raw_entity a))
              (λ h a la, ∃ da, h !! la = Some da ∧
                               describes unit_name (raw_entity a) da))
      in Hrun0 as [Hp Hattrs].
    - eexists. split; [by apply list_lookup_middle|]. cbn.
      split; [repeat split; try done; eauto 10|].
      eapply Forall2_impl; [exact Hattrs|]. cbn. intros a la (da & Hda & ?).
      exists da. split; [by apply lookup_app_l_Some|done].
    - intros h1 h2 a la Hp (da & Hda & ?). exists da.
      split; [by eapply prefix_lookup_Some|done].
    - eapply Forall_impl; [exact IH|]. cbn. intros a Ha h1 r h2 Hr.
      split; [by apply (entity_to_json_allocates _ _ _ _ _ Hr)|].
      apply Ha in Hr. destruct r as [la|]; [|by destruct Hr].
      destruct Hr as [? (da & ? & ? & _)]. split; [done|by exists da]. }
  unfold try_except, bind in Hrun.
  destruct (flattening entity) as [[|v v_list]|]; cbn [attempt ret raise] in Hrun;
    [by injection Hrun as <- <- | | by injection Hrun as <- <-].
  cbn in Hrun. injection Hrun as <- <-. split; [done|].
  eexists. split; [by apply list_lookup_middle|]. cbn.
  split; [|constructor]. repeat split; try done; eauto.
Qed.


Lemma collect_entities_represent (es : list (RawEntity F))
      (unit_name : string) h ls h' :
  collect (λ e, entity_to_json e unit_name) es h = Ok (ls, h') →
  h `prefix_of` h' ∧
  Forall2 (represents unit_name h')
          (List.filter (λ e, produces (raw_entity e)) es) ls.
Proof.
  apply (collect_filter _ (λ e, produces (raw_entity e))
           (represents unit_name)).
  - intros h1 h2 e l. apply represents_prefix.
  - apply Forall_forall. intros e _ h1 r h2 Hr.
    split; [by apply (entity_to_json_allocates _ _ _ _ _ Hr)|].
    apply entity_to_json_represents in Hr. destruct r; [done|by destruct Hr].
Qed.

Lemma block_table_represents (bs : list (RawBlock F)) (unit_name : string) :
  ∀ (m : gmap string (list loc)) h m' h',
    block_table bs unit_name m h = Ok (m', h') →
    h `prefix_of` h' ∧
    ∀ k ls, m' !! k = Some ls →
      m !! k = Some ls ∨
      ∃ b, b ∈ bs ∧ block_name b = k ∧
           Forall2 (represents unit_name h')
                   (List.filter (λ e, produces (raw_entity e))
                                (block_entities b)) ls.
Proof.
  induction bs as [|b bs IH]; intros m h m' h' Hrun.
  - inv_run Hrun. subst. split; [done|]. intros k ls Hk. by left.
  - cbn [block_table] in Hrun.
    assert (Hfurther : ∀ h0 m0,
              block_table bs unit_name m0 h0 = Ok (m', h') →
              h0 `prefix_of` h' ∧
              ∀ k ls, m' !! k = Some ls →
                m0 !! k = Some ls ∨
                ∃ b', b' ∈ b :: bs ∧ block_name b' = k ∧
                  Forall2 (represents unit_name h')
                    (List.filter (λ e, produces (raw_entity e))
                                 (block_entities b')) ls).
    { intros h0 m0 Hrun0. apply IH in Hrun0 as [Hp Hk]. split; [done|].
      intros k ls Hkls. destruct (Hk k ls Hkls) as [?|(b' & ? & ? & ?)];
        [by left|right].
      exists b'. split; [by apply list_elem_of_further|done]. }
    destruct (startswith (block_name b) "*"); [by apply Hfurther|].
    inv_run Hrun. apply collect_entities_represent in Hrun0 as [Hp Hrep].
    destruct x as [|l ls0].
    + apply Hfurther in Hrun as [Hp' Hk]. split; [by etrans|done].
    + apply Hfurther in Hrun as [Hp' Hk]. split; [by etrans|].
      intros k ls Hkls. destruct (Hk k ls Hkls) as [Hold|?]; [|by right].
      destruct (decide (block_name b = k)) as [<-|Hne].
      * rewrite lookup_insert_eq in Hold. injection Hold as <-. right.
        exists b. split; [apply list_elem_of_here|]. split; [done|].
        eapply Forall2_impl; [exact Hrep|]. intros e l0.
        by apply represents_prefix.
      * rewrite lookup_insert_ne in Hold by done. by left.
Qed.

Lemma Forall2_elem_of_r {X Y} (R : X → Y → Prop) (xs : list X)
      (ys : list Y) (y : Y) :
  Forall2 R xs ys → y ∈ ys → ∃ x, x ∈ xs ∧ R x y.
Proof.
  induction 1 as [|x0 y0 xs ys Hxy _ IH]; intros Hy.
  - by apply elem_of_nil in Hy.
  - apply elem_of_cons in Hy as [->|Hy].
    + exists x0. split; [apply list_elem_of_here|done].
    + destruct (IH Hy) as (x & ? & ?). exists x.
      split; [by apply list_elem_of_further|done].
Qed.

Lemma Forall2_impl_elem {X Y} (R R' : X → Y → Prop) (xs : list X)
      (ys : list Y) :
  Forall2 R xs ys →
  (∀ x y, y ∈ ys → R x y → R' x y) →
  Forall2 R' xs ys.
Proof.
  induction 1 as [|x0 y0 xs ys Hxy _ IH]; intros Himp; [constructor|].
  constructor.
  - apply Himp; [apply list_elem_of_here|done].
  - apply IH. intros x y Hy. apply Himp. by apply list_elem_of_further.
Qed.

Lemma elem_of_filter_bool {X} (p : X → bool) (xs : list X) (x : X) :
  x ∈ List.filter p xs → x ∈ xs ∧ p x = true.
Proof. intros Hx%list_elem_of_In%filter_In. by rewrite list_elem_of_In. Qed.

(** Steps 1 to 3, dict by dict. *)
Lemma normalize_document_represents (name : string) (doc : RawDocument F)
      (d0 : CADDocument F) h1 :
  normalize_document name doc [] = Ok (d0, h1) →
  filename d0 = name ∧
  unit_code d0 = or_default 0 (header_insunits doc) ∧
  units d0 = unit_label doc ∧
  layers d0 = layer_table (doc_layers doc) ∧
  ∃ hb, hb `prefix_of` h1 ∧
    (∀ k ls, blocks d0 !! k = Some ls →
       ∃ b, b ∈ doc_blocks doc ∧ block_name b = k ∧
            Forall2 (represents (unit_label doc) hb)
                    (List.filter (λ e, produces (raw_entity e))
                                 (block_entities b)) ls) ∧
    chain h1 (length hb) (entities d0) ∧
    Forall2 (represents (unit_label doc) h1)
            (List.filter (λ e, produces (raw_entity e)) (modelspace doc))
            (entities d0).
Proof.
  intros Hrun. pose proof Hrun as Hfields. unfold normalize_document in Hfields.
  inv_run Hfields. inv_run Hfields. inv_run Hfields. subst d0. cbn.
  clear Hrun0 Hrun1 H0.
  apply normalize_document_spec in Hrun as (hb & Hb & Hm & _). cbn in Hb, Hm.
  repeat split; try done. exists hb.
  apply block_table_represents in Hb as [_ Hb].
  pose proof (collect_entities_chain _ _ _ _ _ Hm) as [Hp Hc].
  apply collect_entities_represent in Hm as [_ Hm].
  repeat split; try done.
  intros k ls Hk. destruct (Hb k ls Hk) as [Hold|?]; [|done].
  by rewrite lookup_empty in Hold.
Qed.

End ProvenanceFacts.

(** ** The returned document, dict by dict *)

Section DocumentFacts.
Context {F : Type} {A : Arith F}.
Implicit Types (h : store F) (ls : list loc) (e : RawEntity F)
         (entity : DXFEntity F) (o : F * F).

Lemma recenter_fields (d d' : CADDocument F) h1 h2 :
  recenter d h1 = Ok (d', h2) →
  filename d' = filename d ∧ units d' = units d ∧
  unit_code d' = unit_code d ∧ layers d' = layers d.
Proof.
  unfold recenter. intros Hrun. inv_run Hrun. inv_run Hrun. inv_run Hrun.
  by subst.
Qed.

(** The returned document against the source document, dict by dict. *)
Lemma parse_dxf_represents (name : string) (doc : RawDocument F)
      (d : CADDocument F) h2 :
  parse_dxf name (Got doc) [] = Ok (Some d, h2) →
  filename d = name ∧
  unit_code d = or_default 0 (header_insunits doc) ∧
  units d = unit_label doc ∧
  layers d = layer_table (doc_layers doc) ∧
  Forall2 (represents_moved (units d) (offset d) h2)
          (List.filter (λ e, produces (raw_entity e)) (modelspace doc))
          (entities d) ∧
  ∀ k ls, blocks d !! k = Some ls →
    ∃ b, b ∈ doc_blocks doc ∧ block_name b = k ∧
         Forall2 (represents (units d) h2)
                 (List.filter (λ e, produces (raw_entity e))
                              (block_entities b)) ls.
Proof.
  intros Hrun. apply parse_dxf_stages in Hrun as (d0 & h1 & Hn & Hr).
  pose proof (recenter_fields _ _ _ _ Hr) as (Hfn & Hun & Huc & Hly).
  destruct (normalize_document_represents _ _ _ _ Hn)
    as (Hfn0 & Huc0 & Hun0 & Hly0 & hb & Hp & Hblocks & Hc & Hents).
  destruct (recenter_spec _ _ _ _ _ Hc Hr) as (He & Hbl & Ho & Hlen & Hx).
  rewrite Hfn, Hun, Huc, Hly, He, Hbl.
  repeat split; try done.
  - rewrite Hun0. eapply Forall2_impl_elem; [exact Hents|].
    intros e l Hl (d1 & Hd1 & Hdesc & Hattrs).
    exists d1. split; [done|]. split.
    + rewrite Hx, decide_True, Hd1; [done|].
      apply elem_of_footprint. exists l. split; [done|by left].
    + eapply Forall2_impl_elem; [exact Hattrs|].
      intros a la Hla (da & Hda & Hdd). exists da. split; [done|].
      rewrite Hx, decide_True, Hda; [done|].
      apply elem_of_footprint. exists l. split; [done|right]. by exists d1.
  - intros k ls Hk. destruct (Hblocks k ls Hk) as (b & Hb & Hname & Hrep).
    exists b. repeat split; try done. rewrite Hun0.
    eapply Forall2_impl; [exact Hrep|]. intros e l Hr'.
    apply (represents_agree _ hb); [|done]. intros x [dx Hdx].
    rewrite Hx, decide_False.
    + rewrite Hdx. by eapply prefix_lookup_Some.
    + intros Hin. apply chain_footprint in Hc as [_ Hfp].
      rewrite Forall_forall in Hfp. apply Hfp in Hin.
      apply lookup_lt_Some in Hdx. lia.
Qed.

End DocumentFacts.

(** ** Vertex counts *)

(** C3.  When no flattening is a single point, which ezdxf never
    yields, every geometry dict of the returned document, in modelspace
    or in a list of the block table, has a vertex count equal to the
    length of its vertex list, and at least two vertices; a geometry
    whose flattening has no point is dropped. *)
Theorem geometry_vertex_count (F : Type) (A : Arith F) (name : string)
        (doc : RawDocument F) (d : CADDocument F) (h : store F) :
  Forall (λ e, never_one_point (raw_entity e)) (modelspace doc) →
  Forall (λ b, Forall (λ e, never_one_point (raw_entity e))
                      (block_entities b)) (doc_blocks doc) →
  parse_dxf name (Got doc) [] = Ok (Some d, h) →
  (∀ l, (l ∈ entities d ∨ ∃ k ls, blocks d !! k = Some ls ∧ l ∈ ls) →
        ∃ e, h !! l = Some e ∧
             (is_geometry e = true →
              vertex_count_of e = length (vertices_of e) ∧
              (2 ≤ vertex_count_of e)%nat)) ∧
  (∀ entity attribs h0,
     shared_keys_readable entity = true →
     is_text_type (dxftype entity) = false →
     dxftype entity ≠ "INSERT"%string →
     flattening entity = Got [] →
     entity_to_json (Raw entity attribs) (unit_label doc) h0 = Ok (None, h0)).
Proof.
  intros Hmsp Hblocks Hrun. split; [|intros; by apply empty_flattening_dropped].
  destruct (parse_dxf_represents _ _ _ _ Hrun)
    as (_ & _ & _ & _ & Hrep & Hb).
  assert (Hgeo : ∀ (entity : DXFEntity F) (d0 : Entity F),
            never_one_point entity → describes (units d) entity d0 →
            is_geometry d0 = true →
            vertex_count_of d0 = length (vertices_of d0) ∧
            (2 ≤ vertex_count_of d0)%nat).
  { intros entity d0 Hone (_ & _ & _ & _ & _ & _ & Hbody).
    unfold is_geometry, vertex_count_of, vertices_of.
    destruct (e_body d0) as [| |lk len ak ar vs n]; try done.
    destruct Hbody as (_ & _ & Hflat & Hne & _ & _ & _ & _ & ->).
    intros _. split; [done|].
    destruct vs as [|p [|q vs]]; [done| |cbn; lia].
    by destruct (Hone p). }
  assert (Hshift : ∀ (o : F * F) (d0 : Entity F),
            is_geometry (shift_entity o d0) = is_geometry d0 ∧
            vertex_count_of (shift_entity o d0) = vertex_count_of d0 ∧
            length (vertices_of (shift_entity o d0))
            = length (vertices_of d0)).
  { intros o d0. unfold is_geometry, vertex_count_of, vertices_of,
      shift_entity. cbn. destruct (e_body d0); try done.
    by rewrite length_map. }
  intros l [Hl|(k & ls & Hk & Hl)].
  - destruct (Forall2_elem_of_r _ _ _ _ Hrep Hl)
      as (raw & [Hraw _]%elem_of_filter_bool & d0 & Hdesc & Hd0 & _).
    eexists. split; [exact Hd0|].
    destruct (Hshift (offset d) d0) as (-> & -> & ->).
    apply (Hgeo (raw_entity raw)); [|done].
    by apply (proj1 (Forall_forall _ _) Hmsp).
  - destruct (Hb k ls Hk) as (b & Hbin & _ & Hrepb).
    destruct (Forall2_elem_of_r _ _ _ _ Hrepb Hl)
      as (raw & [Hraw _]%elem_of_filter_bool & d0 & Hd0 & Hdesc & _).
    exists d0. split; [done|].
    apply (Hgeo (raw_entity raw)); [|done].
    pose proof (proj1 (Forall_forall _ _) Hblocks b Hbin) as Hblock.
    by apply (proj1 (Forall_forall _ _) Hblock).
Qed.

Lemma geometry_vertex_count_witness :
  ∃ d h e, @parse_dxf _ Binary64.python "plan.dxf"
             (Got (@Drawings.plan _ Binary64.python)) [] = Ok (Some d, h) ∧
           h !! 1%nat = Some e ∧
           (is_geometry e = true →
            vertex_count_of e = length (vertices_of e) ∧
            (2 ≤ vertex_count_of e)%nat).
Proof.
  eexists _, _.
  assert (Hrun : @parse_dxf _ Binary64.python "plan.dxf"
             (Got (@Drawings.plan _ Binary64.python)) [] = Ok (Some _, _))
    by (vm_compute; reflexivity).
  assert (Hmsp : Forall (λ e, never_one_point (raw_entity e))
                   (modelspace (@Drawings.plan _ Binary64.python)))
    by (repeat constructor; intros p; discriminate).
  assert (Hblocks : Forall (λ b, Forall (λ e, never_one_point (raw_entity e))
                                        (block_entities b))
                      (doc_blocks (@Drawings.plan _ Binary64.python)))
    by (repeat constructor; intros p; discriminate).
  destruct (proj1 (geometry_vertex_count _ _ _ _ _ _ Hmsp Hblocks Hrun)
              1%nat)
    as (e & He & Hgeo).
  - left. apply list_elem_of_here.
  - exists e. exact (conj Hrun (conj He Hgeo)).
Defined.

(** ** When [parse_dxf] returns *)

Section TotalityFacts.
Context {F : Type} {A : Arith F}.
Implicit Types (h : store F) (ls : list loc) (e : RawEntity F)
         (entity : DXFEntity F) (o : F * F).

Lemma safe_unfold entity (attribs : list (RawEntity F)) :
  safe (Raw entity attribs) ↔
  shared_keys_readable entity = true ∧
  (dxftype entity = "INSERT"%string →
   insert_fields_readable entity = true ∧ Forall safe attribs).
Proof.
  assert (Hall : ∀ l : list (RawEntity F),
            (fix all (l : list (RawEntity F)) : Prop :=
               match l with
               | [] => True
               | a :: l' => safe a ∧ all l'
               end) l ↔ Forall safe l).
  { induction l as [|a l IH]; [by split; [constructor|]|].
    rewrite Forall_cons. by rewrite IH. }
  cbn [safe]. by setoid_rewrite Hall.
Qed.

Lemma collect_total {X} (f : X → M F (option loc)) (xs : list X) :
  Forall (λ x, ∀ h, ∃ r h', f x h = Ok (r, h')) xs →
  ∀ h, ∃ ls h', collect f xs h = Ok (ls, h').
Proof.
  induction 1 as [|x xs Hx _ IH]; intros h; [by eexists _, _|].
  cbn [collect]. unfold bind. destruct (Hx h) as (r & h0 & ->).
  destruct (IH h0) as (rest & h' & ->). by eexists _, _.
Qed.

Lemma entity_to_json_total e (unit_name : string) :
  safe e → ∀ h, ∃ r h', entity_to_json e unit_name h = Ok (r, h').
Proof.
  induction e as [entity attribs IH] using RawEntity_nested_ind.
  intros [Hshared Hins]%safe_unfold h.
  destruct (String.eqb_spec (dxftype entity) "INSERT") as [Htype|Htype];
    [|by apply guarded_branches_never_raise].
  destruct (Hins Htype) as [Hfields Hsafe].
  destruct (shared_keys_values entity Hshared)
    as (hex & lt & lw & ly & hd & Hhex & Hlt & Hlw & Hly & Hhd).
  cbn [entity_to_json]. unfold bind at 1 2 3 4 5.
  rewrite Hhex, Hlt, Hlw, Hly, Hhd. cbn [attempt ret].
  rewrite (insert_not_text entity Htype), (proj2 (String.eqb_eq _ _) Htype).
  unfold insert_fields_readable in Hfields.
  repeat (apply andb_prop in Hfields as [Hfields ?]).
  destruct (dxf_xscale entity) as [sx|]; [|done].
  destruct (dxf_yscale entity) as [sy|]; [|done].
  destruct (dxf_zscale entity) as [sz|]; [|done].
  destruct (dxf_name entity) as [nm|]; [|done].
  destruct (dxf_insert entity) as [ins|]; [|done].
  destruct (dxf_rotation entity) as [[rot|]|]; [|done|done].
  unfold bind at 1 2 3 4 5 6. cbn [attempt ret].
  unfold bind at 1.
  destruct (collect_total (λ a, entity_to_json a unit_name) attribs) with (h := h)
    as (attrs & h1 & ->).
  { rewrite Forall_forall in IH, Hsafe. apply Forall_forall.
    intros a Ha. apply IH; [done|]. by apply Hsafe. }
  by eexists _, _.
Qed.

Lemma block_table_total (bs : list (RawBlock F)) (unit_name : string) :
  Forall (λ b, startswith (block_name b) "*" = false →
               Forall safe (block_entities b)) bs →
  ∀ (m : gmap string (list loc)) h,
    ∃ m' h', block_table bs unit_name m h = Ok (m', h').
Proof.
  induction 1 as [|b bs Hb _ IH]; intros m h; [by eexists _, _|].
  cbn [block_table]. destruct (startswith (block_name b) "*"); [apply IH|].
  unfold bind.
  destruct (collect_total (λ e, entity_to_json e unit_name)
              (block_entities b)) with (h := h) as (ls & h0 & ->).
  { eapply Forall_impl; [by apply Hb|]. cbn. intros e He.
    by apply entity_to_json_total. }
  destruct ls; apply IH.
Qed.

Lemma normalize_document_total (name : string) (doc : RawDocument F) h :
  Forall safe (modelspace doc) →
  Forall (λ b, startswith (block_name b) "*" = false →
               Forall safe (block_entities b)) (doc_blocks doc) →
  ∃ d0 h1, normalize_document name doc h = Ok (d0, h1).
Proof.
  intros Hm Hb. unfold normalize_document, bind.
  destruct (block_table_total _ (unit_label doc) Hb ∅ h) as (m & hb & Hbt).
  unfold unit_label in Hbt. rewrite Hbt.
  destruct (collect_total (λ e, entity_to_json e (unit_label doc))
              (modelspace doc)) with (h := hb) as (ls & h1 & Hc).
  { eapply Forall_impl; [exact Hm|]. cbn. intros e He.
    by apply entity_to_json_total. }
  unfold unit_label in Hc. rewrite Hc. by eexists _, _.
Qed.

(** *** Step 5 *)

Lemma shift_attributes_total o (attrs : list loc) :
  ∀ h, NoDup attrs →
    Forall (λ a, ∃ da, h !! a = Some da ∧ is_geometry da = false) attrs →
    ∃ h', for_each (shift_attribute o) attrs h = Ok (tt, h').
Proof.
  induction attrs as [|a attrs IH]; intros h Hnd Hall; [by eexists|].
  apply NoDup_cons in Hnd as [Ha Hnd].
  apply Forall_cons in Hall as [(da & Hda & Hg) Hall].
  cbn [for_each]. unfold bind, shift_attribute at 1, bind, read. rewrite Hda.
  unfold is_geometry in Hg.
  assert (Hrest : ∀ d', Forall (λ a0, ∃ da0, <[a := d']> h !! a0 = Some da0
                                      ∧ is_geometry da0 = false) attrs).
  { intros d'. rewrite Forall_forall in Hall. apply Forall_forall.
    intros a0 Ha0. destruct (Hall a0 Ha0) as (da0 & ? & ?). exists da0.
    split; [|done]. rewrite list_lookup_insert_ne; [done|]. by intros ->. }
  destruct (e_body da); [| |done]; cbn; by apply IH.
Qed.

Lemma apply_offset_entity_total o (l : loc) (lo : nat) h :
  owns h lo l →
  (∀ d, h !! l = Some d →
        Forall (λ a, ∃ da, h !! a = Some da ∧ is_geometry da = false)
               (attributes_of d)) →
  ∃ h', apply_offset_entity o l h = Ok (tt, h').
Proof.
  intros (Hl & d & Hd & Hwf & Hnd & Hattrs) Hng.
  specialize (Hng d Hd).
  unfold apply_offset_entity, bind, read. rewrite Hd. cbn [write].
  unfold attributes_of in *.
  destruct (e_body d) as [t ins r|b ins r s attrs|lk len ak ar vs n];
    [by eexists| |by eexists].
  destruct (String.eqb (e_type d) "INSERT"); [|by eexists].
  apply shift_attributes_total; [done|].
  rewrite Forall_forall in Hng, Hattrs. apply Forall_forall. intros a Ha.
  destruct (Hng a Ha) as (da & Hda & Hg). exists da. split; [|done].
  rewrite list_lookup_insert_ne; [done|].
  destruct (Hattrs a Ha) as [? _]. lia.
Qed.

Lemma apply_offset_total o ls :
  ∀ (lo : nat) h,
    chain h lo ls →
    Forall (λ l, ∀ d, h !! l = Some d →
              Forall (λ a, ∃ da, h !! a = Some da ∧ is_geometry da = false)
                     (attributes_of d)) ls →
    ∃ h', apply_offset o ls h = Ok (tt, h').
Proof.
  unfold apply_offset.
  induction ls as [|l ls IH]; intros lo h Hc Hng; [by eexists|].
  destruct Hc as [Ho Hc]. apply Forall_cons in Hng as [Hl Hng].
  cbn [for_each]. unfold bind.
  destruct (apply_offset_entity_total o l lo h Ho Hl) as (h0 & Hrun0).
  rewrite Hrun0.
  pose proof (apply_offset_entity_spec _ _ _ _ _ _ Ho Hrun0) as [_ Hx0].
  assert (Hag : ∀ z, (S l ≤ z)%nat → h0 !! z = h !! z).
  { intros z Hz. rewrite Hx0. rewrite decide_False; [done|].
    intros Hin. destruct Ho as (_ & d & Hd & _ & _ & Hattrs).
    rewrite footprint_cons, Hd in Hin. cbn in Hin. rewrite app_nil_r in Hin.
    apply elem_of_cons in Hin as [->|Hin]; [lia|].
    rewrite Forall_forall in Hattrs. apply Hattrs in Hin. lia. }
  apply (IH (S l)); [by eapply chain_agree|].
  pose proof (chain_bounds _ _ _ Hc) as Hb.
  rewrite Forall_forall in Hb, Hng. apply Forall_forall.
  intros l' Hl' d'. destruct (Hb l' Hl') as [Hlo' Ho'].
  rewrite Hag by lia. intros Hd'.
  destruct Ho' as (_ & d1 & Hd1 & _ & _ & Hattrs1).
  assert (d1 = d') as -> by congruence.
  pose proof (Hng l' Hl' d' Hd') as Hng'.
  rewrite Forall_forall in Hng', Hattrs1. apply Forall_forall.
  intros a Ha. destruct (Hng' a Ha) as (da & Hda & Hg). exists da.
  split; [|done]. rewrite Hag; [done|]. destruct (Hattrs1 a Ha). lia.
Qed.

(** A dict that describes a text-like entity or an INSERT has an
    insertion point. *)
Lemma describes_placed (unit_name : string) entity (d : Entity F) :
  describes unit_name entity d →
  is_text_type (dxftype entity) = true ∨ dxftype entity = "INSERT"%string →
  is_geometry d = false.
Proof.
  intros (_ & _ & _ & _ & _ & _ & Hbody) Htype. unfold is_geometry.
  destruct (e_body d); [done|done|].
  destruct Hbody as (Hnt & Hni & _). destruct Htype; congruence.
Qed.

Lemma recenter_total (doc : RawDocument F) (d0 : CADDocument F) h1
      (lo : nat) :
  chain h1 lo (entities d0) →
  Forall2 (represents (unit_label doc) h1)
          (List.filter (λ e, produces (raw_entity e)) (modelspace doc))
          (entities d0) →
  Forall attribs_placed (modelspace doc) →
  ∃ d h2, recenter d0 h1 = Ok (d, h2).
Proof.
  intros Hc Hrep Hplaced. unfold recenter, bind.
  rewrite all_coordinates_total.
  2:{ eapply Forall_impl; [by eapply chain_bounds|]. cbn.
      intros l [_ Ho]. apply owns_lookup in Ho as (d & -> & _). by eexists. }
  edestruct (apply_offset_total) as (h2 & ->); [exact Hc| |by eexists _, _].
  apply Forall_forall. intros l Hl d Hd.
  destruct (Forall2_elem_of_r _ _ _ _ Hrep Hl) as (e & He & d' & Hd' & _ & Hattrs).
  assert (d' = d) as -> by congruence.
  apply elem_of_filter_bool in He as [He _].
  rewrite Forall_forall in Hplaced. specialize (Hplaced e He).
  apply Forall_forall. intros la Hla.
  destruct (Forall2_elem_of_r _ _ _ _ Hattrs Hla) as (a & Ha & da & Hda & Hdesc).
  exists da. split; [done|]. eapply describes_placed; [done|].
  apply elem_of_filter_bool in Ha as [Ha _]. unfold visited in Ha.
  destruct (String.eqb_spec (dxftype (raw_entity e)) "INSERT") as [Hi|];
    [|by apply elem_of_nil in Ha].
  specialize (Hplaced Hi). rewrite Forall_forall in Hplaced. by apply Hplaced.
Qed.

Lemma parse_dxf_total (name : string) (doc : RawDocument F) :
  safe_document doc →
  ∃ d h2, parse_dxf name (Got doc) [] = Ok (Some d, h2).
Proof.
  intros (Hm & Hb & Hplaced).
  destruct (normalize_document_total name doc [] Hm Hb) as (d0 & h1 & Hn).
  destruct (normalize_document_represents _ _ _ _ Hn)
    as (_ & _ & _ & _ & hb & _ & _ & Hc & Hrep).
  destruct (recenter_total doc d0 h1 _ Hc Hrep Hplaced) as (d & h2 & Hr).
  exists d, h2. unfold parse_dxf, bind. by rewrite Hn, Hr.
Qed.

(** *** Failures outside the guarded branches *)

Lemma entity_to_json_raises entity (attribs : list (RawEntity F))
      (unit_name : string) h :
  unguarded_failure entity = true →
  entity_to_json (Raw entity attribs) unit_name h = Exn.
Proof.
  unfold unguarded_failure. intros Hf. cbn [entity_to_json].
  destruct (shared_keys_readable entity) eqn:Hshared.
  - destruct (shared_keys_values entity Hshared)
      as (hex & lt & lw & ly & hd & Hhex & Hlt & Hlw & Hly & Hhd).
    unfold bind at 1 2 3 4 5.
    rewrite Hhex, Hlt, Hlw, Hly, Hhd. cbn [attempt ret].
    cbn [negb orb] in Hf. apply andb_prop in Hf as [Htype Hf].
    rewrite Htype. apply String.eqb_eq in Htype.
    rewrite (insert_not_text entity Htype).
    apply negb_true_iff in Hf. unfold insert_fields_readable in Hf.
    unfold bind.
    destruct (dxf_xscale entity) as [sx|]; [|done].
    destruct (dxf_yscale entity) as [sy|]; [|done].
    destruct (dxf_zscale entity) as [sz|]; [|done].
    destruct (dxf_name entity) as [nm|]; [|done].
    destruct (dxf_insert entity) as [ins|]; [|done].
    destruct (dxf_rotation entity) as [[rot|]|]; done.
  - clear Hf. unfold shared_keys_readable in Hshared. unfold bind, get_entity_hex.
    destruct (dxf_true_color entity) as [v|].
    + cbn [ret]. cbn in Hshared.
      destruct (dxf_linetype entity); [|done].
      destruct (dxf_lineweight entity); [|done].
      destruct (dxf_layer entity); [|done].
      destruct (dxf_handle entity); done.
    + destruct (dxf_color entity) as [c|]; [|done]. cbn [attempt ret bind].
      unfold bind. cbn [ret]. destruct (c =? 256); cbn in Hshared |- *;
      (destruct (dxf_linetype entity); [|done]);
      (destruct (dxf_lineweight entity); [|done]);
      (destruct (dxf_layer entity); [|done]);
      (destruct (dxf_handle entity); done).
Qed.

Lemma collect_raises {X} (f : X → M F (option loc)) (xs : list X) (x : X) :
  x ∈ xs → (∀ h, f x h = Exn) → ∀ h, collect f xs h = Exn.
Proof.
  intros Hx Hf. induction xs as [|x0 xs IH]; intros h.
  - by apply elem_of_nil in Hx.
  - cbn [collect]. unfold bind. apply elem_of_cons in Hx as [<-|Hx].
    + by rewrite Hf.
    + destruct (f x0 h) as [[r h0]|]; [|done]. by rewrite IH.
Qed.

Lemma block_table_raises (bs : list (RawBlock F)) (unit_name : string)
      (b : RawBlock F) e :
  b ∈ bs → startswith (block_name b) "*" = false →
  e ∈ block_entities b → unguarded_failure (raw_entity e) = true →
  ∀ (m : gmap string (list loc)) h, block_table bs unit_name m h = Exn.
Proof.
  intros Hb Hname He Hf.
  induction bs as [|b0 bs IH]; intros m h.
  - by apply elem_of_nil in Hb.
  - cbn [block_table]. apply elem_of_cons in Hb as [<-|Hb].
    + rewrite Hname. unfold bind. rewrite (collect_raises _ _ e); [done|done|].
      intros h0. destruct e as [entity attribs].
      by apply entity_to_json_raises.
    + destruct (startswith (block_name b0) "*"); [by apply IH|].
      unfold bind. destruct (collect _ _ h) as [[ls h0]|]; [|done].
      destruct ls; by apply IH.
Qed.

Lemma parse_dxf_raises (name : string) (doc : RawDocument F) e h :
  e ∈ modelspace doc ∨
  (∃ b, b ∈ doc_blocks doc ∧ startswith (block_name b) "*" = false ∧
        e ∈ block_entities b) →
  unguarded_failure (raw_entity e) = true →
  parse_dxf name (Got doc) h = Exn.
Proof.
  intros Hwhere Hf. unfold parse_dxf, bind at 1, normalize_document, bind at 1.
  destruct Hwhere as [He|(b & Hb & Hname & He)].
  - destruct (block_table _ _ _ h) as [[m hb]|]; [|done].
    unfold bind. rewrite (collect_raises _ _ e); [done|done|].
    intros h0. destruct e as [entity attribs]. by apply entity_to_json_raises.
  - by rewrite (block_table_raises _ _ b e).
Qed.

End TotalityFacts.

(** ** The loop over the files *)

Section CommandLineFacts.
Context {F : Type} {A : Arith F}.
Implicit Types (jsons : gmap string (JsonFile F)) (s : Summary)
         (file : DXFFile F) (files : list (DXFFile F)).

(** What one iteration does, case by case. *)
Lemma convert_file_cases jsons s file :
  let r := convert_file (jsons, s) file in
  (total (snd r) = S (total s)) ∧
  (∀ k v, jsons !! k = Some v → fst r !! k = Some v) ∧
  (∀ k v, fst r !! k = Some v →
     jsons !! k = Some v ∨
     (jsons !! k = None ∧ stem file = k ∧
      converted (snd r) = S (converted s) ∧
      ∃ d h, parse_dxf (name file) (readfile file) [] = Ok (Some d, h)
             ∧ writing file = Written ∧ v = Dumped d h) ∨
     (jsons !! k = None ∧ stem file = k ∧
      ∃ d h, parse_dxf (name file) (readfile file) [] = Ok (Some d, h)
             ∧ writing file = DumpFailed ∧ v = Truncated)) ∧
  (converted s ≤ converted (snd r))%nat ∧
  (is_Some (fst r !! stem file) ∨ unconvertible file) ∧
  (is_Some (jsons !! stem file) ∨ unconvertible file →
   fst r = jsons ∧ converted (snd r) = converted s).
Proof.
  unfold convert_file, unconvertible, total.
  destruct (jsons !! stem file) as [v0|] eqn:Hk.
  { cbn. split; [lia|]. split; [done|]. split; [by left|].
    split; [done|]. split; [left; by rewrite Hk|done]. }
  assert (Hins : ∀ v1 k v, jsons !! k = Some v →
                   <[stem file := v1]> jsons !! k = Some v).
  { intros v1 k v Hv. rewrite lookup_insert_ne; [done|]. congruence. }
  destruct (parse_dxf _ _ _) as [[[d|] h]|] eqn:Hparse;
    [destruct (writing file) eqn:Hw|..]; cbn.
  - split; [lia|]. split; [apply Hins|]. split; [|split; [lia|split]].
    + intros k v. destruct (decide (stem file = k)) as [<-|Hne].
      * rewrite lookup_insert_eq. intros [= <-]. right. left.
        repeat split; try done. by exists d, h.
      * rewrite lookup_insert_ne by done. by left.
    + left. by rewrite lookup_insert_eq.
    + intros [[? [=]]|Hu]. discriminate Hu.
  - split; [lia|]. split; [done|]. split; [by left|].
    split; [done|]. split; [by right|done].
  - split; [lia|]. split; [apply Hins|]. split; [|split; [lia|split]].
    + intros k v. destruct (decide (stem file = k)) as [<-|Hne].
      * rewrite lookup_insert_eq. intros [= <-]. right. right.
        repeat split; try done. by exists d, h.
      * rewrite lookup_insert_ne by done. by left.
    + left. by rewrite lookup_insert_eq.
    + intros [[? [=]]|Hu]. discriminate Hu.
  - split; [lia|]. split; [done|]. split; [by left|].
    split; [done|]. split; [by right|done].
  - split; [lia|]. split; [done|]. split; [by left|].
    split; [done|]. split; [by right|done].
Qed.

Lemma convert_files_total files :
  ∀ jsons s,
    total (snd (fold_left convert_file files (jsons, s)))
    = (total s + length files)%nat.
Proof.
  induction files as [|file files IH]; intros jsons s; [cbn; lia|].
  cbn [fold_left length].
  destruct (convert_file (jsons, s) file) as [jsons1 s1] eqn:E.
  pose proof (convert_file_cases jsons s file) as (Ht & _). rewrite E in Ht.
  rewrite IH. cbn in Ht. lia.
Qed.

Lemma convert_files_keep files :
  ∀ jsons s k v,
    jsons !! k = Some v →
    fst (fold_left convert_file files (jsons, s)) !! k = Some v.
Proof.
  induction files as [|file files IH]; intros jsons s k v Hk; [done|].
  cbn [fold_left].
  destruct (convert_file (jsons, s) file) as [jsons1 s1] eqn:E.
  pose proof (convert_file_cases jsons s file) as (_ & Hkeep & _).
  rewrite E in Hkeep. apply IH. by apply Hkeep.
Qed.

(** Where a file of [JSONs/] comes from. *)
Lemma convert_files_origin files :
  ∀ jsons s k v,
    fst (fold_left convert_file files (jsons, s)) !! k = Some v →
    jsons !! k = Some v ∨
    (jsons !! k = None ∧
     ∃ file d h, file ∈ files ∧ stem file = k ∧
       parse_dxf (name file) (readfile file) [] = Ok (Some d, h) ∧
       (writing file = Written ∧ v = Dumped d h ∨
        writing file = DumpFailed ∧ v = Truncated)).
Proof.
  induction files as [|file files IH]; intros jsons s k v Hk; [by left|].
  cbn [fold_left] in Hk.
  destruct (convert_file (jsons, s) file) as [jsons1 s1] eqn:E.
  pose proof (convert_file_cases jsons s file) as (_ & Hkeep & Horig & _).
  rewrite E in Hkeep, Horig. cbn in Hkeep, Horig.
  apply IH in Hk as [Hk|(Hnone & f & d & h & Hf & Hstem & Hparse & Hv)].
  - apply Horig in Hk
      as [Hk|[(Hnone & Hstem & _ & d & h & Hparse & Hw & ->)
             |(Hnone & Hstem & d & h & Hparse & Hw & ->)]].
    + by left.
    + right. split; [done|]. exists file, d, h.
      split; [apply list_elem_of_here|]. repeat split; try done. by left.
    + right. split; [done|]. exists file, d, h.
      split; [apply list_elem_of_here|]. repeat split; try done. by right.
  - right. split.
    + destruct (jsons !! k) as [v0|] eqn:Hk0; [|done].
      apply Hkeep in Hk0. congruence.
    + exists f, d, h. split; [by apply list_elem_of_further|done].
Qed.

(** After the loop, every file has a JSON or cannot be converted. *)
Lemma convert_files_settled files :
  ∀ jsons s file,
    file ∈ files →
    is_Some (fst (fold_left convert_file files (jsons, s)) !! stem file)
    ∨ unconvertible file.
Proof.
  induction files as [|f files IH]; intros jsons s file Hin.
  - by apply elem_of_nil in Hin.
  - cbn [fold_left].
    destruct (convert_file (jsons, s) f) as [jsons1 s1] eqn:E.
    apply elem_of_cons in Hin as [->|Hin]; [|by apply IH].
    pose proof (convert_file_cases jsons s f) as (_ & _ & _ & _ & Hs & _).
    rewrite E in Hs. cbn in Hs. destruct Hs as [[v Hv]|Hs]; [|by right].
    left. exists v. by apply convert_files_keep.
Qed.

(** A loop over files that are all settled changes nothing. *)
Lemma convert_files_idle files :
  ∀ jsons s,
    (∀ file, file ∈ files →
             is_Some (jsons !! stem file) ∨ unconvertible file) →
    fst (fold_left convert_file files (jsons, s)) = jsons ∧
    converted (snd (fold_left convert_file files (jsons, s))) = converted s.
Proof.
  induction files as [|f files IH]; intros jsons s Hall; [done|].
  cbn [fold_left].
  destruct (convert_file (jsons, s) f) as [jsons1 s1] eqn:E.
  pose proof (convert_file_cases jsons s f) as (_ & _ & _ & _ & _ & Hidle).
  rewrite E in Hidle. cbn in Hidle.
  destruct (Hidle (Hall f (list_elem_of_here _ _))) as [-> <-].
  apply IH. intros file Hin. apply Hall. by apply list_elem_of_further.
Qed.

Lemma main_run jsons files jsons' s :
  main jsons files = Some (jsons', s) →
  files ≠ [] ∧
  fold_left convert_file files
    (jsons, {| converted := 0; skipped := 0; failed := 0 |}) = (jsons', s).
Proof.
  unfold main. destruct files; [done|]. intros [= <-]. done.
Qed.

End CommandLineFacts.

(** ** The renderer and its endpoint *)

Section RendererFacts.
Context {F : Type}.
Implicit Types (e : Entity F) (entities : list (Entity F)).

(** The line of the background an entity gives, if any. *)
Lemma background_omap entities :
  background entities
  = omap (λ e, if bool_decide
                    (e_type e ∈ ["INSERT"; "HATCH"; "MTEXT"; "TEXT"]%string)
               then None else polyline e) entities.
Proof.
  unfold background.
  assert (Hgen : ∀ acc : list (list (F * F)),
            fold_left
              (λ bg_segs e,
                 if bool_decide
                      (e_type e ∈ ["INSERT"; "HATCH"; "MTEXT"; "TEXT"]%string)
                 then bg_segs
                 else match polyline e with
                      | Some verts => bg_segs ++ [verts]
                      | None => bg_segs
                      end) entities acc
            = acc ++ omap (λ e, if bool_decide
                                     (e_type e ∈ ["INSERT"; "HATCH"; "MTEXT";
                                                  "TEXT"]%string)
                                then None else polyline e) entities).
  { induction entities as [|e entities IH]; intros acc.
    - by rewrite app_nil_r.
    - cbn [fold_left omap list_omap]. rewrite IH.
      destruct (bool_decide _); [done|].
      destruct (polyline e); [|done]. by rewrite <- app_assoc. }
  apply Hgen.
Qed.

Lemma foreground_omap (filtered : Entity F → bool) entities :
  foreground filtered entities
  = (omap (λ e, if filtered e
                   && negb (String.eqb (e_type e) "HATCH" && is_geometry e)
                then polyline e else None) entities,
     omap (λ e, if filtered e
                   && (String.eqb (e_type e) "HATCH" && is_geometry e)
                then Some (vertices_of e) else None) entities).
Proof.
  unfold foreground.
  assert (Hgen : ∀ acc1 acc2 : list (list (F * F)),
            fold_left
              (λ '(fg_segs, hatch_regions) e,
                 if negb (filtered e) then (fg_segs, hatch_regions)
                 else if String.eqb (e_type e) "HATCH" && is_geometry e
                 then (fg_segs, hatch_regions ++ [vertices_of e])
                 else match polyline e with
                      | Some verts => (fg_segs ++ [verts], hatch_regions)
                      | None => (fg_segs, hatch_regions)
                      end) entities (acc1, acc2)
            = (acc1
               ++ omap (λ e, if filtered e
                                && negb (String.eqb (e_type e) "HATCH"
                                         && is_geometry e)
                             then polyline e else None) entities,
               acc2
               ++ omap (λ e, if filtered e
                                && (String.eqb (e_type e) "HATCH"
                                    && is_geometry e)
                             then Some (vertices_of e) else None) entities)).
  { induction entities as [|e entities IH]; intros acc1 acc2.
    - by rewrite !app_nil_r.
    - cbn [fold_left omap list_omap].
      destruct (filtered e); cbn [negb andb]; [|apply IH].
      destruct (String.eqb (e_type e) "HATCH" && is_geometry e);
        cbn [negb].
      + rewrite IH. by rewrite <- app_assoc.
      + destruct (polyline e); rewrite IH; [|done]. by rewrite <- app_assoc. }
  apply Hgen.
Qed.

Lemma polyline_Some e (vs : list (F * F)) :
  polyline e = Some vs ↔
  is_geometry e = true ∧ vertices_of e = vs ∧ (2 ≤ length vs)%nat.
Proof.
  unfold polyline, is_geometry, vertices_of.
  destruct (e_body e) as [| |lk len ak ar verts n].
  - split; [done|]. by intros [? _].
  - split; [done|]. by intros [? _].
  - destruct (1 <? length verts)%nat eqn:Hlen.
    + apply Nat.ltb_lt in Hlen. split.
      * intros [= <-]. split; [done|split; [done|lia]].
      * by intros (_ & -> & _).
    + apply Nat.ltb_ge in Hlen. split; [done|].
      intros (_ & <- & ?). lia.
Qed.

Lemma is_filtered_spec (layers types ids : list string) e :
  is_filtered layers types ids e = true ↔
  (layers ≠ [] → e_layer e ∈ layers) ∧
  (types ≠ [] → e_type e ∈ types) ∧
  (ids ≠ [] → e_id e ∈ ids).
Proof.
  unfold is_filtered. rewrite !andb_true_iff, !orb_true_iff.
  rewrite !bool_decide_eq_true.
  split.
  - intros [[Hl Ht] Hi]. repeat split; intros Hne.
    + by destruct Hl.
    + by destruct Ht.
    + by destruct Hi.
  - intros (Hl & Ht & Hi). repeat split.
    + destruct (decide (layers = [])); [by left|right; by apply Hl].
    + destruct (decide (types = [])); [by left|right; by apply Ht].
    + destruct (decide (ids = [])); [by left|right; by apply Hi].
Qed.

(** The lists when no [set(...)] throws. *)
Lemma collections_ok entities (filters : option Filters)
      (show_background : bool) (layers types ids : list string) :
  let given := default {| filter_layers := Missing; filter_types := Missing;
                          filter_ids := Missing |} filters in
  filter_set (filter_layers given) = Ok layers →
  filter_set (filter_types given) = Ok types →
  filter_set (filter_ids given) = Ok ids →
  collections entities filters show_background
  = Ok {| bg_segs := if show_background then background entities else [];
          fg_segs := fst (foreground (is_filtered layers types ids) entities);
          hatch_regions :=
            snd (foreground (is_filtered layers types ids) entities) |}.
Proof.
  intros given Hl Ht Hi. unfold collections. fold given.
  rewrite Hl, Ht, Hi. by destruct (foreground _ _).
Qed.


Lemma omap_ext_in {X Y} (f g : X → option Y) (xs : list X) :
  (∀ x, x ∈ xs → f x = g x) → omap f xs = omap g xs.
Proof.
  induction xs as [|x xs IH]; intros Hfg; [done|]. cbn.
  rewrite (Hfg x) by apply list_elem_of_here.
  rewrite IH; [done|]. intros y Hy. apply Hfg. by apply list_elem_of_further.
Qed.

(** With no filter, on dicts whose geometry is neither text-like nor
    an INSERT, the lines of the background are those of the
    foreground. *)
Lemma background_is_foreground entities :
  Forall (λ e, is_geometry e = true →
               is_text_type (e_type e) = false ∧
               e_type e ≠ "INSERT"%string) entities →
  background entities = fst (foreground (is_filtered [] [] []) entities).
Proof.
  intros Hall. rewrite background_omap, foreground_omap. cbn [fst].
  apply omap_ext_in. intros e He. rewrite Forall_forall in Hall.
  specialize (Hall e He).
  assert (Hf : is_filtered [] [] [] e = true) by by apply is_filtered_spec.
  rewrite Hf. cbn [andb].
  destruct (polyline e) as [vs|] eqn:Hp.
  2:{ by destruct (bool_decide _), (negb _). }
  apply polyline_Some in Hp as (Hg & _ & _).
  destruct (Hall Hg) as [Htext Hins]. rewrite Hg, andb_true_r.
  destruct (String.eqb_spec (e_type e) "HATCH") as [Hh|Hh]; cbn [negb].
  - rewrite bool_decide_eq_true_2; [done|]. rewrite Hh.
    apply list_elem_of_further, list_elem_of_here.
  - rewrite bool_decide_eq_false_2; [done|].
    intros Hin. unfold is_text_type in Htext.
    repeat (apply elem_of_cons in Hin as [Hin|Hin]); try done.
    + rewrite Hin in Htext. done.
    + rewrite Hin in Htext. done.
    + by apply elem_of_nil in Hin.
Qed.

End RendererFacts.

Section RenderedDocumentFacts.
Context {F : Type} {A : Arith F}.

(** The geometry dicts of the returned document are of entities that
    are neither text-like nor INSERTs. *)
Lemma dumped_entities_geometry (name : string) (doc : RawDocument F)
      (d : CADDocument F) (h2 : store F) :
  parse_dxf name (Got doc) [] = Ok (Some d, h2) →
  Forall (λ e, is_geometry e = true →
               is_text_type (e_type e) = false ∧
               e_type e ≠ "INSERT"%string) (dumped_entities h2 d).
Proof.
  intros Hrun.
  destruct (parse_dxf_represents _ _ _ _ Hrun) as (_ & _ & _ & _ & Hrep & _).
  apply Forall_forall. intros e He Hg.
  unfold dumped_entities in He.
  apply list_elem_of_omap in He as (l & Hl & Hlook).
  destruct (Forall2_elem_of_r _ _ _ _ Hrep Hl)
    as (raw & _ & d0 & Hdesc & Hd0 & _).
  rewrite Hlook in Hd0. injection Hd0 as ->.
  destruct Hdesc as (Htype & _ & _ & _ & _ & _ & Hbody).
  unfold is_geometry, shift_entity in Hg. cbn in Hg.
  cbn [shift_entity e_type with_body]. rewrite Htype.
  destruct (e_body d0); try done. by destruct Hbody as (? & ? & _).
Qed.

End RenderedDocumentFacts.

(** ** Further properties: colours and layers *)

(** The sample cases are run in binary64. *)
#[local] Existing Instance Binary64.python.

Lemma get_layer_hex_colour (table : list RawLayer) (name : string) :
  Forall (λ l, match layer_rgb l with
               | Some (r, g, b) =>
                   0 ≤ r ≤ 255 ∧ 0 ≤ g ≤ 255 ∧ 0 ≤ b ≤ 255
               | None => True
               end) table →
  is_hex_colour (get_layer_hex table name) = true.
Proof.
  intros Hrange. unfold get_layer_hex.
  destruct (List.find _ table) as [l|] eqn:Hfind; [|reflexivity].
  apply find_some in Hfind as [Hin _]. rewrite Forall_forall in Hrange.
  apply list_elem_of_In, Hrange in Hin.
  destruct (layer_rgb l) as [[[r g] b]|]; [|apply aci_to_hex_ok].
  destruct Hin as (? & ? & ?). by apply format_rgb_ok.
Qed.

(** X1.  Whenever [get_entity_hex] returns a colour, it is a string of
    the form [#rrggbb]: a hash sign and six lower-case hexadecimal
    digits, whatever the true colour or the colour index is. *)
Theorem entity_colour_is_hex_string (F : Type) (entity : DXFEntity F)
        (h h' : store F) (s : string) :
  get_entity_hex entity h = Ok (Some s, h') → is_hex_colour s = true.
Proof. apply get_entity_hex_colour. Qed.

Lemma entity_colour_is_hex_string_witness :
  get_entity_hex Inputs.red_line [] = Ok (Some "#000001"%string, []) ∧
  is_hex_colour "#000001" = true.
Proof.
  exact (conj eq_refl
           (entity_colour_is_hex_string float Inputs.red_line [] []
              "#000001" eq_refl)).
Defined.

(** X2.  When the RGB components of the layers lie in 0..255, the
    colour [get_layer_hex] returns for any name, found or not, is a
    string of the form [#rrggbb]. *)
Theorem layer_colour_is_hex_string (table : list RawLayer) (name : string) :
  Forall (λ l, match layer_rgb l with
               | Some (r, g, b) =>
                   0 ≤ r ≤ 255 ∧ 0 ≤ g ≤ 255 ∧ 0 ≤ b ≤ 255
               | None => True
               end) table →
  is_hex_colour (get_layer_hex table name) = true.
Proof. apply get_layer_hex_colour. Qed.

Lemma layer_colour_is_hex_string_witness :
  is_hex_colour (get_layer_hex Cases.layer_list "WALLS") = true.
Proof.
  apply (layer_colour_is_hex_string Cases.layer_list "WALLS").
  repeat constructor; cbn; lia.
Defined.

(** X3.  In a layer table without two layers whose names are the same
    up to case, as ezdxf keeps it, the entry of a layer carries the
    colour of that very layer (its RGB value if it has one, else its
    colour index converted) and its own frozen and locked flags: the
    fallback ["#000000"] of [get_layer_hex] is never taken for a layer
    of the table. *)
Theorem layer_table_own_entry (table : list RawLayer) (l : RawLayer) :
  NoDup ((λ l, lower (layer_name l)) <$> table) → l ∈ table →
  layer_table table !! layer_name l
  = Some {| li_color := own_colour l;
            li_frozen := is_frozen l;
            li_locked := is_locked l |}.
Proof. apply layer_table_lookup. Qed.

Lemma layer_table_own_entry_witness :
  layer_table Cases.layer_list !! "WALLS"%string
  = Some {| li_color := "#ff8000"; li_frozen := true; li_locked := false |}.
Proof.
  refine (layer_table_own_entry Cases.layer_list
            {| layer_name := "WALLS"; layer_rgb := Some (255, 128, 0);
               layer_color := 1; is_frozen := true; is_locked := false |}
            _ _).
  - compute_done.
  - apply list_elem_of_further, list_elem_of_here.
Defined.

(** X4.  The keys of the layer table are exactly the names of the
    layers of the document. *)
Theorem layer_table_has_the_layer_names (table : list RawLayer)
        (k : string) :
  is_Some (layer_table table !! k) ↔ k ∈ layer_name <$> table.
Proof. apply layer_table_keys. Qed.

(** ** Further properties: the returned document *)

Lemma DXF_UNITS_unknown (code : Z) :
  ¬ (0 ≤ code ≤ 20) → DXF_UNITS code = None.
Proof.
  intros Hc. destruct code as [|p|p]; [lia| |reflexivity].
  do 5 (try destruct p as [p|p|]); try reflexivity; lia.
Qed.

(** X5.  The header of the returned document: [filename] is the name
    of the file, [unit_code] is [$INSUNITS] of the header or 0 without
    it, [units] is the label of that code, and ["Unitless"] for a code
    outside 0..20, and [layers] is the layer table. *)
Theorem document_header_fields (F : Type) (A : Arith F) (name : string)
        (doc : RawDocument F) (d : CADDocument F) (h2 : store F) :
  parse_dxf name (Got doc) [] = Ok (Some d, h2) →
  filename d = name ∧
  unit_code d = or_default 0 (header_insunits doc) ∧
  units d = or_default "Unitless"%string (DXF_UNITS (unit_code d)) ∧
  (¬ (0 ≤ unit_code d ≤ 20) → units d = "Unitless"%string) ∧
  layers d = layer_table (doc_layers doc).
Proof.
  intros Hrun.
  destruct (parse_dxf_represents _ _ _ _ Hrun) as (Hfn & Huc & Hun & Hly & _).
  assert (Hunits : units d
                   = or_default "Unitless"%string (DXF_UNITS (unit_code d))).
  { by rewrite Hun, Huc. }
  repeat split; try done.
  intros Hc. by rewrite Hunits, DXF_UNITS_unknown.
Qed.

Lemma document_header_fields_witness :
  ∃ d h2,
    parse_dxf "plan.dxf" (Got Cases.plan) [] = Ok (Some d, h2) ∧
    filename d = "plan.dxf"%string ∧
    unit_code d = or_default 0 (header_insunits Cases.plan) ∧
    units d = or_default "Unitless"%string (DXF_UNITS (unit_code d)) ∧
    (¬ (0 ≤ unit_code d ≤ 20) → units d = "Unitless"%string) ∧
    layers d = layer_table (doc_layers Cases.plan).
Proof.
  eexists _, _.
  assert (Hrun : @parse_dxf _ Binary64.python "plan.dxf" (Got Cases.plan) []
                 = Ok (Some _, _)) by (vm_compute; reflexivity).
  exact (conj Hrun (document_header_fields _ _ _ _ _ _ Hrun)).
Defined.

(** X6.  The [entities] list of the returned document has one dict for
    each modelspace entity that is given one, in the order of the
    modelspace; each is the dict that describes its entity, moved by
    the offset, and its [attributes] are, in order, the moved dicts of
    the attached entities that are given one. *)
Theorem modelspace_dicts_in_order (F : Type) (A : Arith F) (name : string)
        (doc : RawDocument F) (d : CADDocument F) (h2 : store F) :
  parse_dxf name (Got doc) [] = Ok (Some d, h2) →
  Forall2 (represents_moved (units d) (offset d) h2)
          (List.filter (λ e, produces (raw_entity e)) (modelspace doc))
          (entities d).
Proof.
  intros Hrun.
  by destruct (parse_dxf_represents _ _ _ _ Hrun) as (_ & _ & _ & _ & ? & _).
Qed.

Lemma modelspace_dicts_in_order_witness :
  ∃ d h2,
    parse_dxf "plan.dxf" (Got Cases.plan) [] = Ok (Some d, h2) ∧
    Forall2 (represents_moved (units d) (offset d) h2)
            (List.filter (λ e, produces (raw_entity e))
                         (modelspace Cases.plan))
            (entities d).
Proof.
  eexists _, _.
  assert (Hrun : @parse_dxf _ Binary64.python "plan.dxf" (Got Cases.plan) []
                 = Ok (Some _, _)) by (vm_compute; reflexivity).
  exact (conj Hrun (modelspace_dicts_in_order _ _ _ _ _ _ Hrun)).
Defined.

(** X7.  Every list of the [blocks] table of the returned document
    belongs to a block of that name and has one dict for each of its
    entities that is given one, in order; each is the dict that
    describes its entity with the coordinates as read: step 5 does not
    move them. *)
Theorem block_dicts_as_read (F : Type) (A : Arith F) (name : string)
        (doc : RawDocument F) (d : CADDocument F) (h2 : store F)
        (k : string) (ls : list loc) :
  parse_dxf name (Got doc) [] = Ok (Some d, h2) →
  blocks d !! k = Some ls →
  ∃ b, b ∈ doc_blocks doc ∧ block_name b = k ∧
       Forall2 (represents (units d) h2)
               (List.filter (λ e, produces (raw_entity e))
                            (block_entities b)) ls.
Proof.
  intros Hrun.
  destruct (parse_dxf_represents _ _ _ _ Hrun) as (_ & _ & _ & _ & _ & Hb).
  apply Hb.
Qed.

Lemma block_dicts_as_read_witness :
  ∃ d h2 ls,
    parse_dxf "plan.dxf" (Got Cases.plan) [] = Ok (Some d, h2) ∧
    blocks d !! "DOOR"%string = Some ls ∧
    ∃ b, b ∈ doc_blocks Cases.plan ∧ block_name b = "DOOR"%string ∧
         Forall2 (represents (units d) h2)
                 (List.filter (λ e, produces (raw_entity e))
                              (block_entities b)) ls.
Proof.
  eexists _, _, _.
  assert (Hrun : @parse_dxf _ Binary64.python "plan.dxf" (Got Cases.plan) []
                 = Ok (Some _, _)) by (vm_compute; reflexivity).
  match type of Hrun with
  | _ = Ok (Some ?d, _) =>
      assert (Hk : blocks d !! "DOOR"%string = Some _)
        by (vm_compute; reflexivity)
  end.
  exact (conj Hrun (conj Hk (block_dicts_as_read _ _ _ _ _ _ _ _ Hrun Hk))).
Defined.

(** X8.  A geometry dict of the [entities] list keeps the length and
    the area of the flattening as it was read: its vertices are those
    of a modelspace entity moved by the offset, while ["length (u)"]
    and ["area (u^2)"], with [u] the units of the document, hold
    [calculate_length] and [calculate_area] of the vertices before the
    move; they are not computed again. *)
Theorem metrics_of_the_flattening_as_read (F : Type) (A : Arith F)
        (name : string) (doc : RawDocument F) (d : CADDocument F)
        (h2 : store F) (l : loc) (dl : Entity F)
        (len_key area_key : string) (len area : F)
        (vertices : list (F * F)) (vertex_count : nat) :
  parse_dxf name (Got doc) [] = Ok (Some d, h2) →
  l ∈ entities d →
  h2 !! l = Some dl →
  e_body dl = GeometryBody len_key len area_key area vertices vertex_count →
  ∃ e vs, e ∈ modelspace doc ∧ flattening (raw_entity e) = Got vs ∧
          vertices = List.map (shift (offset d)) vs ∧
          len = calculate_length vs ∧ area = calculate_area vs ∧
          len_key = ("length (" ++ units d ++ ")")%string ∧
          area_key = ("area (" ++ units d ++ "^2)")%string.
Proof.
  intros Hrun Hl Hdl Hbody.
  destruct (parse_dxf_represents _ _ _ _ Hrun) as (_ & _ & _ & _ & Hrep & _).
  destruct (Forall2_elem_of_r _ _ _ _ Hrep Hl)
    as (e & [He _]%elem_of_filter_bool & d0 & Hdesc & Hd0 & _).
  rewrite Hdl in Hd0. injection Hd0 as ->.
  destruct Hdesc as (_ & _ & _ & _ & _ & _ & Hb).
  unfold shift_entity in Hbody. cbn in Hbody.
  destruct (e_body d0) as [| |lk len0 ak ar0 vs n]; try discriminate.
  injection Hbody as <- <- <- <- <- <-.
  destruct Hb as (_ & _ & Hflat & _ & -> & -> & -> & -> & _).
  by exists e, vs.
Qed.

Lemma metrics_of_the_flattening_as_read_witness :
  ∃ d h2 l dl len_key len area_key area vertices vertex_count,
    parse_dxf "plan.dxf" (Got Cases.plan) [] = Ok (Some d, h2) ∧
    l ∈ entities d ∧ h2 !! l = Some dl ∧
    e_body dl
    = GeometryBody len_key len area_key area vertices vertex_count ∧
    ∃ e vs, e ∈ modelspace Cases.plan ∧
            flattening (raw_entity e) = Got vs ∧
            vertices = List.map (shift (offset d)) vs ∧
            len = calculate_length vs ∧ area = calculate_area vs ∧
            len_key = ("length (" ++ units d ++ ")")%string ∧
            area_key = ("area (" ++ units d ++ "^2)")%string.
Proof.
  eexists _, _, _, _, _, _, _, _, _, _.
  assert (Hrun : @parse_dxf _ Binary64.python "plan.dxf" (Got Cases.plan) []
                 = Ok (Some _, _)) by (vm_compute; reflexivity).
  match type of Hrun with
  | _ = Ok (Some ?d, ?h2) =>
      assert (Hl : 1%nat ∈ entities d)
        by (cbn [entities]; apply list_elem_of_here);
      assert (Hdl : h2 !! 1%nat = Some _) by reflexivity
  end.
  match type of Hdl with
  | _ = Some ?dl =>
      assert (Hbody : e_body dl = GeometryBody _ _ _ _ _ _) by reflexivity
  end.
  exact (conj Hrun (conj Hl (conj Hdl (conj Hbody
           (metrics_of_the_flattening_as_read _ _ _ _ _ _ _ _ _ _ _ _ _ _
              Hrun Hl Hdl Hbody))))).
Defined.

(** X9.  When no modelspace entity is given a dict, the [entities] list
    of the returned document is empty and its offset is (0, 0),
    whatever the blocks hold. *)
Theorem no_kept_entity_zero_offset (F : Type) (A : Arith F) (name : string)
        (doc : RawDocument F) (d : CADDocument F) (h2 : store F) :
  parse_dxf name (Got doc) [] = Ok (Some d, h2) →
  Forall (λ e, produces (raw_entity e) = false) (modelspace doc) →
  entities d = [] ∧ offset d = (fzero, fzero).
Proof.
  intros Hrun Hnone.
  destruct (parse_dxf_represents _ _ _ _ Hrun) as (_ & _ & _ & _ & Hrep & _).
  assert (Hfilter : ∀ es : list (RawEntity F),
            Forall (λ e, produces (raw_entity e) = false) es →
            List.filter (λ e, produces (raw_entity e)) es = []).
  { induction 1 as [|e es He _ IH]; [done|]. cbn [List.filter].
    by rewrite He. }
  rewrite (Hfilter _ Hnone) in Hrep. apply Forall2_nil_inv_l in Hrep.
  split; [done|].
  apply parse_dxf_store in Hrun as (d0 & h1 & hb & _ & He & _ & Ho & _).
  by rewrite Ho, <- He, Hrep.
Qed.

Lemma no_kept_entity_zero_offset_witness :
  ∃ d h2,
    parse_dxf "plan.dxf" (Got Cases.blank_modelspace) []
    = Ok (Some d, h2) ∧
    entities d = [] ∧ offset d = (0, 0)%float.
Proof.
  eexists _, _.
  assert (Hrun : @parse_dxf _ Binary64.python "plan.dxf"
                   (Got Cases.blank_modelspace) []
                 = Ok (Some _, _)) by (vm_compute; reflexivity).
  refine (conj Hrun (no_kept_entity_zero_offset _ _ _ _ _ _ Hrun _)).
  repeat constructor.
Defined.

(** ** Further properties: when the conversion succeeds *)

(** X10.  [parse_dxf] returns a document whenever no access outside a
    [try] can throw: the shared keys of every entity it visits can be
    read, every INSERT among them has a readable name, insertion
    point, rotation and scales, and the entities attached to the
    INSERTs of the modelspace are text-like or INSERTs. *)
Theorem safe_document_is_parsed (F : Type) (A : Arith F) (name : string)
        (doc : RawDocument F) :
  safe_document doc →
  ∃ d h2, parse_dxf name (Got doc) [] = Ok (Some d, h2).
Proof. apply parse_dxf_total. Qed.

Lemma plan_is_safe : safe_document Cases.plan.
Proof.
  unfold safe_document, Cases.plan, Drawings.plan, Samples.document.
  cbn [modelspace doc_blocks].
  repeat split; repeat constructor; cbn; try done;
    try (intros; repeat constructor; cbn; try done).
Qed.

Lemma safe_document_is_parsed_witness :
  safe_document Cases.plan ∧
  ∃ d h2, parse_dxf "plan.dxf" (Got Cases.plan) [] = Ok (Some d, h2).
Proof.
  exact (conj plan_is_safe
           (safe_document_is_parsed float Binary64.python "plan.dxf"
              Cases.plan plan_is_safe)).
Defined.

(** X11.  One entity of the modelspace, or of a block that is not
    anonymous, whose shared keys cannot be read, or an INSERT whose
    name, insertion point, rotation or scales cannot, makes
    [parse_dxf] throw: no document is returned, whatever the other
    entities are. *)
Theorem unguarded_failure_aborts_parse (F : Type) (A : Arith F)
        (name : string) (doc : RawDocument F) (e : RawEntity F)
        (h : store F) :
  e ∈ modelspace doc ∨
  (∃ b, b ∈ doc_blocks doc ∧ startswith (block_name b) "*" = false ∧
        e ∈ block_entities b) →
  unguarded_failure (raw_entity e) = true →
  parse_dxf name (Got doc) h = Exn.
Proof. apply parse_dxf_raises. Qed.

Lemma unguarded_failure_aborts_parse_witness :
  @parse_dxf _ Binary64.python "door.dxf" (Got Cases.hidden_handle) [] = Exn.
Proof.
  apply (unguarded_failure_aborts_parse float Binary64.python "door.dxf"
           Cases.hidden_handle Cases.no_handle []).
  - right. eexists. split; [apply list_elem_of_here|].
    split; [reflexivity|apply list_elem_of_here].
  - reflexivity.
Defined.

(** ** Further properties: the command-line loop *)

(** X12.  The three counters of the summary add up to the number of
    DXF files: every file is converted, skipped or failed, and none
    twice. *)
Theorem main_counts_every_file (F : Type) (A : Arith F)
        (jsons jsons' : gmap string (JsonFile F))
        (files : list (DXFFile F)) (s : Summary) :
  main jsons files = Some (jsons', s) →
  (converted s + skipped s + failed s)%nat = length files.
Proof.
  intros [_ Hrun]%main_run.
  pose proof (convert_files_total files jsons
                {| converted := 0; skipped := 0; failed := 0 |}) as Ht.
  rewrite Hrun in Ht. exact Ht.
Qed.

Lemma main_counts_every_file_witness :
  ∃ jsons' s,
    @main _ Binary64.python Cases.jsons Cases.dxf_files = Some (jsons', s) ∧
    (converted s + skipped s + failed s)%nat = 5%nat.
Proof.
  eexists _, _.
  assert (Hrun : @main _ Binary64.python Cases.jsons Cases.dxf_files
                 = Some (_, _)) by (vm_compute; reflexivity).
  exact (conj Hrun (main_counts_every_file _ _ _ _ _ _ Hrun)).
Defined.

(** X13.  A JSON file that exists before the run is there after it,
    unchanged: the loop never overwrites or removes one. *)
Theorem main_never_overwrites (F : Type) (A : Arith F)
        (jsons jsons' : gmap string (JsonFile F))
        (files : list (DXFFile F)) (s : Summary) (k : string)
        (v : JsonFile F) :
  main jsons files = Some (jsons', s) →
  jsons !! k = Some v →
  jsons' !! k = Some v.
Proof.
  intros [_ Hrun]%main_run Hk.
  pose proof (convert_files_keep files jsons
                {| converted := 0; skipped := 0; failed := 0 |} k v Hk) as H.
  by rewrite Hrun in H.
Qed.

Lemma main_never_overwrites_witness :
  ∃ jsons' s,
    @main _ Binary64.python Cases.jsons Cases.dxf_files = Some (jsons', s) ∧
    jsons' !! "c"%string = Some Earlier.
Proof.
  eexists _, _.
  assert (Hrun : @main _ Binary64.python Cases.jsons Cases.dxf_files
                 = Some (_, _)) by (vm_compute; reflexivity).
  exact (conj Hrun (main_never_overwrites _ _ _ _ _ _ "c"%string Earlier
                      Hrun eq_refl)).
Defined.

(** X14.  A JSON file that the run creates and dumps in full holds the
    document [parse_dxf] returned for a DXF file of the same stem. *)
Theorem main_writes_parsed_documents (F : Type) (A : Arith F)
        (jsons jsons' : gmap string (JsonFile F))
        (files : list (DXFFile F)) (s : Summary) (k : string)
        (d : CADDocument F) (h : store F) :
  main jsons files = Some (jsons', s) →
  jsons !! k = None →
  jsons' !! k = Some (Dumped d h) →
  ∃ file, file ∈ files ∧ stem file = k ∧ writing file = Written ∧
          parse_dxf (name file) (readfile file) [] = Ok (Some d, h).
Proof.
  intros [_ Hrun]%main_run Hnone Hk.
  pose proof (convert_files_origin files jsons
                {| converted := 0; skipped := 0; failed := 0 |} k
                (Dumped d h)) as H.
  rewrite Hrun in H.
  destruct (H Hk) as [Hold|(_ & f & d' & h' & Hf & Hs & Hp & Hv)].
  - congruence.
  - destruct Hv as [[Hw [= <- <-]]|[_ [=]]]. by exists f.
Qed.

Lemma main_writes_parsed_documents_witness :
  ∃ jsons' s d h,
    @main _ Binary64.python Cases.jsons Cases.dxf_files = Some (jsons', s) ∧
    jsons' !! "a"%string = Some (Dumped d h) ∧
    ∃ file, file ∈ Cases.dxf_files ∧ stem file = "a"%string ∧
            writing file = Written ∧
            parse_dxf (name file) (readfile file) [] = Ok (Some d, h).
Proof.
  eexists _, _, _, _.
  assert (Hrun : @main _ Binary64.python Cases.jsons Cases.dxf_files
                 = Some (_, _)) by (vm_compute; reflexivity).
  refine (conj Hrun _).
  match goal with
  | |- ?P ∧ _ => assert (Hk : P) by (vm_compute; reflexivity)
  end.
  exact (conj Hk
           (main_writes_parsed_documents _ _ _ _ _ _ "a"%string _ _
              Hrun eq_refl Hk)).
Defined.

(** X15.  Running the loop again on the same files converts nothing
    and leaves [JSONs/] as the first run left it: a file converted
    before is skipped, and so is one whose dump threw and left a file
    behind. *)
Theorem main_second_run_converts_nothing (F : Type) (A : Arith F)
        (jsons jsons1 jsons2 : gmap string (JsonFile F))
        (files : list (DXFFile F)) (s1 s2 : Summary) :
  main jsons files = Some (jsons1, s1) →
  main jsons1 files = Some (jsons2, s2) →
  jsons2 = jsons1 ∧ converted s2 = 0%nat.
Proof.
  intros [_ Hrun1]%main_run [_ Hrun2]%main_run.
  pose proof (convert_files_idle files jsons1
                {| converted := 0; skipped := 0; failed := 0 |}) as Hidle.
  rewrite Hrun2 in Hidle. apply Hidle. intros file Hin.
  pose proof (convert_files_settled files jsons
                {| converted := 0; skipped := 0; failed := 0 |} file Hin) as H.
  by rewrite Hrun1 in H.
Qed.

Lemma main_second_run_converts_nothing_witness :
  ∃ jsons1 s1 jsons2 s2,
    @main _ Binary64.python Cases.jsons Cases.dxf_files
    = Some (jsons1, s1) ∧
    @main _ Binary64.python jsons1 Cases.dxf_files = Some (jsons2, s2) ∧
    jsons2 = jsons1 ∧ converted s2 = 0%nat.
Proof.
  eexists _, _, _, _.
  assert (Hrun1 : @main _ Binary64.python Cases.jsons Cases.dxf_files
                  = Some (_, _)) by (vm_compute; reflexivity).
  match type of Hrun1 with
  | _ = Some (?jsons1, _) =>
      assert (Hrun2 : @main _ Binary64.python jsons1 Cases.dxf_files
                      = Some (_, _)) by (vm_compute; reflexivity)
  end.
  exact (conj Hrun1 (conj Hrun2
           (main_second_run_converts_nothing _ _ _ _ _ _ _ _ Hrun1 Hrun2))).
Defined.

(** X16.  A DXF file without a JSON, whose document is one that no
    unguarded access makes throw and whose JSON can be written, is
    converted: the JSON holds the document [parse_dxf] returns for it
    and the converted counter goes up by one. *)
Theorem safe_file_is_saved (F : Type) (A : Arith F)
        (jsons : gmap string (JsonFile F)) (s : Summary)
        (file : DXFFile F) (doc : RawDocument F) :
  jsons !! stem file = None →
  readfile file = Got doc →
  safe_document doc →
  writing file = Written →
  ∃ d h,
    parse_dxf (name file) (Got doc) [] = Ok (Some d, h) ∧
    convert_file (jsons, s) file
    = (<[stem file := Dumped d h]> jsons,
       {| converted := S (converted s); skipped := skipped s;
          failed := failed s |}).
Proof.
  intros Hk Hread Hsafe Hw.
  destruct (parse_dxf_total (name file) doc Hsafe)
    as (d & h & Hparse).
  exists d, h. split; [done|].
  unfold convert_file. by rewrite Hk, Hread, Hparse, Hw.
Qed.

Lemma safe_file_is_saved_witness :
  ∃ d h,
    parse_dxf "a.dxf" (Got Cases.plan) [] = Ok (Some d, h) ∧
    @convert_file _ Binary64.python
      (Cases.jsons, {| converted := 0; skipped := 0; failed := 0 |})
      {| stem := "a"; name := "a.dxf"; readfile := Got Cases.plan;
         writing := Written |}
    = (<["a"%string := Dumped d h]> Cases.jsons,
       {| converted := 1; skipped := 0; failed := 0 |}).
Proof.
  exact (safe_file_is_saved float Binary64.python Cases.jsons
           {| converted := 0; skipped := 0; failed := 0 |}
           {| stem := "a"; name := "a.dxf"; readfile := Got Cases.plan;
         writing := Written |}
           Cases.plan eq_refl eq_refl plan_is_safe eq_refl).
Defined.

(** X17.  A DXF file without a JSON that cannot be read, or whose
    document has an entity on which an unguarded access throws, counts
    as failed and leaves [JSONs/] as it is. *)
Theorem broken_file_counts_as_failed (F : Type) (A : Arith F)
        (jsons : gmap string (JsonFile F)) (s : Summary)
        (file : DXFFile F) :
  jsons !! stem file = None →
  readfile file = Raised ∨
  (∃ doc e, readfile file = Got doc ∧
            (e ∈ modelspace doc ∨
             ∃ b, b ∈ doc_blocks doc ∧
                  startswith (block_name b) "*" = false ∧
                  e ∈ block_entities b) ∧
            unguarded_failure (raw_entity e) = true) →
  convert_file (jsons, s) file
  = (jsons, {| converted := converted s; skipped := skipped s;
               failed := S (failed s) |}).
Proof.
  intros Hk Hbroken. unfold convert_file. rewrite Hk.
  destruct Hbroken as [->|(doc & e & -> & Hwhere & Hf)]; [done|].
  by rewrite (parse_dxf_raises _ doc e [] Hwhere Hf).
Qed.

Lemma broken_file_counts_as_failed_witness :
  @convert_file _ Binary64.python
    (Cases.jsons, {| converted := 0; skipped := 0; failed := 0 |})
    {| stem := "door"; name := "door.dxf";
       readfile := Got Cases.hidden_handle; writing := Written |}
  = (Cases.jsons, {| converted := 0; skipped := 0; failed := 1 |}).
Proof.
  apply (broken_file_counts_as_failed float Binary64.python Cases.jsons
           {| converted := 0; skipped := 0; failed := 0 |}
           {| stem := "door"; name := "door.dxf";
              readfile := Got Cases.hidden_handle; writing := Written |}).
  - reflexivity.
  - right. exists Cases.hidden_handle, Cases.no_handle.
    split; [reflexivity|]. split; [|reflexivity].
    right. eexists. split; [apply list_elem_of_here|].
    split; [reflexivity|apply list_elem_of_here].
Defined.



(** X19.  What the renderer hands to matplotlib when no [set(...)]
    throws: a foreground line for exactly the dicts with at least two
    vertices that are not hatches, a region for exactly the hatches
    with vertices, in both cases only dicts that pass every filter that
    is not empty, on layer, type and id together. *)
Theorem foreground_passes_every_filter (F : Type)
        (entities : list (Entity F)) (filters : Filters)
        (layers types ids : list string) (show_background : bool)
        (scene : Scene F) (vs : list (F * F)) :
  filter_set (filter_layers filters) = Ok layers →
  filter_set (filter_types filters) = Ok types →
  filter_set (filter_ids filters) = Ok ids →
  collections entities (Some filters) show_background = Ok scene →
  (vs ∈ fg_segs scene ↔
   ∃ e, e ∈ entities ∧ is_geometry e = true ∧ vertices_of e = vs ∧
        (2 ≤ length vs)%nat ∧ e_type e ≠ "HATCH"%string ∧
        (layers ≠ [] → e_layer e ∈ layers) ∧
        (types ≠ [] → e_type e ∈ types) ∧
        (ids ≠ [] → e_id e ∈ ids)) ∧
  (vs ∈ hatch_regions scene ↔
   ∃ e, e ∈ entities ∧ is_geometry e = true ∧ vertices_of e = vs ∧
        e_type e = "HATCH"%string ∧
        (layers ≠ [] → e_layer e ∈ layers) ∧
        (types ≠ [] → e_type e ∈ types) ∧
        (ids ≠ [] → e_id e ∈ ids)).
Proof.
  intros Hl Ht Hi Hrun.
  rewrite (collections_ok entities (Some filters) show_background
             layers types ids Hl Ht Hi) in Hrun.
  injection Hrun as <-. cbn [fg_segs hatch_regions].
  rewrite foreground_omap. cbn [fst snd]. rewrite !list_elem_of_omap.
  split; split.
  - intros (e & He & Hsel).
    destruct (is_filtered layers types ids e) eqn:Hf; [|done].
    apply is_filtered_spec in Hf. cbn [andb] in Hsel.
    destruct (negb _) eqn:Hh; [|done].
    apply polyline_Some in Hsel as (Hg & Hvs & Hlen).
    exists e. repeat split; try done; try apply Hf.
    intros Heq. rewrite Heq, Hg in Hh. done.
  - intros (e & He & Hg & Hvs & Hlen & Hh & Hf).
    exists e. split; [done|].
    apply is_filtered_spec in Hf. rewrite Hf. cbn [andb].
    destruct (String.eqb_spec (e_type e) "HATCH"); [done|]. cbn.
    by apply polyline_Some.
  - intros (e & He & Hsel).
    destruct (is_filtered layers types ids e) eqn:Hf; [|done].
    apply is_filtered_spec in Hf. cbn [andb] in Hsel.
    destruct (String.eqb_spec (e_type e) "HATCH") as [Hh|]; [|done].
    destruct (is_geometry e) eqn:Hg; [|done]. injection Hsel as Hvs.
    exists e. repeat split; try done; apply Hf.
  - intros (e & He & Hg & Hvs & Hh & Hf).
    exists e. split; [done|].
    apply is_filtered_spec in Hf. rewrite Hf, Hg, Hh, Hvs. done.
Qed.

Lemma foreground_passes_every_filter_witness :
  ∃ scene,
    collections Cases.drawn
      (Some {| filter_layers := Listed ["WALLS"%string];
               filter_types := Missing; filter_ids := Missing |}) true
    = Ok scene ∧
    ([(0, 0); (1, 0)]%float ∈ fg_segs scene ↔
     ∃ e, e ∈ Cases.drawn ∧ is_geometry e = true ∧
          vertices_of e = [(0, 0); (1, 0)]%float ∧
          (2 ≤ length [(0, 0); (1, 0)]%float)%nat ∧
          e_type e ≠ "HATCH"%string ∧
          (["WALLS"%string] ≠ [] → e_layer e ∈ ["WALLS"%string]) ∧
          (@nil string ≠ [] → e_type e ∈ @nil string) ∧
          (@nil string ≠ [] → e_id e ∈ @nil string)) ∧
    ([(0, 0); (1, 0)]%float ∈ hatch_regions scene ↔
     ∃ e, e ∈ Cases.drawn ∧ is_geometry e = true ∧
          vertices_of e = [(0, 0); (1, 0)]%float ∧
          e_type e = "HATCH"%string ∧
          (["WALLS"%string] ≠ [] → e_layer e ∈ ["WALLS"%string]) ∧
          (@nil string ≠ [] → e_type e ∈ @nil string) ∧
          (@nil string ≠ [] → e_id e ∈ @nil string)).
Proof.
  eexists.
  assert (Hrun : collections Cases.drawn
                   (Some {| filter_layers := Listed ["WALLS"%string];
                            filter_types := Missing;
                            filter_ids := Missing |}) true
                 = Ok _) by (vm_compute; reflexivity).
  exact (conj Hrun
           (foreground_passes_every_filter float Cases.drawn
              {| filter_layers := Listed ["WALLS"%string];
                 filter_types := Missing; filter_ids := Missing |}
              ["WALLS"%string] [] [] true _ [(0, 0); (1, 0)]%float
              eq_refl eq_refl eq_refl Hrun)).
Defined.

(** X20.  The default view of a converted drawing: with no filters and
    the background shown, the lines the renderer gives to the gray
    background collection are exactly the lines it gives to the red
    foreground collection, in the same order, so that every background
    line is drawn over; the result of the endpoint is what matplotlib
    makes of these lists. *)
Theorem default_view_overdraws_background (F : Type) (A : Arith F)
        (name : string) (doc : RawDocument F) (d : CADDocument F)
        (h2 : store F) (scene : Scene F) :
  parse_dxf name (Got doc) [] = Ok (Some d, h2) →
  collections (dumped_entities h2 d) None true = Ok scene →
  bg_segs scene = fg_segs scene ∧
  ∀ draw, API.render_view draw (dumped_entities h2 d) None true = draw scene.
Proof.
  intros Hrun Hscene. split.
  - rewrite (collections_ok _ None true [] [] []) in Hscene by done.
    injection Hscene as <-. cbn [bg_segs fg_segs].
    apply background_is_foreground. by eapply dumped_entities_geometry.
  - intros draw. unfold API.render_view, render_filtered_view_base64.
    by rewrite Hscene.
Qed.

Lemma default_view_overdraws_background_witness :
  ∃ d h2 scene,
    parse_dxf "plan.dxf" (Got Cases.plan) [] = Ok (Some d, h2) ∧
    collections (dumped_entities h2 d) None true = Ok scene ∧
    bg_segs scene = fg_segs scene ∧
    ∀ draw, API.render_view draw (dumped_entities h2 d) None true
            = draw scene.
Proof.
  eexists _, _, _.
  assert (Hrun : @parse_dxf _ Binary64.python "plan.dxf" (Got Cases.plan) []
                 = Ok (Some _, _)) by (vm_compute; reflexivity).
  refine (conj Hrun _).
  match goal with
  | |- ?P ∧ _ => assert (Hscene : P) by (vm_compute; reflexivity)
  end.
  exact (conj Hscene
           (default_view_overdraws_background _ _ _ _ _ _ _ Hrun Hscene)).
Defined.
